(** * pygubudesigner.propertieseditor: the property-inspector panel

    A shallow embedding of [src/pygubudesigner/propertieseditor.py]
    (class [PropertiesEditor]) and the properties proved about it.

    The panel is stateful Python over Tk objects and over dictionaries
    that live in another module, so the embedding is a state-and-exception
    monad over an explicit [world]:
    - Python dict objects (the [properties] tables and everything they
      reference) live in a heap and are reached through [VDict l], so that
      two references to one dict are two copies of the same location;
    - Tk labels and editors live in two object stores and are referred to
      by their index, which is how the property bag and the change
      callbacks share them;
    - calls into the widget descriptor's setter, which belongs to another
      module, are recorded in [setter_calls].

    What belongs to other modules is taken as given: the tables of
    [pygubudesigner.properties] and [CLASS_MAP] are the fields of [Env]
    and the dicts of the heap; the editor factory [create_editor] and the
    getter of a widget descriptor are functions that answer without
    raising; the methods of labels and editors ([grid], [grid_remove],
    [bind], [parameters], [edit]) do what their names say on the object
    and call nothing back.  Logging and the style handler are left out. *)

From Stdlib Require Import String List ZArith Bool Lia.
From stdpp Require Import base option gmap strings list fin_maps.

(** ** Python values *)

(** Dict objects are heap locations. *)
Abbreviation loc := nat (only parsing).

Inductive pyval :=
| VNone
| VBool (b : bool)
| VInt (z : Z)
| VStr (s : string)
| VDict (l : loc).

#[global] Instance pyval_eq_dec : EqDecision pyval.
Proof. solve_decision. Defined.

(** ** Insertion-ordered dictionaries with string keys

    Python's [dict] keeps insertion order: assigning to an existing key
    keeps the key's position, a new key goes last. *)

Abbreviation odict V := (list (string * V)) (only parsing).

Fixpoint dict_get {V} (k : string) (d : odict V) : option V :=
  match d with
  | [] => None
  | (k', v) :: d' => if decide (k = k') then Some v else dict_get k d'
  end.

Fixpoint dict_set {V} (k : string) (v : V) (d : odict V) : odict V :=
  match d with
  | [] => [(k, v)]
  | (k', v') :: d' =>
      if decide (k = k') then (k, v) :: d' else (k', v') :: dict_set k v d'
  end.

(** [k in d] *)
Definition dict_contains {V} (k : string) (d : odict V) : bool :=
  match dict_get k d with Some _ => true | None => false end.

(** [d1.update(d2)] on a copy of [d1]; this is also [dict(d1, **d2)]. *)
Definition dict_update {V} (d1 d2 : odict V) : odict V :=
  fold_left (fun acc kv => dict_set kv.1 kv.2 acc) d2 d1.

Definition dict_keys {V} (d : odict V) : list string := map fst d.

Abbreviation pydict := (odict pyval) (only parsing).

(** ** Exceptions *)

Inductive exn :=
| KeyError (key : string)
| AttributeError (attr : string)
| TypeError (msg : string)
| InvalidRef.
(** [InvalidRef] is not a Python exception: it is what the model answers
    when an index or a location names no object.  Python references
    cannot dangle; [panel_wf] below shows the pairs of the property bag
    name objects of the stores. *)

Inductive result (A : Type) :=
| Ok (a : A)
| Raise (e : exn).
Arguments Ok {A} a.
Arguments Raise {A} e.

(** ** External objects *)

(** The widget descriptor belongs to the designer's model.  The panel
    reads [classname] and [start_id], calls [widget_property(name)] to
    read a value and [widget_property(name, value)] to set one.  The
    getter is the descriptor's answer at the time of the call; setter
    calls are recorded in the world. *)
Record WidgetDescr := {
  wd_id : nat;                       (* which object it is *)
  classname : string;
  start_id : pyval;
  widget_property : string -> pyval;
}.

(** What [CLASS_MAP[wclass].builder] exposes. *)
Record BuilderClass := {
  OPTIONS_STANDARD : list string;
  OPTIONS_SPECIFIC : list string;
  OPTIONS_CUSTOM : list string;
}.

Record ClassMapEntry := { builder : BuilderClass }.

(** The class of the object the editor factory returns. *)
Inductive EditorClass :=
| NamedIDPropertyEditor
| PropertyEditor (kind : pyval).

(** The closure [on_change_cb] built by [make_on_change_cb(pname, editor)]. *)
Inductive callback :=
| on_change_cb (pname : string) (editor : nat).

(** A [ttk.Label]; [lb_tooltip] is the [tooltip.text] of the tooltip
    attached to it, when one is attached. *)
Record Label := {
  lb_text : string;
  lb_row : nat;
  lb_column : nat;
  lb_gridded : bool;
  lb_tooltip : option pyval;
}.

(** A property editor: its class, its place in the grid, whether it is in
    the layout, its event bindings, the keyword arguments of the last
    [parameters] call and its current value. *)
Record Editor := {
  ed_class : EditorClass;
  ed_row : nat;
  ed_column : nat;
  ed_gridded : bool;
  ed_bindings : odict callback;
  ed_parameters : option pydict;
  ed_value : pyval;
}.

(** ** The static environment: the imported modules *)

Record Env := {
  (* pygubudesigner.properties *)
  WIDGET_REQUIRED_OPTIONS : list string;
  WIDGET_STANDARD_OPTIONS : list string;
  WIDGET_SPECIFIC_OPTIONS : list string;
  WIDGET_CUSTOM_OPTIONS : list string;
  REQUIRED_OPTIONS : loc;
  TK_WIDGET_OPTIONS : loc;
  CUSTOM_OPTIONS : loc;
  (* pygubu.builder *)
  CLASS_MAP : gmap string ClassMapEntry;
  (* pygubudesigner.widgets.propertyeditor *)
  create_editor : pyval -> EditorClass;
}.

(** ** The world *)

Record world := World {
  heap : gmap loc pydict;
  labels : list Label;
  editors : list Editor;
  _current : option WidgetDescr;            (* self._current *)
  current : option (option WidgetDescr);    (* self.current, when assigned *)
  _propbag : odict (nat * nat);             (* self._propbag *)
  setter_calls : list (WidgetDescr * string * pyval);
  repositions : nat;                        (* calls of self._sframe.reposition() *)
}.

Definition set_heap (f : gmap loc pydict -> gmap loc pydict) (w : world) : world :=
  World (f (heap w)) (labels w) (editors w) (_current w) (current w)
        (_propbag w) (setter_calls w) (repositions w).
Definition set_labels (f : list Label -> list Label) (w : world) : world :=
  World (heap w) (f (labels w)) (editors w) (_current w) (current w)
        (_propbag w) (setter_calls w) (repositions w).
Definition set_editors (f : list Editor -> list Editor) (w : world) : world :=
  World (heap w) (labels w) (f (editors w)) (_current w) (current w)
        (_propbag w) (setter_calls w) (repositions w).
Definition set__current (c : option WidgetDescr) (w : world) : world :=
  World (heap w) (labels w) (editors w) c (current w)
        (_propbag w) (setter_calls w) (repositions w).
Definition set_current (c : option WidgetDescr) (w : world) : world :=
  World (heap w) (labels w) (editors w) (_current w) (Some c)
        (_propbag w) (setter_calls w) (repositions w).
Definition set__propbag (f : odict (nat * nat) -> odict (nat * nat)) (w : world) : world :=
  World (heap w) (labels w) (editors w) (_current w) (current w)
        (f (_propbag w)) (setter_calls w) (repositions w).
Definition log_setter_call (c : WidgetDescr * string * pyval) (w : world) : world :=
  World (heap w) (labels w) (editors w) (_current w) (current w)
        (_propbag w) (setter_calls w ++ [c]) (repositions w).
Definition count_reposition (w : world) : world :=
  World (heap w) (labels w) (editors w) (_current w) (current w)
        (_propbag w) (setter_calls w) (S (repositions w)).

(** ** The monad: state, and exceptions that keep the state reached *)

Definition M (A : Type) : Type := world -> result A * world.

#[global] Instance M_ret : MRet M := fun A a w => (Ok a, w).
#[global] Instance M_bind : MBind M := fun A B f m w =>
  match m w with
  | (Ok a, w') => f a w'
  | (Raise e, w') => (Raise e, w')
  end.

Definition raise {A} (e : exn) : M A := fun w => (Raise e, w).
Definition gets {A} (f : world -> A) : M A := fun w => (Ok (f w), w).
Definition modify (f : world -> world) : M unit := fun w => (Ok tt, f w).

(** [for x in l: f x] *)
Fixpoint for_each {A} (f : A -> M unit) (l : list A) : M unit :=
  match l with
  | [] => mret tt
  | x :: l' => f x ;; for_each f l'
  end.

(** A [for] loop that carries local variables [b]. *)
Fixpoint for_fold {A B} (f : B -> A -> M B) (l : list A) (b : B) : M B :=
  match l with
  | [] => mret b
  | x :: l' => b' ← f b x; for_fold f l' b'
  end.

(** ** Python operations on values *)

Definition deref (l : loc) : M pydict := fun w =>
  match heap w !! l with
  | Some d => (Ok d, w)
  | None => (Raise InvalidRef, w)
  end.

(** [bool(v)] *)
Definition truthy (h : gmap loc pydict) (v : pyval) : bool :=
  match v with
  | VNone => false
  | VBool b => b
  | VInt z => negb (Z.eqb z 0)
  | VStr s => negb (bool_decide (s = ""))
  | VDict l => match h !! l with Some [] => false | _ => true end
  end.

(** [v.copy()]: a new dict with the same items; the items themselves are
    shared.  The copy is local to the caller and is kept as a value. *)
Definition py_copy (v : pyval) : M pydict :=
  match v with
  | VDict l => deref l
  | _ => raise (AttributeError "copy")
  end.

(** [v[k]] *)
Definition py_getitem (v : pyval) (k : string) : M pyval :=
  match v with
  | VDict l =>
      d ← deref l;
      match dict_get k d with
      | Some x => mret x
      | None => raise (KeyError k)
      end
  | _ => raise (TypeError "subscript")
  end.

(** [v.get(k, dflt)] *)
Definition py_get (v : pyval) (k : string) (dflt : pyval) : M pyval :=
  match v with
  | VDict l => d ← deref l; mret (default dflt (dict_get k d))
  | _ => raise (AttributeError "get")
  end.

(** [k in v]: key membership on a dict, substring test on a str. *)
Definition py_in (k : string) (v : pyval) : M bool :=
  match v with
  | VDict l => d ← deref l; mret (dict_contains k d)
  | VStr s => mret (match String.index 0 k s with Some _ => true | None => false end)
  | _ => raise (TypeError "argument is not iterable")
  end.

(** [v[k] = x] *)
Definition py_setitem (v : pyval) (k : string) (x : pyval) : M unit :=
  match v with
  | VDict l => d ← deref l; modify (set_heap <[l := dict_set k x d]>)
  | _ => raise (TypeError "item assignment")
  end.

(** The keyword arguments of a call [f( **v )]: the items of [v], copied. *)
Definition py_kwargs (v : pyval) : M pydict :=
  match v with
  | VDict l => deref l
  | _ => raise (TypeError "argument after ** must be a mapping")
  end.

(** The dict display [{}]: a new, empty dict object. *)
Definition py_new_dict : M pyval := fun w =>
  let l := fresh (dom (heap w)) in
  (Ok (VDict l), set_heap <[l := []]> w).

(** ** Tk objects *)

Definition lb_set_gridded (b : bool) (x : Label) : Label :=
  {| lb_text := lb_text x; lb_row := lb_row x; lb_column := lb_column x;
     lb_gridded := b; lb_tooltip := lb_tooltip x |}.
Definition lb_set_place (r c : nat) (x : Label) : Label :=
  {| lb_text := lb_text x; lb_row := r; lb_column := c;
     lb_gridded := true; lb_tooltip := lb_tooltip x |}.
Definition lb_set_tooltip (t : pyval) (x : Label) : Label :=
  {| lb_text := lb_text x; lb_row := lb_row x; lb_column := lb_column x;
     lb_gridded := lb_gridded x; lb_tooltip := Some t |}.

Definition ed_set_gridded (b : bool) (x : Editor) : Editor :=
  {| ed_class := ed_class x; ed_row := ed_row x; ed_column := ed_column x;
     ed_gridded := b; ed_bindings := ed_bindings x;
     ed_parameters := ed_parameters x; ed_value := ed_value x |}.
Definition ed_set_place (r c : nat) (x : Editor) : Editor :=
  {| ed_class := ed_class x; ed_row := r; ed_column := c;
     ed_gridded := true; ed_bindings := ed_bindings x;
     ed_parameters := ed_parameters x; ed_value := ed_value x |}.
Definition ed_set_bindings (b : odict callback) (x : Editor) : Editor :=
  {| ed_class := ed_class x; ed_row := ed_row x; ed_column := ed_column x;
     ed_gridded := ed_gridded x; ed_bindings := b;
     ed_parameters := ed_parameters x; ed_value := ed_value x |}.
Definition ed_set_parameters (p : pydict) (x : Editor) : Editor :=
  {| ed_class := ed_class x; ed_row := ed_row x; ed_column := ed_column x;
     ed_gridded := ed_gridded x; ed_bindings := ed_bindings x;
     ed_parameters := Some p; ed_value := ed_value x |}.
Definition ed_set_value (v : pyval) (x : Editor) : Editor :=
  {| ed_class := ed_class x; ed_row := ed_row x; ed_column := ed_column x;
     ed_gridded := ed_gridded x; ed_bindings := ed_bindings x;
     ed_parameters := ed_parameters x; ed_value := v |}.

Definition get_label (i : nat) : M Label := fun w =>
  match labels w !! i with
  | Some x => (Ok x, w)
  | None => (Raise InvalidRef, w)
  end.
Definition get_editor (i : nat) : M Editor := fun w =>
  match editors w !! i with
  | Some x => (Ok x, w)
  | None => (Raise InvalidRef, w)
  end.

Definition update_label (f : Label -> Label) (i : nat) : M unit :=
  x ← get_label i; modify (set_labels <[i := f x]>).
Definition update_editor_obj (f : Editor -> Editor) (i : nat) : M unit :=
  x ← get_editor i; modify (set_editors <[i := f x]>).

(** [ttk.Label(master, text=...)]: not yet in the layout. *)
Definition new_label (text : string) : M nat := fun w =>
  (Ok (length (labels w)),
   set_labels (fun ls => ls ++ [{| lb_text := text; lb_row := 0; lb_column := 0;
                                   lb_gridded := false; lb_tooltip := None |}]) w).

(** An editor as the factory returns it: not yet in the layout, nothing
    bound, [parameters] never called. *)
Definition new_editor (c : EditorClass) : M nat := fun w =>
  (Ok (length (editors w)),
   set_editors (fun es => es ++ [{| ed_class := c; ed_row := 0; ed_column := 0;
                                    ed_gridded := false; ed_bindings := [];
                                    ed_parameters := None; ed_value := VStr "" |}]) w).

(** [label.grid(row=r, column=c, ...)] *)
Definition label_grid_at (i r c : nat) : M unit := update_label (lb_set_place r c) i.
(** [label.grid()]: back in the layout, where it was. *)
Definition label_grid (i : nat) : M unit := update_label (lb_set_gridded true) i.
(** [label.grid_remove()]: out of the layout; the object stays. *)
Definition label_grid_remove (i : nat) : M unit := update_label (lb_set_gridded false) i.
(** [label.tooltip = create_tooltip(label, text)] *)
Definition label_create_tooltip (i : nat) (text : pyval) : M unit :=
  update_label (lb_set_tooltip text) i.
(** [label.tooltip.text = text] *)
Definition label_tooltip_set_text (i : nat) (text : pyval) : M unit :=
  x ← get_label i;
  match lb_tooltip x with
  | Some _ => modify (set_labels <[i := lb_set_tooltip text x]>)
  | None => raise (AttributeError "tooltip")
  end.

Definition widget_grid_at (i r c : nat) : M unit := update_editor_obj (ed_set_place r c) i.
Definition widget_grid (i : nat) : M unit := update_editor_obj (ed_set_gridded true) i.
Definition widget_grid_remove (i : nat) : M unit := update_editor_obj (ed_set_gridded false) i.

(** [editor.bind(sequence, cb)]: Tk replaces the binding of [sequence]. *)
Definition editor_bind (i : nat) (sequence : string) (cb : callback) : M unit :=
  x ← get_editor i;
  modify (set_editors <[i := ed_set_bindings (dict_set sequence cb (ed_bindings x)) x]>).
(** [editor.parameters( **kw )] *)
Definition editor_parameters (i : nat) (kw : pydict) : M unit :=
  update_editor_obj (ed_set_parameters kw) i.
(** [editor.edit(value)] *)
Definition editor_edit (i : nat) (value : pyval) : M unit :=
  update_editor_obj (ed_set_value value) i.
(** [isinstance(editor, NamedIDPropertyEditor)] *)
Definition isinstance_NamedIDPropertyEditor (i : nat) : M bool :=
  x ← get_editor i;
  mret (match ed_class x with NamedIDPropertyEditor => true | _ => false end).

(** [getattr(class_descr, attrname)] *)
Definition getattr (class_descr : BuilderClass) (attrname : option string)
  : M (list string) :=
  match attrname with
  | None => raise (TypeError "attribute name must be string")
  | Some a =>
      if decide (a = "OPTIONS_STANDARD") then mret (OPTIONS_STANDARD class_descr)
      else if decide (a = "OPTIONS_SPECIFIC") then mret (OPTIONS_SPECIFIC class_descr)
      else if decide (a = "OPTIONS_CUSTOM") then mret (OPTIONS_CUSTOM class_descr)
      else raise (AttributeError a)
  end.

(** The loop that resolves a per-class help mapping: the value of the
    first key [k] with [classname.startswith(k)], else [""]. *)
Fixpoint help_for_class (classname : string) (items : pydict) : pyval :=
  match items with
  | [] => VStr ""
  | (k, v) :: items' =>
      if String.prefix k classname then v else help_for_class classname items'
  end.

(** ** class PropertiesEditor *)

Section PropertiesEditor.
Context (env : Env).

(** The four groups of [_create_properties]: group code, group name (as
    written, before translation), property names, descriptors. *)
Definition create_groups : list (string * string * list string * loc) :=
  [ ("00", "Required", WIDGET_REQUIRED_OPTIONS env, REQUIRED_OPTIONS env);
    ("01", "Standard", WIDGET_STANDARD_OPTIONS env, TK_WIDGET_OPTIONS env);
    ("02", "Specific", WIDGET_SPECIFIC_OPTIONS env, TK_WIDGET_OPTIONS env);
    ("03", "Custom", WIDGET_CUSTOM_OPTIONS env, CUSTOM_OPTIONS env) ].

(** The four groups of [edit]: group code, attribute of the builder
    class that lists the class's properties, property names, descriptors. *)
Definition edit_groups : list (string * option string * list string * loc) :=
  [ ("00", None, WIDGET_REQUIRED_OPTIONS env, REQUIRED_OPTIONS env);
    ("01", Some "OPTIONS_STANDARD", WIDGET_STANDARD_OPTIONS env, TK_WIDGET_OPTIONS env);
    ("02", Some "OPTIONS_SPECIFIC", WIDGET_SPECIFIC_OPTIONS env, TK_WIDGET_OPTIONS env);
    ("03", Some "OPTIONS_CUSTOM", WIDGET_CUSTOM_OPTIONS env, CUSTOM_OPTIONS env) ].

Definition _on_property_changed (name : string) (editor : nat) : M unit :=
  cur ← gets _current;
  match cur with
  | None => raise (AttributeError "widget_property")
  | Some wdescr =>
      x ← get_editor editor;
      modify (log_setter_call (wdescr, name, ed_value x))
  end.

Definition _create_editor (pname : string) (wdata : pyval) : M nat :=
  wtype ← py_get wdata "editor" VNone;
  editor ← new_editor (create_editor env wtype);
  editor_bind editor "<<PropertyChanged>>" (on_change_cb pname editor);;
  mret editor.

(** The body of the inner loop of [_create_properties]; [row] is the
    loop's running grid row, the result is the row after it. *)
Definition create_property (gcode : string) (propdescr : loc) (col : nat)
    (row : nat) (name : string) : M nat :=
  kwdata ← py_getitem (VDict propdescr) name;
  label ← new_label (name +:+ ":");
  label_grid_at label row col;;
  label_create_tooltip label (VStr "?");;
  widget ← _create_editor name kwdata;
  widget_grid_at widget row (col + 1);;
  modify (set__propbag (dict_set (gcode +:+ name) (label, widget)));;
  mret (row + 1).

Definition create_group (col : nat) (row : nat)
    (g : string * string * list string * loc) : M nat :=
  let '(gcode, gname, plist, propdescr) := g in
  label ← new_label gname;
  label_grid_at label row 0;;
  for_fold (create_property gcode propdescr col) plist (row + 1).

Definition _create_properties : M unit :=
  for_fold (create_group 0) create_groups 0;; mret tt.

(** The merged descriptor of [update_editor]: the copy of [propdescr],
    overridden by the entry for [classname] when there is one. *)
Definition merge_class_descr (classname : string) (pdescr : pydict) : M pydict :=
  match dict_get classname pdescr with
  | Some override => kw ← py_kwargs override; mret (dict_update pdescr kw)
  | None => mret pdescr
  end.

(** [update_editor], statement by statement.  [pdescr] is a copy and is
    only read, so it is a value; [params] is a reference, to the dict the
    descriptor names or to a new one.  The [{}] of
    [pdescr.get("params", {})] is allocated only when it is used. *)
Definition update_editor (label editor : nat) (wdescr : WidgetDescr)
    (pname : string) (propdescr : pyval) : M unit :=
  pdescr ← py_copy propdescr;
  let classname := classname wdescr in
  default_mode ←
    match dict_get "params" pdescr with
    | Some p => py_get p "mode" VNone
    | None => mret VNone
    end;
  pdescr ← merge_class_descr classname pdescr;
  params ←
    match dict_get "params" pdescr with
    | Some p => mret p
    | None => py_new_dict
    end;
  ((if decide (default_mode = VNone) then mret tt
    else
      has_mode ← py_in "mode" params;
      if (has_mode : bool) then mret tt
      else py_setitem params "mode" default_mode) : M unit);;
  ((if decide (pname = "id") then
      is_named ← isinstance_NamedIDPropertyEditor editor;
      if (is_named : bool) then py_setitem params "placeholder" (start_id wdescr)
      else mret tt
    else mret tt) : M unit);;
  kw ← py_kwargs params;
  editor_parameters editor kw;;
  let help := default VNone (dict_get "help" pdescr) in
  help ←
    match help with
    | VDict l => items ← deref l; mret (help_for_class classname items)
    | _ => mret help
    end;
  label_tooltip_set_text label help;;
  let default_ := default (VStr "") (dict_get "default" pdescr) in
  let value := widget_property wdescr pname in
  h ← gets heap;
  let value := if negb (truthy h value) && truthy h default_ then default_ else value in
  editor_edit editor value.

(** The body of the inner loop of [edit]. *)
Definition edit_property (wdescr : WidgetDescr) (class_descr : BuilderClass)
    (gcode : string) (attrname : option string) (gproperties : loc)
    (name : string) : M unit :=
  propdescr ← py_getitem (VDict gproperties) name;
  bag ← gets _propbag;
  match dict_get (gcode +:+ name) bag with
  | None => raise (KeyError (gcode +:+ name))
  | Some (label, widget) =>
      shown ←
        (if decide (gcode = "00") then mret true
         else
           names ← getattr class_descr attrname;
           mret (bool_decide (name ∈ names)));
      if (shown : bool) then
        update_editor label widget wdescr name propdescr;;
        label_grid label;;
        widget_grid widget
      else
        label_grid_remove label;;
        widget_grid_remove widget
  end.

Definition edit_group (wdescr : WidgetDescr) (class_descr : BuilderClass)
    (g : string * option string * list string * loc) : M unit :=
  let '(gcode, attrname, proplist, gproperties) := g in
  for_each (edit_property wdescr class_descr gcode attrname gproperties) proplist.

Definition edit (wdescr : WidgetDescr) : M unit :=
  modify (set__current (Some wdescr));;
  let wclass := classname wdescr in
  match CLASS_MAP env !! wclass with
  | None => raise (KeyError wclass)
  | Some entry =>
      let class_descr := builder entry in
      for_each (edit_group wdescr class_descr) edit_groups;;
      modify count_reposition
  end.

Definition hide_all : M unit :=
  modify (set_current None);;
  bag ← gets _propbag;
  for_each (fun '(_v, (label, widget)) =>
              label_grid_remove label;; widget_grid_remove widget) bag.

(** [__init__]; the style handler it creates belongs to another module
    and does not touch the panel's state. *)
Definition __init__ : M unit :=
  modify (set__current None);;
  modify (set__propbag (fun _ => []));;
  _create_properties;;
  hide_all.

(** ** The toolkit's side *)

(** Tk delivers [sequence] on [editor]: the bound callback runs. *)
Definition event_generate (editor : nat) (sequence : string) : M unit :=
  x ← get_editor editor;
  match dict_get sequence (ed_bindings x) with
  | Some (on_change_cb pname e) => _on_property_changed pname e
  | None => mret tt
  end.

(** The user changes the content of an editor: the editor holds the new
    value and fires [<<PropertyChanged>>]. *)
Definition user_input (editor : nat) (value : pyval) : M unit :=
  editor_edit editor value;;
  event_generate editor "<<PropertyChanged>>".

End PropertiesEditor.

(** * The panel in the designer *)

(** What the rest of the designer and the toolkit can do with a panel. *)
Inductive op :=
| Edit (wdescr : WidgetDescr)
| HideAll
| UpdateEditor (label editor : nat) (wdescr : WidgetDescr) (pname : string)
    (propdescr : pyval)
| PropertyChanged (editor : nat)
| UserInput (editor : nat) (value : pyval).

(** The world in which a panel is created: the tables, no panel object. *)
Definition new_world (h : gmap loc pydict) : world :=
  World h [] [] None None [] [] 0.

(** The property name inside a key [gcode + name] of the property bag:
    group codes have two characters. *)
Definition key_name (key : string) : string :=
  match key with
  | String _ (String _ name) => name
  | _ => ""
  end.

Definition key_gcode (key : string) : string :=
  match key with
  | String a (String b _) => String a (String b "")
  | _ => key
  end.

Section panel_definitions.
Context (env : Env).

Definition run_op (o : op) : M unit :=
  match o with
  | Edit wdescr => edit env wdescr
  | HideAll => hide_all
  | UpdateEditor label editor wdescr pname propdescr =>
      update_editor label editor wdescr pname propdescr
  | PropertyChanged editor => event_generate editor "<<PropertyChanged>>"
  | UserInput editor value => user_input editor value
  end.

(** The operations run from Tk's event loop: an exception ends the
    operation that raised it, and the next one starts from the state
    that was reached. *)
Definition run (ops : list op) (w : world) : world :=
  foldl (fun w o => (run_op o w).2) w ops.

(** [w] is a state of a panel built over the tables [h]. *)
Definition panel_state (h : gmap loc pydict) (ops : list op) (w : world) : Prop :=
  ∃ w0, __init__ env (new_world h) = (Ok tt, w0) ∧ w = run ops w0.

(** [name] is a property of the group [gcode]. *)
Definition registered (gcode name : string) : Prop :=
  ∃ attrname proplist gproperties,
    (gcode, attrname, proplist, gproperties) ∈ edit_groups env ∧ name ∈ proplist.

Definition bag_entry_ok (w : world) (key : string) (label editor : nat) : Prop :=
  ∃ lb ed,
    labels w !! label = Some lb ∧ is_Some (lb_tooltip lb) ∧
    editors w !! editor = Some ed ∧
    dict_get "<<PropertyChanged>>" (ed_bindings ed)
      = Some (on_change_cb (key_name key) editor) ∧
    registered (key_gcode key) (key_name key) ∧
    key = key_gcode key +:+ key_name key.

Record panel_wf (w : world) : Prop := {
  wf_entries : ∀ key label editor,
    (key, (label, editor)) ∈ _propbag w → bag_entry_ok w key label editor;
  wf_distinct : ∀ k1 l1 e1 k2 l2 e2,
    (k1, (l1, e1)) ∈ _propbag w → (k2, (l2, e2)) ∈ _propbag w →
    l1 = l2 ∨ e1 = e2 → k1 = k2;
  wf_keys : NoDup (dict_keys (_propbag w));
}.

End panel_definitions.

(** ** A small designer: tables, classes and widgets to run the panel on *)

Module Sample.

Definition tables : gmap loc pydict :=
  list_to_map
    [ (0, [("class", VDict 3); ("id", VDict 4)]);
      (1, [("cursor", VDict 5); ("text", VDict 6); ("command", VDict 7);
           ("state", VDict 8)]);
      (2, [("scrolltype", VDict 9)]);
      (3, [("editor", VStr "fixedentry"); ("params", VDict 10)]);
      (4, [("editor", VStr "namedid"); ("params", VDict 11)]);
      (5, [("editor", VStr "choice"); ("params", VDict 12)]);
      (6, [("editor", VStr "text"); ("help", VDict 13); ("default", VStr "hello")]);
      (7, [("editor", VStr "entry"); ("help", VStr "Callback")]);
      (8, [("editor", VStr "choice"); ("params", VDict 14);
           ("ttk.Button", VDict 15)]);
      (9, [("editor", VStr "choice"); ("default", VStr "both")]);
      (10, [("state", VStr "readonly")]);
      (11, []);
      (12, [("values", VStr "arrow"); ("mode", VStr "readonly")]);
      (13, [("tk.", VStr "Tk text"); ("ttk.", VStr "Themed text")]);
      (14, [("mode", VStr "readonly"); ("values", VStr "normal")]);
      (15, [("params", VDict 16); ("help", VStr "Button state")]);
      (16, [("values", VStr "disabled")]) ].

Definition env : Env :=
  {| WIDGET_REQUIRED_OPTIONS := ["class"; "id"];
     WIDGET_STANDARD_OPTIONS := ["cursor"; "text"];
     WIDGET_SPECIFIC_OPTIONS := ["command"; "state"];
     WIDGET_CUSTOM_OPTIONS := ["scrolltype"];
     REQUIRED_OPTIONS := 0;
     TK_WIDGET_OPTIONS := 1;
     CUSTOM_OPTIONS := 2;
     CLASS_MAP :=
       list_to_map
         [ ("ttk.Button",
            {| builder := {| OPTIONS_STANDARD := ["cursor"; "text"];
                             OPTIONS_SPECIFIC := ["command"; "state"];
                             OPTIONS_CUSTOM := [] |} |});
           ("tk.Frame",
            {| builder := {| OPTIONS_STANDARD := ["cursor"];
                             OPTIONS_SPECIFIC := [];
                             OPTIONS_CUSTOM := ["scrolltype"] |} |}) ];
     create_editor := fun wtype =>
       if decide (wtype = VStr "namedid") then NamedIDPropertyEditor
       else PropertyEditor wtype |}.

Definition button : WidgetDescr :=
  {| wd_id := 1; classname := "ttk.Button"; start_id := VStr "button1";
     widget_property := fun name =>
       if decide (name = "class") then VStr "ttk.Button"
       else if decide (name = "command") then VStr "on_click"
       else VStr "" |}.

Definition frame : WidgetDescr :=
  {| wd_id := 2; classname := "tk.Frame"; start_id := VStr "frame1";
     widget_property := fun name =>
       if decide (name = "class") then VStr "tk.Frame" else VStr "" |}.

(** A widget of a class that [CLASS_MAP] does not know. *)
Definition stranger : WidgetDescr :=
  {| wd_id := 3; classname := "tk.Unknown"; start_id := VStr "unknown1";
     widget_property := fun _ => VStr "" |}.

(** A widget whose getter answers [None]. *)
Definition blank : WidgetDescr :=
  {| wd_id := 4; classname := "ttk.Button"; start_id := VStr "button2";
     widget_property := fun _ => VNone |}.

(** The panel after [__init__]. *)
Definition w0 : world := (__init__ env (new_world tables)).2.

(** The panel after the button was selected. *)
Definition w_button : world := run env [Edit button] w0.

(** The structural dicts of the sample tables; the others (10, 11, 12,
    14, 16) are [params] dicts. *)
Definition structural (l : loc) : Prop := l < 10 ∨ l = 13 ∨ l = 15.

End Sample.

(** Runs of the panel of the sample designer. *)

Module SampleRuns.
Import Sample.

(** [edit(button)] on the new panel. *)
Definition w_edit : world := (edit env button w0).2.

(** [update_editor] for the property ["text"] of the button: label 5,
    editor 3, descriptor at location 6. *)
Definition w_text : world := (update_editor 5 3 button "text" (VDict 6) w0).2.

(** [update_editor] for the property ["state"] of the button: label 8,
    editor 5, descriptor at location 8, with an entry for ["ttk.Button"]. *)
Definition w_state : world := (update_editor 8 5 button "state" (VDict 8) w0).2.

(** [update_editor] for the property ["id"] of the button: label 2,
    editor 1, descriptor at location 4. *)
Definition w_id : world := (update_editor 2 1 button "id" (VDict 4) w0).2.

(** Which pairs of the bag are in the layout: key, label, editor. *)
Definition layout (w : world) : list (string * option bool * option bool) :=
  map (fun '(key, (label, editor)) =>
         (key, lb_gridded <$> labels w !! label, ed_gridded <$> editors w !! editor))
      (_propbag w).

End SampleRuns.

(** * Definitions for the properties *)

(** A relation between the state before and the state after that holds
    whatever the outcome, normal or exceptional. *)
Definition preserves (R : relation world) {A} (m : M A) : Prop :=
  ∀ w, R w (m w).2.

(** [keeps π]: the part [π] of the world is the same before and after. *)
Definition keeps {X} (π : world → X) : relation world := fun w w' => π w' = π w.

(** The parts of a label and of an editor that make it the object it is:
    everything but visibility, tooltip text, parameters and value. *)
Definition lb_identity (x : Label) : string * nat * nat * bool :=
  (lb_text x, lb_row x, lb_column x,
   match lb_tooltip x with Some _ => true | None => false end).

Definition ed_identity (x : Editor) : EditorClass * nat * nat * odict callback :=
  (ed_class x, ed_row x, ed_column x, ed_bindings x).

Definition panel_identity (w : world)
  : odict (nat * nat) * list (EditorClass * nat * nat * odict callback)
    * list (string * nat * nat * bool) :=
  (_propbag w, ed_identity <$> editors w, lb_identity <$> labels w).

Definition label_hidden (w : world) (label : nat) : Prop :=
  ∃ lb, labels w !! label = Some lb ∧ lb_gridded lb = false.

Definition editor_hidden (w : world) (editor : nat) : Prop :=
  ∃ ed, editors w !! editor = Some ed ∧ ed_gridded ed = false.

(** [stable P]: once [P] holds it holds afterwards. *)
Definition stable (P : world → Prop) : relation world := fun w w' => P w → P w'.

(** Which objects are in the layout. *)
Definition grid_flags (w : world) : odict (nat * nat) * list bool * list bool :=
  (_propbag w, lb_gridded <$> labels w, ed_gridded <$> editors w).

(** Only the label [l] and the editor [e] may have changed visibility,
    and only to [b]. *)
Definition changes_only (l e : nat) (b : bool) : relation world := fun w w' =>
  _propbag w' = _propbag w
  ∧ (∀ j, lb_gridded <$> labels w' !! j = lb_gridded <$> labels w !! j
          ∨ (j = l ∧ lb_gridded <$> labels w' !! j = Some b))
  ∧ (∀ j, ed_gridded <$> editors w' !! j = ed_gridded <$> editors w !! j
          ∨ (j = e ∧ ed_gridded <$> editors w' !! j = Some b)).

(** The class's declared list of properties for a group. *)
Definition class_options (class_descr : BuilderClass) (gcode : string) : list string :=
  if decide (gcode = "01") then OPTIONS_STANDARD class_descr
  else if decide (gcode = "02") then OPTIONS_SPECIFIC class_descr
  else if decide (gcode = "03") then OPTIONS_CUSTOM class_descr
  else [].

(** What the specification says is shown for a class: every property of
    the required group, and the properties of the other groups that the
    class declares for the group. *)
Definition shown_by_spec (class_descr : BuilderClass) (gcode name : string) : bool :=
  bool_decide (gcode = "00") || bool_decide (name ∈ class_options class_descr gcode).

(** The pair of a registered property is there and is in the layout
    exactly when [b] says so. *)
Definition visibility_is (w : world) (key : string) (b : bool) : Prop :=
  ∃ label editor,
    dict_get key (_propbag w) = Some (label, editor)
    ∧ lb_gridded <$> labels w !! label = Some b
    ∧ ed_gridded <$> editors w !! editor = Some b.

(** The two branches of the test in [edit]. *)
Definition show_or_hide (wdescr : WidgetDescr) (name : string) (propdescr : pyval)
    (label widget : nat) (shown : bool) : M unit :=
  if shown then
    update_editor label widget wdescr name propdescr;;
    label_grid label;;
    widget_grid widget
  else
    label_grid_remove label;;
    widget_grid_remove widget.

Definition group_visibility_is (class_descr : BuilderClass)
    (g : string * option string * list string * loc) (w : world) : Prop :=
  ∀ name, name ∈ g.1.2 →
    visibility_is w (g.1.1.1 +:+ name) (shown_by_spec class_descr g.1.1.1 name).

(** The descriptor [update_editor] works with: the entries of
    [propdescr], overridden by those of the entry for [classname] when
    there is one.  [None] when [propdescr] or that entry is not a dict. *)
Definition merged_descr (h : gmap loc pydict) (classname : string)
    (propdescr : pyval) : option pydict :=
  match propdescr with
  | VDict pl =>
      generic ← h !! pl;
      match dict_get classname generic with
      | Some (VDict ol) => override ← h !! ol; Some (dict_update generic override)
      | Some _ => None
      | None => Some generic
      end
  | _ => None
  end.

(** [default_mode]: the ["mode"] of the generic ["params"], [VNone] when
    there is none. *)
Definition generic_mode (h : gmap loc pydict) (generic : pydict) : option pyval :=
  match dict_get "params" generic with
  | Some (VDict gp) => d ← h !! gp; Some (default VNone (dict_get "mode" d))
  | Some _ => None
  | None => Some VNone
  end.

(** The two assignments into [params], on the content of the dict. *)
Definition with_default_mode (default_mode : pyval) (d : pydict) : pydict :=
  if decide (default_mode = VNone) then d
  else if dict_contains "mode" d then d
  else dict_set "mode" default_mode d.

Definition with_placeholder (pname : string) (c : EditorClass) (sid : pyval)
    (d : pydict) : pydict :=
  if decide (pname = "id") then
    match c with
    | NamedIDPropertyEditor => dict_set "placeholder" sid d
    | _ => d
    end
  else d.

(** The value [update_editor] passes to [editor.edit]. *)
Definition display_value (h : gmap loc pydict) (value : pyval) (dflt : option pyval)
  : pyval :=
  let default_ := default (VStr "") dflt in
  if negb (truthy h value) && truthy h default_ then default_ else value.

(** The tooltip text for the ["help"] entry [help0]: a dict is resolved
    for the class, anything else is the text. *)
Definition help_resolved (h : gmap loc pydict) (classname : string)
    (help0 help : pyval) : Prop :=
  match help0 with
  | VDict hl => ∃ items, h !! hl = Some items
                         ∧ help = help_for_class classname items
  | _ => help = help0
  end.

(** The value the specification gives: the current value if it is
    truthy, else the default if there is one and it is truthy, else the
    empty string. *)
Definition display_value_spec (h : gmap loc pydict) (current_value : pyval)
    (dflt : option pyval) : pyval :=
  if truthy h current_value then current_value
  else
    match dflt with
    | Some d => if truthy h d then d else VStr ""
    | None => VStr ""
    end.

(** [text] is the value of the first key of [items] that is a prefix of
    [classname], or the empty string when no key is. *)
Definition first_prefix_match (classname : string) (items : pydict) (text : pyval)
  : Prop :=
  (∃ before k after,
     items = before ++ (k, text) :: after
     ∧ (∃ rest, classname = k +:+ rest)
     ∧ ∀ k' v', (k', v') ∈ before → ¬ ∃ rest, classname = k' +:+ rest)
  ∨ ((∀ k' v', (k', v') ∈ items → ¬ ∃ rest, classname = k' +:+ rest)
     ∧ text = VStr "").

(** Every dict of the heap is still there, with every key it had; the
    values are the same, but for ["placeholder"]. *)
Definition heap_grows : relation world := fun w w' =>
  ∀ l d, heap w !! l = Some d →
    ∃ d', heap w' !! l = Some d'
      ∧ ∀ k v, dict_get k d = Some v →
          is_Some (dict_get k d') ∧ (k ≠ "placeholder" → dict_get k d' = Some v).

(** [S] holds of the locations of the structural dicts: the group
    tables, the descriptors, their class entries.  The dicts [params]
    refers to are outside [S]; they are the ones [update_editor] assigns
    into. *)
Definition descr_wf (h : gmap loc pydict) (S : loc → Prop) (classname : string)
    (pl : loc) : Prop :=
  ∃ generic,
    h !! pl = Some generic
    ∧ (∀ v, dict_get "params" generic = Some v →
         ∃ p, v = VDict p ∧ ¬ S p ∧ is_Some (h !! p))
    ∧ (∀ v, dict_get classname generic = Some v →
         ∃ ol override,
           v = VDict ol ∧ S ol ∧ h !! ol = Some override
           ∧ (∀ v', ("params", v') ∈ override →
                ∃ p, v' = VDict p ∧ ¬ S p ∧ is_Some (h !! p))
           ∧ (∀ hl, ("help", VDict hl) ∈ override → is_Some (h !! hl)))
    ∧ (∀ hl, dict_get "help" generic = Some (VDict hl) → is_Some (h !! hl)).

Definition tables_wf (env : Env) (h : gmap loc pydict) (S : loc → Prop)
    (classname : string) : Prop :=
  (∀ s, S s → is_Some (h !! s))
  ∧ ∀ gcode attrname proplist gproperties name,
      (gcode, attrname, proplist, gproperties) ∈ edit_groups env →
      name ∈ proplist →
      S gproperties
      ∧ ∃ group pl,
          h !! gproperties = Some group
          ∧ dict_get name group = Some (VDict pl)
          ∧ S pl
          ∧ descr_wf h S classname pl.

(** The structural dicts are as they were and no dict is lost. *)
Definition heap_frame (S : loc → Prop) (h h' : gmap loc pydict) : Prop :=
  (∀ s, S s → h' !! s = h !! s) ∧ (∀ l, is_Some (h !! l) → is_Some (h' !! l)).

Definition gui (w : world) : list Label * list Editor := (labels w, editors w).

(** Every registered property has a pair in the bag. *)
Definition bag_complete (env : Env) (w : world) : Prop :=
  ∀ gcode name, registered env gcode name →
    is_Some (dict_get (gcode +:+ name) (_propbag w)).

(** What an iteration of [edit] needs and keeps. *)
Definition edit_ready (env : Env) (S : loc → Prop) (wdescr : WidgetDescr)
    (w : world) : Prop :=
  panel_wf env w ∧ bag_complete env w
  ∧ tables_wf env (heap w) S (classname wdescr).

(** The properties [edit] goes through, in the order of its two loops:
    group code, attribute of the builder class, table of descriptors,
    property name. *)
Definition edit_order (env : Env) : list (string * option string * loc * string) :=
  concat (map (fun g : string * option string * list string * loc =>
                 map (fun name => (g.1.1.1, g.1.1.2, g.2, name)) g.1.2)
              (edit_groups env)).

(** The body of the inner loop of [edit] on an element of [edit_order]. *)
Definition edit_step (wdescr : WidgetDescr) (class_descr : BuilderClass)
    (x : string * option string * loc * string) : M unit :=
  edit_property wdescr class_descr x.1.1.1 x.1.1.2 x.1.2 x.2.

(** * Definitions for the further properties *)

(** ** Construction *)

(** The descriptor of [name] in the table at [gp]. *)
Definition descriptor (h : gmap loc pydict) (gp : loc) (name : string) : option pyval :=
  group ← h !! gp; dict_get name group.

(** Every listed property has a descriptor, and the descriptor is a dict:
    what [_create_properties] reads. *)
Definition tables_ready (env : Env) (h : gmap loc pydict) : Prop :=
  ∀ gcode gname plist gp name,
    (gcode, gname, plist, gp) ∈ create_groups env → name ∈ plist →
    ∃ pl, descriptor h gp name = Some (VDict pl) ∧ is_Some (h !! pl).

(** The four tables are dicts, and so is every descriptor they hold for
    a listed property. *)
Definition tables_typed (env : Env) (h : gmap loc pydict) : Prop :=
  ∀ gcode gname plist gp,
    (gcode, gname, plist, gp) ∈ create_groups env →
    is_Some (h !! gp)
    ∧ ∀ name v, name ∈ plist → descriptor h gp name = Some v →
        ∃ pl, v = VDict pl ∧ is_Some (h !! pl).

(** The objects [_create_properties] makes: the header of a group, the
    label of a property, and its editor, the [i]-th of the store. *)
Definition group_label (gname : string) (row : nat) : Label :=
  {| lb_text := gname; lb_row := row; lb_column := 0; lb_gridded := true;
     lb_tooltip := None |}.

Definition property_label (name : string) (row col : nat) : Label :=
  {| lb_text := name +:+ ":"; lb_row := row; lb_column := col; lb_gridded := true;
     lb_tooltip := Some (VStr "?") |}.

Definition property_editor (c : EditorClass) (name : string) (row col i : nat) : Editor :=
  {| ed_class := c; ed_row := row; ed_column := col; ed_gridded := true;
     ed_bindings := [("<<PropertyChanged>>", on_change_cb name i)];
     ed_parameters := None; ed_value := VStr "" |}.

(** The class of the editor for a descriptor: the factory's answer for
    the descriptor's ["editor"] entry, [None] when it has none. *)
Definition editor_class_for (env : Env) (d : pydict) : EditorClass :=
  create_editor env (default VNone (dict_get "editor" d)).

(** The keys [_create_properties] assigns, in the order of assignment. *)
Definition group_keys (g : string * string * list string * loc) : list string :=
  let '(gcode, _, plist, _) := g in map (String.append gcode) plist.

Definition all_keys (env : Env) : list string :=
  concat (map group_keys (create_groups env)).

(** No name is listed twice in a group. *)
Definition names_distinct (env : Env) : Prop :=
  NoDup (WIDGET_REQUIRED_OPTIONS env) ∧ NoDup (WIDGET_STANDARD_OPTIONS env)
  ∧ NoDup (WIDGET_SPECIFIC_OPTIONS env) ∧ NoDup (WIDGET_CUSTOM_OPTIONS env).

(** The pair [(label, editor)] is the one made for the property [name]
    of the table at [gp], on the grid row [row]. *)
Definition built_for (env : Env) (h : gmap loc pydict) (w : world)
    (gp : loc) (name : string) (label editor row : nat) : Prop :=
  ∃ pl d lb ed,
    descriptor h gp name = Some (VDict pl) ∧ h !! pl = Some d
    ∧ labels w !! label = Some lb ∧ editors w !! editor = Some ed
    ∧ lb_identity lb = (name +:+ ":", row, 0, true)
    ∧ ed_identity ed =
        (editor_class_for env d, row, 1,
         [("<<PropertyChanged>>", on_change_cb name editor)]).

(** Every pair of the bag was made for a listed property, on a row of
    its own below [next_row]. *)
Definition bag_built (env : Env) (h : gmap loc pydict) (next_row : nat) (w : world)
  : Prop :=
  ∀ key label editor, (key, (label, editor)) ∈ _propbag w →
    ∃ gcode gname plist gp name row,
      (gcode, gname, plist, gp) ∈ create_groups env ∧ name ∈ plist
      ∧ key = gcode +:+ name ∧ 0 < row < next_row
      ∧ built_for env h w gp name label editor row.

(** The grid row of the label of a pair. *)
Definition row_of (w : world) (label : nat) : option nat := lb_row <$> labels w !! label.

Definition rows_distinct (w : world) : Prop :=
  ∀ k1 l1 e1 k2 l2 e2,
    (k1, (l1, e1)) ∈ _propbag w → (k2, (l2, e2)) ∈ _propbag w →
    row_of w l1 = row_of w l2 → k1 = k2.

(** The invariants of the loops of [_create_properties], the inner one
    and the outer one: the tables are as they were, and the pairs made
    so far are on rows of their own, below the next row. *)
Definition creating (env : Env) (h : gmap loc pydict) (row : nat) (w : world) : Prop :=
  heap w = h ∧ 0 < row ∧ bag_built env h row w ∧ rows_distinct w.

Definition created (env : Env) (h : gmap loc pydict) (row : nat) (w : world) : Prop :=
  heap w = h ∧ bag_built env h row w ∧ rows_distinct w.

(** The editors of the pairs of the bag, in the bag's order. *)
Definition bag_editors (w : world) : list nat := map (fun x => x.2.2) (_propbag w).

(** The labels of a panel under construction that have no tooltip are in
    the layout, and every group created so far has its header. *)
Definition headers_made (groups : list (string * string * list string * loc))
    (w : world) : Prop :=
  (∀ i lb, labels w !! i = Some lb → lb_tooltip lb = None → lb_gridded lb = true)
  ∧ ∀ gcode gname plist gp, (gcode, gname, plist, gp) ∈ groups →
      ∃ i row, labels w !! i = Some (group_label gname row).

(** ** What the operations leave alone *)

(** The parts of the world that belong to the rest of the designer. *)
Definition outside (w : world)
  : gmap loc pydict * list (WidgetDescr * string * pyval) * nat :=
  (heap w, setter_calls w, repositions w).

(** A label and an editor without their visibility. *)
Definition lb_content (x : Label) : string * nat * nat * option pyval :=
  (lb_text x, lb_row x, lb_column x, lb_tooltip x).

Definition ed_content (x : Editor)
  : EditorClass * nat * nat * odict callback * option pydict * pyval :=
  (ed_class x, ed_row x, ed_column x, ed_bindings x, ed_parameters x, ed_value x).

(** Everything but which objects are in the layout and [self.current]. *)
Definition but_visibility (w : world)
  : gmap loc pydict * list (string * nat * nat * option pyval)
    * list (EditorClass * nat * nat * odict callback * option pydict * pyval)
    * option WidgetDescr * odict (nat * nat)
    * list (WidgetDescr * string * pyval) * nat :=
  (heap w, lb_content <$> labels w, ed_content <$> editors w, _current w,
   _propbag w, setter_calls w, repositions w).

(** Only the label [l] and the editor [e] may have changed. *)
Definition only_at (l e : nat) : relation world := fun w w' =>
  (∀ j, j ≠ l → labels w' !! j = labels w !! j)
  ∧ (∀ j, j ≠ e → editors w' !! j = editors w !! j).

(** The panel's own attributes and its calls out. *)
Definition attributes (w : world)
  : option WidgetDescr * option (option WidgetDescr) * odict (nat * nat)
    * list (WidgetDescr * string * pyval) * nat :=
  (_current w, current w, _propbag w, setter_calls w, repositions w).

(** The operations that are change events. *)
Definition is_event (o : op) : bool :=
  match o with
  | PropertyChanged _ | UserInput _ _ => true
  | _ => false
  end.

(** The labels without a tooltip, the headers of the groups, are where
    they were in the layout; the identity of the objects is kept. *)
Definition keeps_headers (env : Env) : relation world := fun w w' =>
  panel_identity w' = panel_identity w
  ∧ (panel_wf env w →
     ∀ i lb, labels w !! i = Some lb → lb_tooltip lb = None →
       lb_gridded <$> labels w' !! i = Some (lb_gridded lb)).

(** ** What [edit] does to the pairs *)

(** What the label [label] and the editor [editor] hold, visibility
    apart. *)
Definition pair_content (label editor : nat) (w : world)
  : option (string * nat * nat * option pyval)
    * option (EditorClass * nat * nat * odict callback * option pydict * pyval) :=
  (lb_content <$> labels w !! label, ed_content <$> editors w !! editor).

(** On a well-formed panel where [key] names the pair
    [(label, editor)], the panel stays well formed, the key names the
    same pair and the pair holds what it held. *)
Definition keeps_pair (env : Env) (key : string) (label editor : nat)
  : relation world := fun w w' =>
  panel_wf env w → dict_get key (_propbag w) = Some (label, editor) →
  panel_wf env w' ∧ dict_get key (_propbag w') = Some (label, editor)
  ∧ pair_content label editor w' = pair_content label editor w.

(** The pair of the property [name] of the group [gcode] holds what
    [update_editor] gives it for the widget [wdescr] and the descriptor
    the tables [h0] have for the property: the value computed from the
    widget's value and the descriptor's default, and the tooltip text
    resolved from the descriptor's help. *)
Definition refreshed (env : Env) (h0 : gmap loc pydict) (wdescr : WidgetDescr)
    (gcode name : string) (w : world) : Prop :=
  ∃ attrname proplist gp group pl pdescr label editor lb ed hx help,
    (gcode, attrname, proplist, gp) ∈ edit_groups env
    ∧ h0 !! gp = Some group ∧ dict_get name group = Some (VDict pl)
    ∧ merged_descr h0 (classname wdescr) (VDict pl) = Some pdescr
    ∧ dict_get (gcode +:+ name) (_propbag w) = Some (label, editor)
    ∧ labels w !! label = Some lb ∧ editors w !! editor = Some ed
    ∧ ed_value ed =
        display_value hx (widget_property wdescr name) (dict_get "default" pdescr)
    ∧ help_resolved hx (classname wdescr) (default VNone (dict_get "help" pdescr)) help
    ∧ lb_tooltip lb = Some help.

(** The invariant of the loops of [edit] on well-formed tables: the
    panel is ready for an iteration and the structural dicts are those
    of [h0]. *)
Definition editing (env : Env) (S : loc → Prop) (wdescr : WidgetDescr)
    (h0 : gmap loc pydict) (w : world) : Prop :=
  edit_ready env S wdescr w ∧ heap_frame S h0 (heap w).

(** Pairs that were refreshed still are. *)
Definition stays_refreshed (env : Env) (h0 : gmap loc pydict) (wdescr : WidgetDescr)
  : relation world := fun w w' =>
  ∀ gcode name, registered env gcode name →
    refreshed env h0 wdescr gcode name w → refreshed env h0 wdescr gcode name w'.

(** ** Failures of [update_editor] *)

(** No dict of the heap refers to a dict that is not there.  Python
    references cannot dangle. *)
Definition heap_closed (h : gmap loc pydict) : Prop :=
  ∀ l d k l', h !! l = Some d → (k, VDict l') ∈ d → is_Some (h !! l').

(** The operation [m] either ends normally or raises from the state it
    started in. *)
Definition all_or_nothing (m : M unit) (w : world) : Prop :=
  (∃ w', m w = (Ok tt, w')) ∨ (∃ e, m w = (Raise e, w)).

(** ** Variations of the small designer *)

Module SampleVariants.

(** The tables without a descriptor for ["scrolltype"]. *)
Definition tables_without_scrolltype : gmap loc pydict :=
  <[2 := []]> Sample.tables.

(** The designer with ["cursor"] listed twice among the standard
    properties. *)
Definition env_twice : Env :=
  {| WIDGET_REQUIRED_OPTIONS := ["class"; "id"];
     WIDGET_STANDARD_OPTIONS := ["cursor"; "text"; "cursor"];
     WIDGET_SPECIFIC_OPTIONS := ["command"; "state"];
     WIDGET_CUSTOM_OPTIONS := ["scrolltype"];
     REQUIRED_OPTIONS := 0;
     TK_WIDGET_OPTIONS := 1;
     CUSTOM_OPTIONS := 2;
     CLASS_MAP := CLASS_MAP Sample.env;
     create_editor := create_editor Sample.env |}.

(** The new panel over tables whose descriptor of ["state"] has a
    string where the entry for the button's class should be a dict. *)
Definition w_bad_class : world :=
  set_heap <[8 := [("editor", VStr "choice"); ("params", VDict 14);
                   ("ttk.Button", VStr "disabled")]]> Sample.w0.

(** The panel after [edit(button)] and then [hide_all]. *)
Definition w_hidden : world :=
  run Sample.env [Edit Sample.button; HideAll] Sample.w0.

(** The entry of [CLASS_MAP] for the button's class. *)
Definition button_entry : ClassMapEntry :=
  {| builder := {| OPTIONS_STANDARD := ["cursor"; "text"];
                   OPTIONS_SPECIFIC := ["command"; "state"];
                   OPTIONS_CUSTOM := [] |} |}.

(** [update_editor] for the property ["command"] of the button: label 7,
    editor 4, descriptor at location 7, which has no ["params"]. *)
Definition w_command : world :=
  (update_editor 7 4 Sample.button "command" (VDict 7) Sample.w0).2.

(** The panel built over a designer that lists ["cursor"] twice. *)
Definition w0_twice : world :=
  (__init__ env_twice (new_world Sample.tables)).2.

End SampleVariants.

(** * Lemmas *)

(** ** Dictionaries *)

Section dict_lemmas.
Context {V : Type}.
Implicit Types (d : odict V) (k : string) (v : V).

Lemma dict_get_set k' k v d :
  dict_get k' (dict_set k v d) = if decide (k' = k) then Some v else dict_get k' d.
Proof.
  induction d as [|[k0 v0] d IH]; simpl.
  - repeat case_decide; congruence.
  - destruct (decide (k = k0)) as [->|Hne]; simpl.
    + repeat case_decide; congruence.
    + rewrite IH. repeat case_decide; congruence.
Qed.

Lemma dict_get_set_eq k v d : dict_get k (dict_set k v d) = Some v.
Proof. rewrite dict_get_set. by case_decide. Qed.

Lemma dict_get_set_ne k' k v d :
  k' ≠ k → dict_get k' (dict_set k v d) = dict_get k' d.
Proof. intros. rewrite dict_get_set. by case_decide. Qed.

Lemma dict_get_Some_elem k v d : dict_get k d = Some v → (k, v) ∈ d.
Proof.
  induction d as [|[k0 v0] d IH]; simpl; [done|].
  case_decide as Hk.
  - intros [= ->]. subst. apply list_elem_of_here.
  - intros H. apply list_elem_of_further. auto.
Qed.

Lemma dict_get_None_keys k d : dict_get k d = None ↔ k ∉ dict_keys d.
Proof.
  unfold dict_keys. induction d as [|[k0 v0] d IH]; simpl.
  - split; [intros _; apply not_elem_of_nil | done].
  - rewrite not_elem_of_cons. case_decide as Hk.
    + split; [done|]. by intros [? _].
    + rewrite IH. split; [done|]. by intros [_ ?].
Qed.

Lemma elem_of_dict_get k v d :
  NoDup (dict_keys d) → (k, v) ∈ d → dict_get k d = Some v.
Proof.
  unfold dict_keys. induction d as [|[k0 v0] d IH]; simpl.
  - intros _ H. by apply elem_of_nil in H.
  - intros Hnd H. apply NoDup_cons in Hnd as [Hk0 Hnd].
    apply elem_of_cons in H as [[= -> ->]|H].
    + by case_decide.
    + case_decide as Hk; [|by auto]. subst.
      exfalso. apply Hk0. apply list_elem_of_fmap. by exists (k0, v).
Qed.

Lemma elem_of_dict_set x k v d : x ∈ dict_set k v d → x = (k, v) ∨ x ∈ d.
Proof.
  induction d as [|[k0 v0] d IH]; simpl.
  - intros H. apply list_elem_of_singleton in H. by left.
  - case_decide as Hk.
    + intros H. apply elem_of_cons in H as [->|H]; [by left|].
      right. by apply list_elem_of_further.
    + intros H. apply elem_of_cons in H as [->|H].
      * right. apply list_elem_of_here.
      * destruct (IH H) as [->|?]; [by left|].
        right. by apply list_elem_of_further.
Qed.

Lemma dict_keys_set_NoDup k v d :
  NoDup (dict_keys d) → NoDup (dict_keys (dict_set k v d)).
Proof.
  unfold dict_keys. induction d as [|[k0 v0] d IH]; simpl.
  - intros _. apply NoDup_singleton.
  - intros Hnd. apply NoDup_cons in Hnd as [Hk0 Hnd].
    case_decide as Hk; simpl.
    + subst. by apply NoDup_cons.
    + apply NoDup_cons. split; [|by auto].
      intros Hin. apply list_elem_of_fmap in Hin as ([k1 v1] & Hk1 & Hin).
      simpl in Hk1. subst k1. apply elem_of_dict_set in Hin as [[= -> ->]|Hin].
      * done.
      * apply Hk0. apply list_elem_of_fmap. by exists (k0, v1).
Qed.

(** [dict(d1, **d2)]: the entries of [d2] win. *)
Lemma dict_get_update k d1 d2 :
  NoDup (dict_keys d2) →
  dict_get k (dict_update d1 d2) =
    match dict_get k d2 with Some v => Some v | None => dict_get k d1 end.
Proof.
  unfold dict_update, dict_keys. revert d1.
  induction d2 as [|[k0 v0] d2 IH]; intros d1 Hnd; simpl; [done|].
  apply NoDup_cons in Hnd as [Hk0 Hnd].
  rewrite IH by done. case_decide as Hk.
  - subst. assert (dict_get k0 d2 = None) as ->.
    { by apply dict_get_None_keys. }
    apply dict_get_set_eq.
  - destruct (dict_get k d2); [done|]. by apply dict_get_set_ne.
Qed.
End dict_lemmas.

(** ** Strings *)

Lemma append_cons (a : Ascii.ascii) (s t : string) :
  String a s +:+ t = String a (s +:+ t).
Proof. done. Qed.

(** [classname.startswith(k)] *)
Lemma prefix_startswith (k s : string) :
  String.prefix k s = true ↔ ∃ rest, s = k +:+ rest.
Proof.
  revert s. induction k as [|a k IH]; intros s.
  - split; [intros _; by exists s | by destruct s].
  - destruct s as [|b s]; simpl.
    + split; [done | by intros [rest ?]].
    + destruct (Ascii.ascii_dec a b) as [->|Hne].
      * rewrite IH. split; intros [rest Hr]; exists rest;
          rewrite append_cons in *; congruence.
      * split; [done|]. intros [rest Hr]. rewrite append_cons in Hr. congruence.
Qed.

Lemma key_parts (g n : string) :
  String.length g = 2 → key_gcode (g +:+ n) = g ∧ key_name (g +:+ n) = n.
Proof.
  destruct g as [|a [|b [|c g]]]; simpl; try discriminate. done.
Qed.

Lemma key_inj (g1 g2 n1 n2 : string) :
  String.length g1 = 2 → String.length g2 = 2 →
  g1 +:+ n1 = g2 +:+ n2 → g1 = g2 ∧ n1 = n2.
Proof.
  intros H1 H2 Heq.
  destruct (key_parts g1 n1 H1) as [Hg1 Hn1].
  destruct (key_parts g2 n2 H2) as [Hg2 Hn2].
  rewrite Heq in Hg1, Hn1. split; congruence.
Qed.

(** ** The monad *)

Lemma bind_Ok {A B} (m : M A) (f : A → M B) w b w' :
  (m ≫= f) w = (Ok b, w') ↔ ∃ a w1, m w = (Ok a, w1) ∧ f a w1 = (Ok b, w').
Proof.
  unfold mbind, M_bind. destruct (m w) as [[a|e] w1]; split.
  - intros H. by exists a, w1.
  - by intros (? & ? & [= -> ->] & ?).
  - done.
  - by intros (? & ? & [=] & _).
Qed.

Lemma bind_Raise {A B} (m : M A) (f : A → M B) w e w' :
  (m ≫= f) w = (Raise e, w') ↔
    m w = (Raise e, w') ∨ ∃ a w1, m w = (Ok a, w1) ∧ f a w1 = (Raise e, w').
Proof.
  unfold mbind, M_bind. destruct (m w) as [[a|e0] w1]; split.
  - intros H. right. by exists a, w1.
  - by intros [[=]|(? & ? & [= -> ->] & ?)].
  - intros [= -> ->]. by left.
  - by intros [[= -> ->]|(? & ? & [=] & _)].
Qed.

Lemma bind_run {A B} (m : M A) (f : A → M B) w :
  (m ≫= f) w =
    match m w with (Ok a, w1) => f a w1 | (Raise e, w1) => (Raise e, w1) end.
Proof. done. Qed.

Section preserves.
Context (R : relation world) `{!PreOrder R}.

Lemma preserves_ret {A} (a : A) : preserves R (mret a).
Proof. intros w. simpl. reflexivity. Qed.

Lemma preserves_raise {A} e : preserves R (@raise A e).
Proof. intros w. simpl. reflexivity. Qed.

Lemma preserves_gets {A} (f : world → A) : preserves R (gets f).
Proof. intros w. simpl. reflexivity. Qed.

Lemma preserves_modify f : (∀ w, R w (f w)) → preserves R (modify f).
Proof. intros H w. apply H. Qed.

Lemma preserves_bind {A B} (m : M A) (f : A → M B) :
  preserves R m → (∀ a, preserves R (f a)) → preserves R (m ≫= f).
Proof.
  intros Hm Hf w. rewrite bind_run. specialize (Hm w).
  destruct (m w) as [[a|e] w1]; simpl in *; [|done].
  etrans; [done|]. apply Hf.
Qed.

Lemma preserves_for_each {A} (f : A → M unit) l :
  (∀ x, x ∈ l → preserves R (f x)) → preserves R (for_each f l).
Proof.
  induction l as [|x l IH]; intros Hf; simpl.
  - apply preserves_ret.
  - apply preserves_bind.
    + apply Hf, list_elem_of_here.
    + intros _. apply IH. intros y Hy. by apply Hf, list_elem_of_further.
Qed.

Lemma preserves_for_fold {A B} (f : B → A → M B) l b :
  (∀ b x, x ∈ l → preserves R (f b x)) → preserves R (for_fold f l b).
Proof.
  revert b. induction l as [|x l IH]; intros b Hf; simpl.
  - apply preserves_ret.
  - apply preserves_bind.
    + apply Hf, list_elem_of_here.
    + intros b'. apply IH. intros b'' y Hy. by apply Hf, list_elem_of_further.
Qed.

Lemma preserves_deref l : preserves R (deref l).
Proof. intros w. unfold deref. destruct (heap w !! l); simpl; reflexivity. Qed.

Lemma preserves_get_label i : preserves R (get_label i).
Proof. intros w. unfold get_label. destruct (labels w !! i); simpl; reflexivity. Qed.

Lemma preserves_get_editor i : preserves R (get_editor i).
Proof. intros w. unfold get_editor. destruct (editors w !! i); simpl; reflexivity. Qed.
End preserves.

#[global] Instance keeps_preorder {X} (π : world → X) : PreOrder (keeps π).
Proof. split; unfold keeps; [by intros w | intros w1 w2 w3 H1 H2; congruence]. Qed.

Lemma fmap_insert_same {A B} (g : A → B) (l : list A) i x y :
  l !! i = Some x → g y = g x → g <$> <[i := y]> l = g <$> l.
Proof.
  intros Hi Hg. rewrite list_fmap_insert. apply list_insert_id.
  by rewrite list_lookup_fmap, Hi, Hg.
Qed.

Ltac simpl_world :=
  cbn [heap labels editors _current current _propbag setter_calls repositions
       set_heap set_labels set_editors set__current set_current set__propbag
       log_setter_call count_reposition fst snd] in *.

(** The same, with the state written out field by field. *)
Ltac norm_world :=
  unfold set_heap, set_labels, set_editors, set__current, set_current,
    set__propbag, log_setter_call, count_reposition in *;
  cbn [heap labels editors _current current _propbag setter_calls repositions
       fst snd] in *.

(** Decomposition of a [preserves] goal along the structure of the
    program; [leaf] closes the goals about the operations that change
    the world. *)
Ltac preserves_with leaf :=
  repeat (intros;
    lazymatch goal with
    | |- preserves _ (mret _) => apply preserves_ret; try apply _
    | |- preserves _ (raise _) => apply preserves_raise; try apply _
    | |- preserves _ (gets _) => apply preserves_gets; try apply _
    | |- preserves _ (deref _) => apply preserves_deref; try apply _
    | |- preserves _ (get_label _) => apply preserves_get_label; try apply _
    | |- preserves _ (get_editor _) => apply preserves_get_editor; try apply _
    | |- preserves _ _ =>
        first
          [ leaf
          | lazymatch goal with
            | |- preserves _ (mbind _ _) => apply preserves_bind; try apply _
            | |- preserves _ (for_each _ _) => apply preserves_for_each; try apply _
            | |- preserves _ (for_fold _ _ _) => apply preserves_for_fold; try apply _
            | |- preserves _ (match ?x with _ => _ end) => destruct x
            | |- preserves _ ?m => let h := get_head m in unfold h
            end ]
    end).

(** ** What never changes after construction *)

Section keeps_leaves.
Context {X} (π : world → X).

Lemma keeps_modify f : (∀ w, π (f w) = π w) → preserves (keeps π) (modify f).
Proof. intros H. by apply preserves_modify. Qed.

Lemma keeps_update_label f i :
  (∀ w x, labels w !! i = Some x → π (set_labels <[i := f x]> w) = π w) →
  preserves (keeps π) (update_label f i).
Proof.
  intros H w. unfold update_label, get_label. rewrite bind_run.
  destruct (labels w !! i) as [x|] eqn:Hi; simpl; [by apply H | done].
Qed.

Lemma keeps_update_editor_obj f i :
  (∀ w x, editors w !! i = Some x → π (set_editors <[i := f x]> w) = π w) →
  preserves (keeps π) (update_editor_obj f i).
Proof.
  intros H w. unfold update_editor_obj, get_editor. rewrite bind_run.
  destruct (editors w !! i) as [x|] eqn:Hi; simpl; [by apply H | done].
Qed.

Lemma keeps_label_tooltip_set_text i t :
  (∀ w x, labels w !! i = Some x → is_Some (lb_tooltip x) →
          π (set_labels <[i := lb_set_tooltip t x]> w) = π w) →
  preserves (keeps π) (label_tooltip_set_text i t).
Proof.
  intros H w. unfold label_tooltip_set_text, get_label. rewrite bind_run.
  destruct (labels w !! i) as [x|] eqn:Hi; simpl; [|done].
  destruct (lb_tooltip x) eqn:Ht; simpl; [|done].
  apply H; [done|]. by rewrite Ht.
Qed.

Lemma keeps_py_setitem v k x :
  (∀ w f, π (set_heap f w) = π w) → preserves (keeps π) (py_setitem v k x).
Proof.
  intros H. unfold py_setitem. destruct v; try apply preserves_raise; try apply _.
  apply preserves_bind; try apply _; [apply preserves_deref; apply _|].
  intros d. apply keeps_modify. intros w. apply H.
Qed.

Lemma keeps_py_new_dict :
  (∀ w f, π (set_heap f w) = π w) → preserves (keeps π) py_new_dict.
Proof. intros H w. apply H. Qed.
End keeps_leaves.

Lemma panel_identity_set_labels w i x y :
  labels w !! i = Some x → lb_identity y = lb_identity x →
  panel_identity (set_labels <[i := y]> w) = panel_identity w.
Proof.
  intros Hi Hy. unfold panel_identity. simpl_world.
  by rewrite (fmap_insert_same _ _ _ x).
Qed.

Lemma panel_identity_set_editors w i x y :
  editors w !! i = Some x → ed_identity y = ed_identity x →
  panel_identity (set_editors <[i := y]> w) = panel_identity w.
Proof.
  intros Hi Hy. unfold panel_identity. simpl_world.
  by rewrite (fmap_insert_same _ _ _ x).
Qed.

Ltac identity_leaf :=
  first
    [ apply keeps_update_label; intros ? ? ?;
      by eapply panel_identity_set_labels
    | apply keeps_update_editor_obj; intros ? ? ?;
      by eapply panel_identity_set_editors
    | apply keeps_label_tooltip_set_text; intros ? ? ? [? Ht];
      eapply panel_identity_set_labels; [done|];
      unfold lb_identity; simpl; by rewrite Ht
    | apply keeps_py_setitem; done
    | apply keeps_py_new_dict; done
    | apply keeps_modify; done ].

Section frame.
Context (env : Env).

Lemma update_editor_identity label editor wdescr pname propdescr :
  preserves (keeps panel_identity) (update_editor label editor wdescr pname propdescr).
Proof. unfold update_editor. preserves_with identity_leaf. Qed.

Lemma edit_identity wdescr : preserves (keeps panel_identity) (edit env wdescr).
Proof.
  unfold edit. preserves_with ltac:(first [apply update_editor_identity | identity_leaf]).
Qed.

Lemma hide_all_identity : preserves (keeps panel_identity) hide_all.
Proof. unfold hide_all. preserves_with identity_leaf. Qed.

Lemma event_generate_identity editor sequence :
  preserves (keeps panel_identity) (event_generate editor sequence).
Proof. unfold event_generate. preserves_with identity_leaf. Qed.

Lemma user_input_identity editor value :
  preserves (keeps panel_identity) (user_input editor value).
Proof.
  unfold user_input.
  preserves_with ltac:(first [apply event_generate_identity | identity_leaf]).
Qed.
End frame.

(** ** Inversion of the operations that succeed *)

Lemma deref_Ok l w d w' :
  deref l w = (Ok d, w') → w' = w ∧ heap w !! l = Some d.
Proof. unfold deref. destruct (heap w !! l); by intros [= <- <-]. Qed.

Lemma get_label_Ok i w x w' :
  get_label i w = (Ok x, w') → w' = w ∧ labels w !! i = Some x.
Proof. unfold get_label. destruct (labels w !! i); by intros [= <- <-]. Qed.

Lemma get_editor_Ok i w x w' :
  get_editor i w = (Ok x, w') → w' = w ∧ editors w !! i = Some x.
Proof. unfold get_editor. destruct (editors w !! i); by intros [= <- <-]. Qed.

Lemma update_label_Ok f i w u w' :
  update_label f i w = (Ok u, w') →
  ∃ x, labels w !! i = Some x ∧ w' = set_labels <[i := f x]> w.
Proof.
  unfold update_label. intros (x & w1 & Hx & Hm)%bind_Ok.
  apply get_label_Ok in Hx as [-> Hx]. injection Hm as <-. by exists x.
Qed.

Lemma update_editor_obj_Ok f i w u w' :
  update_editor_obj f i w = (Ok u, w') →
  ∃ x, editors w !! i = Some x ∧ w' = set_editors <[i := f x]> w.
Proof.
  unfold update_editor_obj. intros (x & w1 & Hx & Hm)%bind_Ok.
  apply get_editor_Ok in Hx as [-> Hx]. injection Hm as <-. by exists x.
Qed.

Lemma editor_bind_Ok i sequence cb w u w' :
  editor_bind i sequence cb w = (Ok u, w') →
  ∃ x, editors w !! i = Some x ∧
    w' = set_editors <[i := ed_set_bindings (dict_set sequence cb (ed_bindings x)) x]> w.
Proof.
  unfold editor_bind. intros (x & w1 & Hx & Hm)%bind_Ok.
  apply get_editor_Ok in Hx as [-> Hx]. injection Hm as <-. by exists x.
Qed.

Lemma label_tooltip_set_text_Ok i t w u w' :
  label_tooltip_set_text i t w = (Ok u, w') →
  ∃ x, labels w !! i = Some x ∧ is_Some (lb_tooltip x) ∧
    w' = set_labels <[i := lb_set_tooltip t x]> w.
Proof.
  unfold label_tooltip_set_text. intros (x & w1 & Hx & Hm)%bind_Ok.
  apply get_label_Ok in Hx as [-> Hx].
  destruct (lb_tooltip x) eqn:Ht; [|done]. injection Hm as <-.
  exists x. by rewrite Ht.
Qed.

Lemma py_getitem_Ok v k w x w' :
  py_getitem v k w = (Ok x, w') →
  w' = w ∧ ∃ l d, v = VDict l ∧ heap w !! l = Some d ∧ dict_get k d = Some x.
Proof.
  destruct v; try done. simpl. intros (d & w1 & Hd & Hm)%bind_Ok.
  apply deref_Ok in Hd as [-> Hd].
  destruct (dict_get k d) eqn:Hk; [|done]. injection Hm as <- <-. eauto 6.
Qed.

Lemma py_get_Ok v k dflt w x w' :
  py_get v k dflt w = (Ok x, w') →
  w' = w ∧ ∃ l d, v = VDict l ∧ heap w !! l = Some d ∧ x = default dflt (dict_get k d).
Proof.
  destruct v; try done. simpl. intros (d & w1 & Hd & Hm)%bind_Ok.
  apply deref_Ok in Hd as [-> Hd]. injection Hm as <- <-. eauto 6.
Qed.

Lemma py_kwargs_Ok v w kw w' :
  py_kwargs v w = (Ok kw, w') → w' = w ∧ ∃ l, v = VDict l ∧ heap w !! l = Some kw.
Proof.
  destruct v; try done. simpl. intros [-> Hd]%deref_Ok. eauto.
Qed.

Lemma py_copy_Ok v w d w' :
  py_copy v w = (Ok d, w') → w' = w ∧ ∃ l, v = VDict l ∧ heap w !! l = Some d.
Proof.
  destruct v; try done. simpl. intros [-> Hd]%deref_Ok. eauto.
Qed.

Lemma py_setitem_Ok v k x w u w' :
  py_setitem v k x w = (Ok u, w') →
  ∃ l d, v = VDict l ∧ heap w !! l = Some d ∧ w' = set_heap <[l := dict_set k x d]> w.
Proof.
  destruct v; try done. simpl. intros (d & w1 & Hd & Hm)%bind_Ok.
  apply deref_Ok in Hd as [-> Hd]. injection Hm as <-. eauto.
Qed.

Lemma ret_Ok {A} (a b : A) w w' :
  (mret a : M A) w = (Ok b, w') → b = a ∧ w' = w.
Proof. by intros [= <- <-]. Qed.

Lemma for_each_Ok_inv {A} (I : world → Prop) (f : A → M unit) l w u w' :
  I w →
  (∀ x w1 u1 w2, x ∈ l → I w1 → f x w1 = (Ok u1, w2) → I w2) →
  for_each f l w = (Ok u, w') → I w'.
Proof.
  revert w. induction l as [|x l IH]; intros w HI Hf; simpl.
  - by intros [_ ->]%ret_Ok.
  - intros (u1 & w1 & Hx & Hl)%bind_Ok. eapply (IH w1); [| |done].
    + eapply Hf; [apply list_elem_of_here|done..].
    + intros y w2 u2 w3 Hy. by apply Hf, list_elem_of_further.
Qed.

Lemma for_fold_Ok_inv {A B} (I : world → Prop) (f : B → A → M B) l b w b' w' :
  I w →
  (∀ x b1 w1 b2 w2, x ∈ l → I w1 → f b1 x w1 = (Ok b2, w2) → I w2) →
  for_fold f l b w = (Ok b', w') → I w'.
Proof.
  revert b w. induction l as [|x l IH]; intros b w HI Hf; simpl.
  - by intros [_ ->]%ret_Ok.
  - intros (b1 & w1 & Hx & Hl)%bind_Ok. eapply (IH b1 w1); [| |done].
    + eapply Hf; [apply list_elem_of_here|done..].
    + intros y b2 w2 b3 w3 Hy. by apply Hf, list_elem_of_further.
Qed.

Lemma insert_app_length {A} (l : list A) (x y : A) :
  <[length l := y]> (l ++ [x]) = l ++ [y].
Proof.
  rewrite insert_app_r_alt by done. by rewrite Nat.sub_diag.
Qed.

Lemma lookup_app_length {A} (l : list A) (x : A) : (l ++ [x]) !! length l = Some x.
Proof. by rewrite list_lookup_middle. Qed.

(** ** The panel after construction *)

Section panel.
Context (env : Env).

Local Abbreviation run_op := (run_op env).
Local Abbreviation run := (run env).
Local Abbreviation registered := (registered env).
Local Abbreviation panel_wf := (panel_wf env).

Lemma registered_length gcode name : registered gcode name → String.length gcode = 2.
Proof.
  intros (a & p & g & Hin & _). unfold edit_groups in Hin.
  repeat (apply elem_of_cons in Hin as [[= -> _ _ _]|Hin]; [done|]).
  by apply elem_of_nil in Hin.
Qed.

Lemma create_groups_registered gcode gname plist gp name :
  (gcode, gname, plist, gp) ∈ create_groups env → name ∈ plist →
  registered gcode name.
Proof.
  intros Hin Hname. unfold create_groups in Hin. unfold registered, edit_groups.
  repeat (apply elem_of_cons in Hin as [[= -> -> -> ->]|Hin];
          [do 3 eexists; split; [|done];
           repeat first [apply list_elem_of_here | apply list_elem_of_further] |]).
  by apply elem_of_nil in Hin.
Qed.

Lemma panel_wf_keeps w w' :
  panel_wf w → keeps panel_identity w w' → panel_wf w'.
Proof.
  intros [Hent Hdis Hkeys]. unfold keeps, panel_identity.
  intros [= Hbag Heds Hlbs]. split; rewrite Hbag; [|done..].
  intros key l e Hin.
  destruct (Hent key l e Hin) as (lb & ed & Hl & Ht & He & Hb & Hr & Hk).
  assert ((lb_identity <$> labels w') !! l = Some (lb_identity lb)) as Hl'.
  { by rewrite Hlbs, list_lookup_fmap, Hl. }
  assert ((ed_identity <$> editors w') !! e = Some (ed_identity ed)) as He'.
  { by rewrite Heds, list_lookup_fmap, He. }
  rewrite list_lookup_fmap in Hl'. rewrite list_lookup_fmap in He'.
  destruct (labels w' !! l) as [lb'|] eqn:Hlb'; [|done].
  destruct (editors w' !! e) as [ed'|] eqn:Hed'; [|done].
  apply (inj Some) in Hl'. apply (inj Some) in He'.
  exists lb', ed'. split_and!; try done.
  - unfold lb_identity in Hl'. destruct Ht as [t Ht]. rewrite Ht in Hl'.
    destruct (lb_tooltip lb'); [done|]. by injection Hl'.
  - unfold ed_identity in He'. injection He' as _ _ _ ->. done.
Qed.

Lemma run_op_identity o : preserves (keeps panel_identity) (run_op o).
Proof.
  destruct o; simpl;
    auto using edit_identity, hide_all_identity, update_editor_identity,
      event_generate_identity, user_input_identity.
Qed.

Lemma run_identity ops w : panel_identity (run ops w) = panel_identity w.
Proof.
  revert w. induction ops as [|o ops IH]; intros w; [done|].
  change (run (o :: ops) w) with (run ops (run_op o w).2).
  rewrite IH. apply run_op_identity.
Qed.

Lemma run_wf ops w : panel_wf w → panel_wf (run ops w).
Proof. intros Hwf. eapply panel_wf_keeps; [done|]. apply run_identity. Qed.
End panel.

(** ** Construction *)

Section construction.
Context (env : Env).

Lemma create_editor_inv pname wdata w editor w' :
  _create_editor env pname wdata w = (Ok editor, w') →
  ∃ ed, editor = length (editors w) ∧
    w' = set_editors (fun _ => editors w ++ [ed]) w ∧
    ed_bindings ed = [("<<PropertyChanged>>", on_change_cb pname editor)].
Proof.
  unfold _create_editor.
  intros (wtype & w1 & [-> _]%py_get_Ok & H)%bind_Ok.
  apply bind_Ok in H as (e & w2 & Hnew & H).
  unfold new_editor in Hnew. injection Hnew as <- <-.
  apply bind_Ok in H as (u & w3 & Hbind & [-> ->]%ret_Ok).
  apply editor_bind_Ok in Hbind as (x & Hx & ->). norm_world.
  rewrite lookup_app_length in Hx. injection Hx as <-.
  rewrite insert_app_length.
  eexists. split_and!; [done|reflexivity|done].
Qed.

Lemma create_property_Ok gcode propdescr col row name w row' w' :
  create_property env gcode propdescr col row name w = (Ok row', w') →
  ∃ lb ed,
    labels w' = labels w ++ [lb] ∧ is_Some (lb_tooltip lb) ∧
    editors w' = editors w ++ [ed] ∧
    ed_bindings ed = [("<<PropertyChanged>>", on_change_cb name (length (editors w)))] ∧
    _propbag w' =
      dict_set (gcode +:+ name) (length (labels w), length (editors w)) (_propbag w).
Proof.
  unfold create_property.
  intros (kwdata & w1 & [-> _]%py_getitem_Ok & H)%bind_Ok.
  apply bind_Ok in H as (label & w2 & Hnew & H).
  unfold new_label in Hnew. injection Hnew as <- <-.
  apply bind_Ok in H as (u1 & w3 & (x1 & Hx1 & ->)%update_label_Ok & H).
  norm_world. rewrite lookup_app_length in Hx1. injection Hx1 as <-.
  rewrite insert_app_length in H.
  apply bind_Ok in H as (u2 & w4 & (x2 & Hx2 & ->)%update_label_Ok & H).
  norm_world. rewrite lookup_app_length in Hx2. injection Hx2 as <-.
  rewrite insert_app_length in H.
  apply bind_Ok in H as (widget & w5 & (ed & Hw & Hw5 & Hb)%create_editor_inv & H).
  subst widget w5. norm_world.
  apply bind_Ok in H as (u3 & w6 & (x3 & Hx3 & ->)%update_editor_obj_Ok & H).
  norm_world. rewrite lookup_app_length in Hx3. injection Hx3 as <-.
  rewrite insert_app_length in H.
  apply bind_Ok in H as (u4 & w7 & Hm & [-> ->]%ret_Ok).
  injection Hm as <-. norm_world. subst w7. simpl.
  eexists _, _. split_and!; [done| |done| |done]; simpl; [by eexists | done].
Qed.

(** Registering a new pair of objects keeps the panel well formed. *)
Lemma panel_wf_register w w' lb ed gcode name :
  panel_wf env w →
  labels w' = labels w ++ [lb] → is_Some (lb_tooltip lb) →
  editors w' = editors w ++ [ed] →
  ed_bindings ed = [("<<PropertyChanged>>", on_change_cb name (length (editors w)))] →
  _propbag w' =
    dict_set (gcode +:+ name) (length (labels w), length (editors w)) (_propbag w) →
  registered env gcode name →
  panel_wf env w'.
Proof.
  intros [Hent Hdis Hkeys] Hl Ht He Hb Hbag Hreg.
  pose proof (registered_length env _ _ Hreg) as Hlen.
  destruct (key_parts gcode name Hlen) as [Hg Hn].
  assert (∀ k l e, (k, (l, e)) ∈ _propbag w →
            l < length (labels w) ∧ e < length (editors w)) as Hold.
  { intros k l e Hin. destruct (Hent _ _ _ Hin) as (? & ? & Hl0 & _ & He0 & _).
    split; by eapply lookup_lt_Some. }
  split; rewrite Hbag.
  - intros k l e [[= -> -> ->]|Hin]%elem_of_dict_set.
    + exists lb, ed. rewrite Hl, He, !lookup_app_length, Hg, Hn, Hb. simpl.
      split_and!; done.
    + destruct (Hent _ _ _ Hin) as (lb0 & ed0 & Hl0 & Ht0 & He0 & Hr0).
      exists lb0, ed0. rewrite Hl, He.
      rewrite !lookup_app_l by (by eapply lookup_lt_Some). done.
  - intros k1 l1 e1 k2 l2 e2
      [[= -> -> ->]|Hin1]%elem_of_dict_set [[= -> -> ->]|Hin2]%elem_of_dict_set Heq;
      [done| | |by eauto].
    + apply Hold in Hin2. lia.
    + apply Hold in Hin1. lia.
  - by apply dict_keys_set_NoDup.
Qed.

(** New labels that are not registered do not matter. *)
Lemma panel_wf_more_labels w w' lbs :
  panel_wf env w →
  labels w' = labels w ++ lbs → editors w' = editors w →
  _propbag w' = _propbag w →
  panel_wf env w'.
Proof.
  intros [Hent Hdis Hkeys] Hl He Hbag. split; rewrite Hbag; [|done..].
  intros k l e Hin. destruct (Hent _ _ _ Hin) as (lb0 & ed0 & Hl0 & Hr0).
  exists lb0, ed0. rewrite Hl, He.
  rewrite lookup_app_l by (by eapply lookup_lt_Some). done.
Qed.

Lemma create_group_wf col row g w row' w' :
  g ∈ create_groups env → panel_wf env w →
  create_group env col row g w = (Ok row', w') → panel_wf env w'.
Proof.
  destruct g as [[[gcode gname] plist] propdescr]. intros Hg Hwf.
  unfold create_group.
  intros (label & w1 & Hnew & H)%bind_Ok.
  unfold new_label in Hnew. injection Hnew as <- <-.
  apply bind_Ok in H as (u1 & w2 & (x1 & Hx1 & ->)%update_label_Ok & H).
  norm_world. rewrite lookup_app_length in Hx1. injection Hx1 as <-.
  rewrite insert_app_length in H.
  eapply for_fold_Ok_inv; [| |exact H].
  - by eapply panel_wf_more_labels.
  - intros name b1 w1 b2 w2 Hname Hwf1
      (lb & ed & Hl & Ht & He & Hb & Hbag)%create_property_Ok.
    eapply panel_wf_register; eauto using create_groups_registered.
Qed.

Lemma empty_bag_wf w :
  _propbag w = [] → panel_wf env w.
Proof.
  intros Hbag. split; rewrite Hbag.
  - intros ??? Hin. by apply elem_of_nil in Hin.
  - intros ?????? Hin. by apply elem_of_nil in Hin.
  - apply NoDup_nil_2.
Qed.

Lemma init_wf h w0 :
  __init__ env (new_world h) = (Ok tt, w0) → panel_wf env w0.
Proof.
  unfold __init__.
  intros (u1 & w1 & Hm1 & H)%bind_Ok. injection Hm1 as _ Hw1.
  apply bind_Ok in H as (u2 & w2 & Hm2 & H). injection Hm2 as _ Hw2.
  apply bind_Ok in H as (u3 & w3 & Hc & Hh).
  assert (panel_wf env w3) as Hwf3.
  { unfold _create_properties in Hc.
    apply bind_Ok in Hc as (row & w4 & Hc & [_ ->]%ret_Ok).
    eapply for_fold_Ok_inv; [| |exact Hc].
    - apply empty_bag_wf. by rewrite <-Hw2.
    - intros g b1 wa b2 wb Hg Hwfa Hcg. by eapply create_group_wf. }
  eapply panel_wf_keeps; [exact Hwf3|].
  pose proof (hide_all_identity w3) as Hk. by rewrite Hh in Hk.
Qed.

Lemma panel_state_wf h ops w : panel_state env h ops w → panel_wf env w.
Proof. intros (w0 & Hinit & ->). by eapply run_wf, init_wf. Qed.
End construction.

(** ** Hiding *)

Lemma label_grid_remove_run label w x :
  labels w !! label = Some x →
  label_grid_remove label w =
    (Ok tt, set_labels <[label := lb_set_gridded false x]> w).
Proof.
  intros Hx. unfold label_grid_remove, update_label, get_label.
  by rewrite bind_run, Hx.
Qed.

Lemma widget_grid_remove_run editor w x :
  editors w !! editor = Some x →
  widget_grid_remove editor w =
    (Ok tt, set_editors <[editor := ed_set_gridded false x]> w).
Proof.
  intros Hx. unfold widget_grid_remove, update_editor_obj, get_editor.
  by rewrite bind_run, Hx.
Qed.

Lemma label_hidden_insert w i j x :
  lb_gridded x = false →
  label_hidden w i → label_hidden (set_labels <[j := x]> w) i.
Proof.
  intros Hx (lb & Hlb & Hg). unfold label_hidden. simpl_world.
  destruct (decide (i = j)) as [->|Hne].
  - exists x. split; [|done]. apply list_lookup_insert_eq. by eapply lookup_lt_Some.
  - exists lb. by rewrite list_lookup_insert_ne.
Qed.

Lemma editor_hidden_insert w i j x :
  ed_gridded x = false →
  editor_hidden w i → editor_hidden (set_editors <[j := x]> w) i.
Proof.
  intros Hx (ed & Hed & Hg). unfold editor_hidden. simpl_world.
  destruct (decide (i = j)) as [->|Hne].
  - exists x. split; [|done]. apply list_lookup_insert_eq. by eapply lookup_lt_Some.
  - exists ed. by rewrite list_lookup_insert_ne.
Qed.

(** The loop of [hide_all] over pairs that exist: it ends normally, the
    pairs it visits are hidden, and what was hidden stays hidden. *)
Lemma hide_loop (items : odict (nat * nat)) w :
  (∀ k l e, (k, (l, e)) ∈ items → l < length (labels w) ∧ e < length (editors w)) →
  ∃ w',
    for_each (fun '(_v, (label, widget)) =>
                label_grid_remove label;; widget_grid_remove widget) items w
      = (Ok tt, w') ∧
    (∀ k l e, (k, (l, e)) ∈ items → label_hidden w' l ∧ editor_hidden w' e) ∧
    (∀ l, label_hidden w l → label_hidden w' l) ∧
    (∀ e, editor_hidden w e → editor_hidden w' e).
Proof.
  revert w. induction items as [|[k [l e]] items IH]; intros w Hrange.
  - exists w. split_and!; [done| |done..]. intros ??? Hin. by apply elem_of_nil in Hin.
  - destruct (Hrange k l e) as [Hl He]; [apply list_elem_of_here|].
    apply lookup_lt_is_Some in Hl as [lb Hlb]. apply lookup_lt_is_Some in He as [ed Hed].
    set (w1 := set_labels <[l := lb_set_gridded false lb]> w).
    set (w2 := set_editors <[e := ed_set_gridded false ed]> w1).
    destruct (IH w2) as (w' & Hrun & Hvis & Hkl & Hke).
    { intros k' l' e' Hin. subst w1 w2. simpl_world. rewrite !length_insert.
      apply (Hrange k'). by apply list_elem_of_further. }
    assert (label_hidden w2 l) as Hl2.
    { exists (lb_set_gridded false lb). split; [|done]. subst w1 w2. simpl_world.
      apply list_lookup_insert_eq. by eapply lookup_lt_Some. }
    assert (editor_hidden w2 e) as He2.
    { exists (ed_set_gridded false ed). split; [|done]. subst w1 w2. simpl_world.
      apply list_lookup_insert_eq. by eapply lookup_lt_Some. }
    exists w'. split_and!.
    + simpl. rewrite bind_run, bind_run, (label_grid_remove_run _ _ lb Hlb).
      fold w1. rewrite (widget_grid_remove_run _ _ ed) by done. done.
    + intros k' l' e' [[= -> -> ->]|Hin]%elem_of_cons; [by auto|by eauto].
    + intros l' Hl'. apply Hkl. subst w2.
      exact (label_hidden_insert w l' l (lb_set_gridded false lb) eq_refl Hl').
    + intros e' He'. apply Hke. subst w2. by apply editor_hidden_insert.
Qed.

(** ** The change callback *)

Section callbacks.
Context (env : Env).

Lemma _on_property_changed_run name editor w wdescr ed :
  _current w = Some wdescr → editors w !! editor = Some ed →
  _on_property_changed name editor w =
    (Ok tt, log_setter_call (wdescr, name, ed_value ed) w).
Proof.
  intros Hc He. unfold _on_property_changed, gets, get_editor.
  rewrite bind_run, Hc, bind_run, He. done.
Qed.

(** On a well-formed panel, the event on a registered editor runs the
    callback bound at construction: one call of the setter. *)
Lemma property_changed_run w key label editor wdescr :
  panel_wf env w → (key, (label, editor)) ∈ _propbag w →
  _current w = Some wdescr →
  ∃ ed, editors w !! editor = Some ed ∧
    event_generate editor "<<PropertyChanged>>" w =
      (Ok tt, log_setter_call (wdescr, key_name key, ed_value ed) w).
Proof.
  intros Hwf Hin Hc.
  destruct (wf_entries _ _ Hwf _ _ _ Hin) as (lb & ed & _ & _ & He & Hb & _).
  exists ed. split; [done|]. unfold event_generate, get_editor.
  rewrite bind_run, He, Hb. by apply _on_property_changed_run.
Qed.

Lemma bag_key_name w gcode name label editor :
  registered env gcode name →
  dict_get (gcode +:+ name) (_propbag w) = Some (label, editor) →
  (gcode +:+ name, (label, editor)) ∈ _propbag w ∧
  key_gcode (gcode +:+ name) = gcode ∧ key_name (gcode +:+ name) = name.
Proof.
  intros Hreg Hget. split; [by apply dict_get_Some_elem|].
  apply key_parts. by eapply registered_length.
Qed.

(** Everything in [edit] after the assignment of [self._current], and
    all of [hide_all], leave [self._current] alone. *)
Ltac current_leaf :=
  first
    [ apply keeps_update_label; done
    | apply keeps_update_editor_obj; done
    | apply keeps_label_tooltip_set_text; done
    | apply keeps_py_setitem; done
    | apply keeps_py_new_dict; done
    | apply keeps_modify; done ].

Lemma update_editor_keeps__current label editor wdescr pname propdescr :
  preserves (keeps _current) (update_editor label editor wdescr pname propdescr).
Proof. unfold update_editor. preserves_with current_leaf. Qed.

Lemma hide_all_keeps__current : preserves (keeps _current) hide_all.
Proof. unfold hide_all. preserves_with current_leaf. Qed.

Lemma edit_sets__current wdescr w : _current (edit env wdescr w).2 = Some wdescr.
Proof.
  unfold edit. rewrite bind_run. unfold modify at 1.
  set (w1 := set__current (Some wdescr) w).
  change (Some wdescr) with (_current w1).
  generalize w1. clear w w1.
  change (preserves (keeps _current)
    (match CLASS_MAP env !! classname wdescr with
     | Some entry =>
         for_each (edit_group wdescr (builder entry)) (edit_groups env);;
         modify count_reposition
     | None => raise (KeyError (classname wdescr))
     end)).
  preserves_with ltac:(first [apply update_editor_keeps__current | current_leaf]).
Qed.

Lemma hide_all_assigns_current w : current (hide_all w).2 = Some None.
Proof.
  unfold hide_all. rewrite bind_run. unfold modify at 1.
  set (w1 := set_current None w).
  change (Some None) with (current w1). generalize w1. clear w w1.
  change (preserves (keeps current)
    (bag ← gets _propbag;
     for_each (fun '(_v, (label, widget)) =>
                 label_grid_remove label;; widget_grid_remove widget) bag)).
  preserves_with current_leaf.
Qed.
End callbacks.

(** ** Showing and hiding in [edit] *)

#[global] Instance stable_preorder P : PreOrder (stable P).
Proof. split; unfold stable; [by intros w | intros w1 w2 w3; auto]. Qed.

#[global] Instance changes_only_preorder l e b : PreOrder (changes_only l e b).
Proof.
  split.
  - intros w. split_and!; [done|by left..].
  - intros w1 w2 w3 (Hb1 & Hl1 & He1) (Hb2 & Hl2 & He2). split_and!.
    + congruence.
    + intros j. destruct (Hl2 j) as [H2|[-> H2]]; [|by right].
      rewrite H2. apply Hl1.
    + intros j. destruct (He2 j) as [H2|[-> H2]]; [|by right].
      rewrite H2. apply He1.
Qed.

Lemma keeps_grid_flags_changes_only {A} (m : M A) l e b :
  preserves (keeps grid_flags) m → preserves (changes_only l e b) m.
Proof.
  intros Hm w. specialize (Hm w). unfold keeps, grid_flags in Hm.
  injection Hm as Hbag Hlb Hed. split_and!; [done|..]; intros j; left.
  - by rewrite <-!list_lookup_fmap, Hlb.
  - by rewrite <-!list_lookup_fmap, Hed.
Qed.

Lemma changes_only_label_set l e b :
  preserves (changes_only l e b) (update_label (lb_set_gridded b) l).
Proof.
  intros w. unfold update_label, get_label. rewrite bind_run.
  destruct (labels w !! l) as [x|] eqn:Hx; simpl; [|reflexivity].
  split_and!; [done| |by left]. simpl_world. intros j.
  destruct (decide (j = l)) as [->|Hne].
  - right. split; [done|].
    rewrite list_lookup_insert_eq by (by eapply lookup_lt_Some). done.
  - left. by rewrite list_lookup_insert_ne.
Qed.

Lemma changes_only_editor_set l e b :
  preserves (changes_only l e b) (update_editor_obj (ed_set_gridded b) e).
Proof.
  intros w. unfold update_editor_obj, get_editor. rewrite bind_run.
  destruct (editors w !! e) as [x|] eqn:Hx; simpl; [|reflexivity].
  split_and!; [done|by left|]. simpl_world. intros j.
  destruct (decide (j = e)) as [->|Hne].
  - right. split; [done|].
    rewrite list_lookup_insert_eq by (by eapply lookup_lt_Some). done.
  - left. by rewrite list_lookup_insert_ne.
Qed.

Lemma grid_flags_set_labels w i x y :
  labels w !! i = Some x → lb_gridded y = lb_gridded x →
  grid_flags (set_labels <[i := y]> w) = grid_flags w.
Proof.
  intros Hi Hy. unfold grid_flags. simpl_world.
  by rewrite (fmap_insert_same _ _ _ x).
Qed.

Lemma grid_flags_set_editors w i x y :
  editors w !! i = Some x → ed_gridded y = ed_gridded x →
  grid_flags (set_editors <[i := y]> w) = grid_flags w.
Proof.
  intros Hi Hy. unfold grid_flags. simpl_world.
  by rewrite (fmap_insert_same _ _ _ x).
Qed.

Ltac grid_flags_leaf :=
  first
    [ apply keeps_update_label; intros ? ? ?;
      by eapply grid_flags_set_labels
    | apply keeps_update_editor_obj; intros ? ? ?;
      by eapply grid_flags_set_editors
    | apply keeps_label_tooltip_set_text; intros ? ? ? ?;
      by eapply grid_flags_set_labels
    | apply keeps_py_setitem; done
    | apply keeps_py_new_dict; done
    | apply keeps_modify; done ].

(** [update_editor] does not show or hide anything. *)
Lemma update_editor_grid_flags label editor wdescr pname propdescr :
  preserves (keeps grid_flags) (update_editor label editor wdescr pname propdescr).
Proof. unfold update_editor. preserves_with grid_flags_leaf. Qed.

Lemma py_getitem_state v k w : (py_getitem v k w).2 = w.
Proof.
  assert (preserves (keeps (fun w => w)) (py_getitem v k)) as H.
  { unfold py_getitem. preserves_with fail. }
  apply H.
Qed.

(** A loop that ends normally has established, for every element, what
    each iteration establishes, provided later iterations keep it. *)
Lemma for_each_post {A} (D : A → Prop) (I : world → Prop) (Q : A → world → Prop)
    (f : A → M unit) :
  (∀ x, D x → preserves (stable I) (f x)) →
  (∀ x w1 w2, D x → I w1 → f x w1 = (Ok tt, w2) → Q x w2) →
  (∀ x y, D x → D y → preserves (stable (fun w => I w ∧ Q x w)) (f y)) →
  ∀ l w w', Forall D l → I w → for_each f l w = (Ok tt, w') →
    I w' ∧ ∀ x, x ∈ l → Q x w'.
Proof.
  intros HI Hest Hstab l. induction l as [|y l IH]; intros w w' HD Hw; simpl.
  - intros [_ ->]%ret_Ok. split; [done|]. intros x Hx. by apply elem_of_nil in Hx.
  - apply Forall_cons in HD as [Hy HD].
    intros ([] & w1 & Hfy & Hl)%bind_Ok.
    assert (I w1) as Hw1.
    { pose proof (HI y Hy w Hw) as H1. by rewrite Hfy in H1. }
    destruct (IH w1 w' HD Hw1 Hl) as [Hw' HQ]. split; [done|].
    intros x [->|Hx]%elem_of_cons; [|by apply HQ].
    assert (preserves (stable (fun w => I w ∧ Q y w)) (for_each f l)) as Hkeep.
    { apply preserves_for_each; [apply _|]. intros z Hz.
      apply Hstab; [done|]. rewrite Forall_forall in HD. by apply HD. }
    specialize (Hkeep w1). rewrite Hl in Hkeep. unfold stable in Hkeep.
    apply Hkeep. split; [done|]. exact (Hest y w w1 Hy Hw Hfy).
Qed.

Section edit_visibility.
Context (env : Env) (wdescr : WidgetDescr) (class_descr : BuilderClass).

Lemma shown_run gcode attrname proplist gproperties name w :
  (gcode, attrname, proplist, gproperties) ∈ edit_groups env →
  ((if decide (gcode = "00") then mret true
    else names ← getattr class_descr attrname;
         mret (bool_decide (name ∈ names))) : M bool) w
  = (Ok (shown_by_spec class_descr gcode name), w).
Proof.
  intros Hin. unfold edit_groups in Hin.
  repeat (apply elem_of_cons in Hin as [[= -> -> -> ->]|Hin]; [reflexivity|]).
  by apply elem_of_nil in Hin.
Qed.

Lemma edit_property_unfold gcode attrname proplist gproperties name w :
  (gcode, attrname, proplist, gproperties) ∈ edit_groups env →
  edit_property wdescr class_descr gcode attrname gproperties name w =
    match py_getitem (VDict gproperties) name w with
    | (Ok propdescr, _) =>
        match dict_get (gcode +:+ name) (_propbag w) with
        | Some (label, widget) =>
            show_or_hide wdescr name propdescr label widget
              (shown_by_spec class_descr gcode name) w
        | None => (Raise (KeyError (gcode +:+ name)), w)
        end
    | (Raise e, _) => (Raise e, w)
    end.
Proof.
  intros Hin. unfold edit_property. rewrite bind_run.
  pose proof (py_getitem_state (VDict gproperties) name w) as Hst.
  destruct (py_getitem (VDict gproperties) name w) as [[propdescr|e] w1].
  2: { simpl in Hst. by subst. }
  simpl in Hst. subst w1. rewrite bind_run. unfold gets at 1.
  destruct (dict_get (gcode +:+ name) (_propbag w)) as [[label widget]|]; [|done].
  rewrite bind_run, (shown_run _ _ _ _ _ _ Hin). done.
Qed.

Lemma show_or_hide_changes_only name propdescr label widget shown :
  preserves (changes_only label widget shown)
    (show_or_hide wdescr name propdescr label widget shown).
Proof.
  unfold show_or_hide. destruct shown.
  - preserves_with ltac:(first
      [ apply keeps_grid_flags_changes_only, update_editor_grid_flags
      | apply changes_only_label_set
      | apply changes_only_editor_set ]).
  - preserves_with ltac:(first
      [ apply changes_only_label_set | apply changes_only_editor_set ]).
Qed.

Lemma show_or_hide_Ok name propdescr label widget shown w w' :
  show_or_hide wdescr name propdescr label widget shown w = (Ok tt, w') →
  lb_gridded <$> labels w' !! label = Some shown
  ∧ ed_gridded <$> editors w' !! widget = Some shown.
Proof.
  assert (∀ wa wb wc u1 u2 b,
    update_label (lb_set_gridded b) label wa = (Ok u1, wb) →
    update_editor_obj (ed_set_gridded b) widget wb = (Ok u2, wc) →
    lb_gridded <$> labels wc !! label = Some b
    ∧ ed_gridded <$> editors wc !! widget = Some b) as Hlast.
  { intros wa wb wc u1 u2 b (x & Hx & ->)%update_label_Ok
      (y & Hy & ->)%update_editor_obj_Ok. simpl_world.
    rewrite !list_lookup_insert_eq by (by eapply lookup_lt_Some). done. }
  unfold show_or_hide. destruct shown.
  - intros (u0 & wa & _ & H)%bind_Ok.
    apply bind_Ok in H as (u1 & wb & Hl & He). eauto.
  - intros (u1 & wb & Hl & He)%bind_Ok. eauto.
Qed.

Lemma edit_property_identity gcode attrname gproperties name :
  preserves (keeps panel_identity)
    (edit_property wdescr class_descr gcode attrname gproperties name).
Proof.
  unfold edit_property.
  preserves_with ltac:(first [apply update_editor_identity | identity_leaf]).
Qed.

Lemma edit_property_wf gcode attrname gproperties name :
  preserves (stable (panel_wf env))
    (edit_property wdescr class_descr gcode attrname gproperties name).
Proof.
  intros w Hwf. eapply panel_wf_keeps; [done|]. apply edit_property_identity.
Qed.

(** An iteration of [edit] gives the property it handles the visibility
    the specification asks for. *)
Lemma edit_property_establishes gcode attrname proplist gproperties name w w' :
  (gcode, attrname, proplist, gproperties) ∈ edit_groups env →
  edit_property wdescr class_descr gcode attrname gproperties name w = (Ok tt, w') →
  visibility_is w' (gcode +:+ name) (shown_by_spec class_descr gcode name).
Proof.
  intros Hin Hrun.
  pose proof (edit_property_identity gcode attrname gproperties name w) as Hid.
  rewrite Hrun in Hid. unfold keeps, panel_identity in Hid. simpl in Hid.
  injection Hid as Hbag _ _.
  rewrite (edit_property_unfold _ _ _ _ _ _ Hin) in Hrun.
  destruct (py_getitem (VDict gproperties) name w) as [[propdescr|e] w1]; [|done].
  destruct (dict_get (gcode +:+ name) (_propbag w)) as [[label widget]|] eqn:Hget;
    [|done].
  apply show_or_hide_Ok in Hrun as [Hl He].
  exists label, widget. by rewrite Hbag.
Qed.

(** An iteration of [edit] does not disturb the visibility of the other
    registered properties. *)
Lemma edit_property_stable g n gcode attrname proplist gproperties name :
  registered env g n →
  (gcode, attrname, proplist, gproperties) ∈ edit_groups env → name ∈ proplist →
  preserves
    (stable (fun w => panel_wf env w
                      ∧ visibility_is w (g +:+ n) (shown_by_spec class_descr g n)))
    (edit_property wdescr class_descr gcode attrname gproperties name).
Proof.
  intros Hreg Hin Hname w [Hwf Hvis]. split; [by apply edit_property_wf|].
  assert (registered env gcode name) as Hreg' by (by do 3 eexists).
  rewrite (edit_property_unfold _ _ _ _ _ _ Hin).
  destruct (py_getitem (VDict gproperties) name w) as [[propdescr|e] w1]; [|done].
  destruct (dict_get (gcode +:+ name) (_propbag w)) as [[label widget]|] eqn:Hget;
    [|done].
  pose proof (show_or_hide_changes_only name propdescr label widget
                (shown_by_spec class_descr gcode name) w) as (Hbag & Hlb & Hed).
  destruct Hvis as (l & e & Hget0 & Hl & He).
  exists l, e. rewrite Hbag. split; [done|].
  destruct (decide (g +:+ n = gcode +:+ name)) as [Heq|Hne].
  - apply key_inj in Heq as [-> ->]; [|by eapply registered_length..].
    rewrite Hget in Hget0. injection Hget0 as -> ->.
    split.
    + destruct (Hlb l) as [->|[_ ->]]; done.
    + destruct (Hed e) as [->|[_ ->]]; done.
  - assert (l ≠ label ∧ e ≠ widget) as [Hl' He'].
    { split; intros ->; apply Hne;
        eapply (wf_distinct _ _ Hwf); eauto using dict_get_Some_elem. }
    split.
    + destruct (Hlb l) as [->|[? _]]; done.
    + destruct (Hed e) as [->|[? _]]; done.
Qed.
End edit_visibility.

Section edit_loops.
Context (env : Env) (wdescr : WidgetDescr) (class_descr : BuilderClass).

Local Abbreviation group_visibility_is := (group_visibility_is class_descr).

Lemma edit_group_wf g :
  g ∈ edit_groups env → preserves (stable (panel_wf env)) (edit_group wdescr class_descr g).
Proof.
  destruct g as [[[gcode attrname] proplist] gproperties]. intros Hg.
  unfold edit_group. apply preserves_for_each; [apply _|].
  intros name _. apply edit_property_wf.
Qed.

Lemma edit_group_stable g0 n0 g :
  registered env g0 n0 → g ∈ edit_groups env →
  preserves
    (stable (fun w => panel_wf env w
                      ∧ visibility_is w (g0 +:+ n0) (shown_by_spec class_descr g0 n0)))
    (edit_group wdescr class_descr g).
Proof.
  destruct g as [[[gcode attrname] proplist] gproperties]. intros Hreg Hg.
  unfold edit_group. apply preserves_for_each; [apply _|].
  intros name Hname. by eapply edit_property_stable.
Qed.

Lemma edit_group_establishes g w w' :
  g ∈ edit_groups env → panel_wf env w →
  edit_group wdescr class_descr g w = (Ok tt, w') →
  group_visibility_is g w'.
Proof.
  destruct g as [[[gcode attrname] proplist] gproperties]. intros Hg Hwf Hrun.
  unfold edit_group in Hrun. unfold group_visibility_is. simpl.
  eapply (for_each_post (fun name => name ∈ proplist) (panel_wf env)
            (fun name w => visibility_is w (gcode +:+ name)
                             (shown_by_spec class_descr gcode name)));
    [| | | |exact Hwf|exact Hrun].
  - intros name _. apply edit_property_wf.
  - intros name w1 w2 _ _ H. by eapply edit_property_establishes.
  - intros x y Hx Hy. eapply edit_property_stable; [|done..]. by do 3 eexists.
  - by apply Forall_forall.
Qed.

Lemma edit_groups_establish w w' :
  panel_wf env w →
  for_each (edit_group wdescr class_descr) (edit_groups env) w = (Ok tt, w') →
  panel_wf env w' ∧
  ∀ gcode name, registered env gcode name →
    visibility_is w' (gcode +:+ name) (shown_by_spec class_descr gcode name).
Proof.
  intros Hwf Hrun.
  destruct (for_each_post (fun g => g ∈ edit_groups env) (panel_wf env)
              group_visibility_is (edit_group wdescr class_descr))
    with (l := edit_groups env) (w := w) (w' := w') as [Hwf' Hvis];
    [| | | |done|done|].
  - intros g Hg. by apply edit_group_wf.
  - intros g w1 w2 Hg Hwf1 H. by eapply edit_group_establishes.
  - intros [[[g0 a0] p0] gp0] g Hg0 Hg w1 [Hwf1 Hvis1]. split.
    + by apply edit_group_wf.
    + intros n0 Hn0. simpl in *.
      assert (registered env g0 n0) as Hreg by (by do 3 eexists).
      apply (edit_group_stable g0 n0 g Hreg Hg w1). split; [done|].
      by apply Hvis1.
  - by apply Forall_forall.
  - split; [done|]. intros gcode name (attrname & proplist & gp & Hg & Hname).
    by apply (Hvis _ Hg).
Qed.
End edit_loops.

Section edit_outcome.
Context (env : Env).

(** Whenever [edit] ends normally: the pairs of the bag are those of the
    registered properties, each visible exactly when the specification
    says so. *)
Lemma edit_Ok_shows_exactly (h : gmap loc pydict) (ops : list op) (w w' : world)
    (wdescr : WidgetDescr) (entry : ClassMapEntry) :
  panel_state env h ops w →
  CLASS_MAP env !! classname wdescr = Some entry →
  edit env wdescr w = (Ok tt, w') →
  (∀ key label editor, (key, (label, editor)) ∈ _propbag w' →
     ∃ gcode name, key = gcode +:+ name ∧ registered env gcode name)
  ∧ ∀ gcode name, registered env gcode name →
      ∃ label editor lb ed,
        dict_get (gcode +:+ name) (_propbag w') = Some (label, editor)
        ∧ labels w' !! label = Some lb
        ∧ editors w' !! editor = Some ed
        ∧ lb_gridded lb = shown_by_spec (builder entry) gcode name
        ∧ ed_gridded ed = shown_by_spec (builder entry) gcode name.
Proof.
  intros Hwf%panel_state_wf Hclass Hrun.
  unfold edit in Hrun. rewrite Hclass in Hrun.
  apply bind_Ok in Hrun as (u1 & w1 & Hm & Hrun). injection Hm as _ <-.
  apply bind_Ok in Hrun as (u2 & w2 & Hloop & Hm). injection Hm as <-.
  destruct u2.
  destruct (edit_groups_establish env wdescr (builder entry) _ _
              (panel_wf_keeps env w (set__current (Some wdescr) w) Hwf eq_refl) Hloop)
    as [Hwf2 Hvis].
  split.
  - intros key label editor Hin. simpl_world.
    destruct (wf_entries _ _ Hwf2 _ _ _ Hin) as (_ & _ & _ & _ & _ & _ & Hreg & Hkey).
    by eauto.
  - intros gcode name Hreg. simpl_world.
    destruct (Hvis gcode name Hreg) as (label & editor & Hget & Hl & He).
    apply fmap_Some in Hl as (lb & Hlb & Hl). apply fmap_Some in He as (ed & Hed & He).
    by exists label, editor, lb, ed.
Qed.

End edit_outcome.

(** ** What [update_editor] does when it ends normally *)

Lemma set_heap_id w l d : heap w !! l = Some d → set_heap <[l := d]> w = w.
Proof. intros H. destruct w. unfold set_heap. simpl in *. by rewrite insert_id. Qed.

Lemma set_heap_set_heap w l d1 d2 :
  set_heap <[l := d2]> (set_heap <[l := d1]> w) = set_heap <[l := d2]> w.
Proof. destruct w. unfold set_heap. simpl. by rewrite insert_insert_eq. Qed.

Lemma mode_block_Ok (default_mode : pyval) (p : loc) w u w' d' :
  ((if decide (default_mode = VNone) then mret tt
    else
      has_mode ← py_in "mode" (VDict p);
      if (has_mode : bool) then mret tt
      else py_setitem (VDict p) "mode" default_mode) : M unit) w = (Ok u, w') →
  heap w' !! p = Some d' →
  ∃ d0, heap w !! p = Some d0 ∧ d' = with_default_mode default_mode d0
        ∧ w' = set_heap <[p := d']> w.
Proof.
  unfold with_default_mode. case_decide as Hdm.
  - intros [_ ->]%ret_Ok Hp. exists d'. by rewrite set_heap_id.
  - intros (has_mode & w1 & Hin & Hset)%bind_Ok Hp. simpl in Hin.
    apply bind_Ok in Hin as (d0 & w2 & [-> Hd0]%deref_Ok & [-> ->]%ret_Ok).
    destruct (dict_contains "mode" d0) eqn:Hc.
    + apply ret_Ok in Hset as [_ ->]. exists d'.
      rewrite Hd0 in Hp. injection Hp as ->. by rewrite Hc, set_heap_id.
    + apply py_setitem_Ok in Hset as (l & d & [= <-] & Hd & ->).
      simpl_world. rewrite lookup_insert_eq in Hp. injection Hp as <-.
      rewrite Hd0 in Hd. injection Hd as <-. exists d0. by rewrite Hc.
Qed.

Lemma placeholder_block_Ok (pname : string) (editor : nat) (sid : pyval) (p : loc)
    w u w' d' :
  ((if decide (pname = "id") then
      is_named ← isinstance_NamedIDPropertyEditor editor;
      if (is_named : bool) then py_setitem (VDict p) "placeholder" sid
      else mret tt
    else mret tt) : M unit) w = (Ok u, w') →
  heap w' !! p = Some d' →
  ∃ d0, heap w !! p = Some d0 ∧ w' = set_heap <[p := d']> w
        ∧ ∀ ed, editors w !! editor = Some ed →
            d' = with_placeholder pname (ed_class ed) sid d0.
Proof.
  unfold with_placeholder. case_decide as Hid.
  - intros (is_named & w1 & Hin & Hset)%bind_Ok Hp.
    unfold isinstance_NamedIDPropertyEditor in Hin.
    apply bind_Ok in Hin as (x & w2 & [-> Hx]%get_editor_Ok & [-> ->]%ret_Ok).
    destruct (ed_class x) eqn:Hc.
    + apply py_setitem_Ok in Hset as (l & d & [= <-] & Hd & ->).
      simpl_world. rewrite lookup_insert_eq in Hp. injection Hp as <-.
      exists d. split_and!; [done..|]. intros ed He.
      rewrite Hx in He. injection He as <-. by rewrite Hc.
    + apply ret_Ok in Hset as [_ ->]. exists d'. rewrite set_heap_id by done.
      split_and!; [done..|]. intros ed He.
      rewrite Hx in He. injection He as <-. by rewrite Hc.
  - intros [_ ->]%ret_Ok Hp. exists d'. by rewrite set_heap_id.
Qed.

Lemma merge_class_descr_Ok classname generic w pdescr w' pl :
  heap w !! pl = Some generic →
  merge_class_descr classname generic w = (Ok pdescr, w') →
  w' = w ∧ merged_descr (heap w) classname (VDict pl) = Some pdescr.
Proof.
  intros Hpl. unfold merge_class_descr, merged_descr. rewrite Hpl. simpl.
  destruct (dict_get classname generic) as [override|].
  - intros (kw & w1 & [-> (ol & -> & Hol)]%py_kwargs_Ok & [-> ->]%ret_Ok)%bind_Ok.
    split; [done|]. by rewrite Hol.
  - by intros [-> ->]%ret_Ok.
Qed.

Lemma default_mode_Ok generic w default_mode w' :
  (match dict_get "params" generic with
   | Some p => py_get p "mode" VNone
   | None => mret VNone
   end) w = (Ok default_mode, w') →
  w' = w ∧ generic_mode (heap w) generic = Some default_mode.
Proof.
  unfold generic_mode. destruct (dict_get "params" generic) as [p|].
  - intros [-> (gp & d & -> & Hd & ->)]%py_get_Ok. split; [done|]. by rewrite Hd.
  - by intros [-> ->]%ret_Ok.
Qed.

(** The params of the merged descriptor: the dict the descriptor names,
    or a new empty dict when it names none. *)
Lemma params_Ok pdescr w params w' :
  (match dict_get "params" pdescr with
   | Some p => mret p
   | None => py_new_dict
   end) w = (Ok params, w') →
  (dict_get "params" pdescr = Some params ∧ w' = w)
  ∨ (dict_get "params" pdescr = None ∧
     ∃ p, params = VDict p ∧ heap w !! p = None ∧ w' = set_heap <[p := []]> w).
Proof.
  destruct (dict_get "params" pdescr) as [p|].
  - intros [-> ->]%ret_Ok. by left.
  - unfold py_new_dict. intros [= <- <-]. right. split; [done|].
    eexists. split_and!; [done| |done].
    apply not_elem_of_dom. apply is_fresh.
Qed.

Lemma help_Ok classname (help0 : pyval) w help w' :
  (match help0 with
   | VDict l => items ← deref l; mret (help_for_class classname items)
   | _ => mret help0
   end) w = (Ok help, w') →
  w' = w ∧ help_resolved (heap w) classname help0 help.
Proof.
  unfold help_resolved.
  destruct help0 as [| | | |hl]; try (by intros [-> ->]%ret_Ok).
  intros (items & w1 & [-> Hitems]%deref_Ok & [-> ->]%ret_Ok)%bind_Ok.
  split; [done|]. by exists items.
Qed.

Lemma update_editor_Ok label editor wdescr pname propdescr w u w' :
  update_editor label editor wdescr pname propdescr w = (Ok u, w') →
  ∃ generic pdescr default_mode p d0 lb ed help,
    (∃ pl, propdescr = VDict pl ∧ heap w !! pl = Some generic)
    ∧ merged_descr (heap w) (classname wdescr) propdescr = Some pdescr
    ∧ generic_mode (heap w) generic = Some default_mode
    ∧ ((dict_get "params" pdescr = Some (VDict p) ∧ heap w !! p = Some d0)
       ∨ (dict_get "params" pdescr = None ∧ heap w !! p = None ∧ d0 = []))
    ∧ labels w !! label = Some lb ∧ is_Some (lb_tooltip lb)
    ∧ editors w !! editor = Some ed
    ∧ let kw := with_placeholder pname (ed_class ed) (start_id wdescr)
                  (with_default_mode default_mode d0) in
      let h' := <[p := kw]> (heap w) in
      help_resolved h' (classname wdescr)
        (default VNone (dict_get "help" pdescr)) help
      ∧ w' = World h'
               (<[label := lb_set_tooltip help lb]> (labels w))
               (<[editor := ed_set_value
                    (display_value h' (widget_property wdescr pname)
                       (dict_get "default" pdescr))
                    (ed_set_parameters kw ed)]> (editors w))
               (_current w) (current w) (_propbag w) (setter_calls w)
               (repositions w).
Proof.
  unfold update_editor.
  intros (generic & w1 & [-> (pl & -> & Hpl)]%py_copy_Ok & H)%bind_Ok.
  apply bind_Ok in H as (default_mode & w1 & [-> Hdm]%default_mode_Ok & H).
  apply bind_Ok in H as (pdescr & w1 & Hmerge & H).
  apply (merge_class_descr_Ok _ _ _ _ _ pl Hpl) in Hmerge as [-> Hmerge].
  apply bind_Ok in H as (params & w1 & Hparams & H).
  apply bind_Ok in H as (u1 & w2 & Hmode & H).
  apply bind_Ok in H as (u2 & w3 & Hph & H).
  apply bind_Ok in H as (kw & w4 & [-> (p & -> & Hkw)]%py_kwargs_Ok & H).
  apply bind_Ok in H as (u3 & w4 & (ed & Hed & ->)%update_editor_obj_Ok & H).
  apply bind_Ok in H as (help & w5 & [-> Hhelp]%help_Ok & H).
  apply bind_Ok in H as (u4 & w6 & (lb & Hlb & Htip & ->)%label_tooltip_set_text_Ok & H).
  apply bind_Ok in H as (h & w7 & Hh & Hedit). injection Hh as <- <-.
  apply update_editor_obj_Ok in Hedit as (ed' & Hed' & ->).
  (* the heap: backwards from the keyword arguments *)
  destruct (placeholder_block_Ok _ _ _ _ _ _ _ _ Hph Hkw) as (d2 & Hd2 & -> & Hkw').
  destruct (mode_block_Ok _ _ _ _ _ _ Hmode Hd2) as (d1 & Hd1 & -> & ->).
  simpl_world.
  assert (∃ d0,
    ((dict_get "params" pdescr = Some (VDict p) ∧ heap w !! p = Some d0)
     ∨ (dict_get "params" pdescr = None ∧ heap w !! p = None ∧ d0 = []))
    ∧ d1 = d0 ∧ <[p := kw]> (<[p := with_default_mode default_mode d1]> (heap w1))
              = <[p := kw]> (heap w)
    ∧ editors w1 = editors w ∧ labels w1 = labels w
    ∧ (_current w1, current w1, _propbag w1, setter_calls w1, repositions w1)
      = (_current w, current w, _propbag w, setter_calls w, repositions w))
    as (d0 & Hsrc & -> & Hheap & Heds & Hlbs & Hrest).
  { apply params_Ok in Hparams as [[Hp ->]|(Hp & p' & [= <-] & Hfresh & ->)].
    - exists d1. split_and!; [by left|done| |done..]. by rewrite insert_insert_eq.
    - simpl_world. rewrite lookup_insert_eq in Hd1. injection Hd1 as <-.
      exists []. split_and!; [by right|done| |done..].
      by rewrite !insert_insert_eq. }
  rewrite Heds in Hed. specialize (Hkw' ed). simpl_world.
  rewrite Heds in Hkw'. specialize (Hkw' Hed). subst kw.
  rewrite Hlbs in Hlb.
  rewrite Heds, list_lookup_insert_eq in Hed' by (by eapply lookup_lt_Some).
  injection Hed' as <-.
  exists generic, pdescr, default_mode, p, d0, lb, ed, help.
  split_and!; [by eauto|done|done|done|done|done|done| |].
  - simpl_world. rewrite Hheap in Hhelp. exact Hhelp.
  - unfold set_editors, set_labels, set_heap, display_value. simpl.
    rewrite Heds, Hlbs, Hheap, list_insert_insert_eq.
    injection Hrest as -> -> -> -> ->. done.
Qed.

Lemma update_editor_Ok_editor label editor wdescr pname propdescr w u w' :
  update_editor label editor wdescr pname propdescr w = (Ok u, w') →
  ∃ generic pdescr default_mode p d0 ed,
    (∃ pl, propdescr = VDict pl ∧ heap w !! pl = Some generic)
    ∧ merged_descr (heap w) (classname wdescr) propdescr = Some pdescr
    ∧ generic_mode (heap w) generic = Some default_mode
    ∧ ((dict_get "params" pdescr = Some (VDict p) ∧ heap w !! p = Some d0)
       ∨ (dict_get "params" pdescr = None ∧ heap w !! p = None ∧ d0 = []))
    ∧ editors w !! editor = Some ed
    ∧ let kw := with_placeholder pname (ed_class ed) (start_id wdescr)
                  (with_default_mode default_mode d0) in
      heap w' = <[p := kw]> (heap w)
      ∧ editors w' !! editor =
          Some (ed_set_value
                  (display_value (heap w') (widget_property wdescr pname)
                     (dict_get "default" pdescr))
                  (ed_set_parameters kw ed)).
Proof.
  intros (generic & pdescr & dm & p & d0 & lb & ed & help & Hpl & Hm & Hdm & Hsrc
          & Hlb & Ht & Hed & Hhelp & ->)%update_editor_Ok.
  exists generic, pdescr, dm, p, d0, ed. split_and!; try done. simpl.
  split; [done|]. apply list_lookup_insert_eq. by eapply lookup_lt_Some.
Qed.

(** ** The display value (C2) *)

(** The two agree on every current value that is a string. *)
Lemma display_value_is_spec h (s : string) dflt :
  display_value h (VStr s) dflt = display_value_spec h (VStr s) dflt.
Proof.
  unfold display_value, display_value_spec.
  destruct (truthy h (VStr s)) eqn:Hv; simpl; [done|].
  assert (s = "") as ->.
  { simpl in Hv. apply negb_false_iff, bool_decide_eq_true in Hv. done. }
  destruct dflt as [d|]; simpl; [|done]. by destruct (truthy h d).
Qed.

(** ** The tooltip (C3) *)

Lemma help_for_class_first_match classname items :
  first_prefix_match classname items (help_for_class classname items).
Proof.
  induction items as [|[k v] items IH]; simpl.
  - right. split; [|done]. intros ?? Hin. by apply elem_of_nil in Hin.
  - destruct (String.prefix k classname) eqn:Hk.
    + left. exists [], k, items. split_and!; [done| |].
      * by apply prefix_startswith.
      * intros ?? Hin. by apply elem_of_nil in Hin.
    + assert (¬ ∃ rest, classname = k +:+ rest) as Hnk.
      { intros H%prefix_startswith. congruence. }
      destruct IH as [(before & k0 & after & Hitems & Hk0 & Hbefore)|[Hnone Htext]].
      * left. exists ((k, v) :: before), k0, after. split_and!.
        -- simpl. f_equal. exact Hitems.
        -- exact Hk0.
        -- intros k' v' [[= -> ->]|Hin]%elem_of_cons; [done|by eauto].
      * right. split; [|done].
        intros k' v' [[= -> ->]|Hin]%elem_of_cons; [done|by eauto].
Qed.

(** ** What [update_editor] writes into the tables (C10) *)

#[global] Instance heap_grows_preorder : PreOrder heap_grows.
Proof.
  split.
  - intros w l d Hd. exists d. split; [done|]. by eauto.
  - intros w1 w2 w3 H12 H23 l d Hd.
    destruct (H12 l d Hd) as (d2 & Hd2 & Hk2).
    destruct (H23 l d2 Hd2) as (d3 & Hd3 & Hk3).
    exists d3. split; [done|]. intros k v Hkv.
    destruct (Hk2 k v Hkv) as [[v2 Hv2] Hsame2].
    destruct (Hk3 k v2 Hv2) as [Hsome3 Hsame3]. split; [done|].
    intros Hne. specialize (Hsame2 Hne). rewrite Hv2 in Hsame2.
    injection Hsame2 as ->. by apply Hsame3.
Qed.

Lemma keeps_heap_grows {A} (m : M A) :
  preserves (keeps heap) m → preserves heap_grows m.
Proof.
  intros Hm w l d Hd. specialize (Hm w). unfold keeps in Hm. rewrite Hm.
  exists d. split; [done|]. by eauto.
Qed.

Lemma heap_grows_insert w l d x k :
  heap w !! l = Some d → (k = "placeholder" ∨ dict_get k d = None) →
  heap_grows w (set_heap <[l := dict_set k x d]> w).
Proof.
  intros Hd Hk l0 d0 Hd0. simpl_world.
  destruct (decide (l0 = l)) as [->|Hne].
  - rewrite lookup_insert_eq. rewrite Hd in Hd0. injection Hd0 as <-.
    eexists. split; [done|]. intros k0 v0 Hk0. rewrite dict_get_set.
    case_decide as Heq; [|by eauto]. subst k0.
    split; [by eauto|]. intros Hne. destruct Hk as [->|Hk]; [done|congruence].
  - rewrite lookup_insert_ne by done. exists d0. split; [done|]. by eauto.
Qed.

Lemma heap_grows_py_new_dict : preserves heap_grows py_new_dict.
Proof.
  intros w l d Hd. unfold py_new_dict. simpl_world.
  rewrite lookup_insert_ne.
  - exists d. split; [done|]. by eauto.
  - intros <-. pose proof (is_fresh (dom (heap w))) as Hf.
    apply not_elem_of_dom in Hf. congruence.
Qed.

Lemma heap_grows_placeholder v x :
  preserves heap_grows (py_setitem v "placeholder" x).
Proof.
  intros w. destruct v; try reflexivity. simpl. rewrite bind_run.
  unfold deref. destruct (heap w !! l) as [d|] eqn:Hd; simpl; [|reflexivity].
  apply heap_grows_insert; [done|by left].
Qed.

Lemma heap_grows_mode_block params default_mode :
  preserves heap_grows
    (has_mode ← py_in "mode" params;
     if (has_mode : bool) then mret tt
     else py_setitem params "mode" default_mode).
Proof.
  intros w. destruct params; try reflexivity.
  - simpl. rewrite bind_run. unfold mret, M_ret.
    destruct (String.index 0 "mode" s); reflexivity.
  - simpl. rewrite bind_run, bind_run.
    unfold deref. destruct (heap w !! l) as [d|] eqn:Hd; simpl; [|reflexivity].
    unfold dict_contains. destruct (dict_get "mode" d) eqn:Hm; simpl; [reflexivity|].
    rewrite bind_run. unfold deref. rewrite Hd. simpl.
    apply heap_grows_insert; [done|by right].
Qed.

Ltac heap_leaf :=
  first
    [ apply heap_grows_mode_block
    | apply heap_grows_placeholder
    | apply heap_grows_py_new_dict
    | apply keeps_heap_grows;
      first
        [ apply keeps_update_label; done
        | apply keeps_update_editor_obj; done
        | apply keeps_label_tooltip_set_text; done
        | apply keeps_modify; done ] ].

Lemma update_editor_heap_grows label editor wdescr pname propdescr :
  preserves heap_grows (update_editor label editor wdescr pname propdescr).
Proof. unfold update_editor. preserves_with heap_leaf. Qed.

Lemma run_op_heap_grows env o : preserves heap_grows (run_op env o).
Proof.
  destruct o; simpl.
  - unfold edit.
    preserves_with ltac:(first [apply update_editor_heap_grows | heap_leaf]).
  - unfold hide_all. preserves_with heap_leaf.
  - apply update_editor_heap_grows.
  - unfold event_generate. preserves_with heap_leaf.
  - unfold user_input, event_generate. preserves_with heap_leaf.
Qed.

Lemma run_heap_grows env ops w : heap_grows w (run env ops w).
Proof.
  revert w. induction ops as [|o ops IH]; intros w; [reflexivity|].
  change (run env (o :: ops) w) with (run env ops (run_op env o w).2).
  etrans; [apply run_op_heap_grows|apply IH].
Qed.

(** ** [edit] ends normally on well-formed tables *)

Lemma descr_wf_frame h h' S classname pl :
  heap_frame S h h' → S pl → descr_wf h S classname pl → descr_wf h' S classname pl.
Proof.
  intros [Hsame Hdom] HS (generic & Hpl & Hparams & Hov & Hhelp).
  exists generic. split_and!.
  - by rewrite Hsame.
  - intros v Hv. destruct (Hparams v Hv) as (p & -> & Hp & Hsome). eauto 6.
  - intros v Hv.
    destruct (Hov v Hv) as (ol & override & -> & Hol & Hov' & Hop & Hoh).
    exists ol, override. split_and!; [done|done|by rewrite Hsame| |by eauto].
    intros v' Hv'. destruct (Hop v' Hv') as (p & -> & Hp & Hsome). eauto 6.
  - by eauto.
Qed.

Lemma tables_wf_frame env h h' S classname :
  heap_frame S h h' → tables_wf env h S classname → tables_wf env h' S classname.
Proof.
  intros Hframe [HS Htab]. split.
  - intros s Hs. destruct Hframe as [Hsame _]. rewrite Hsame by done. by apply HS.
  - intros g a pl gp n Hg Hn.
    destruct (Htab g a pl gp n Hg Hn) as (Hgp & group & l & Hgroup & Hl & HSl & Hwf).
    split; [done|]. exists group, l. split_and!; [|done|done|].
    + destruct Hframe as [Hsame _]. by rewrite Hsame.
    + by eapply descr_wf_frame.
Qed.

Lemma dict_get_update_Some {V} k (v : V) (d1 d2 : odict V) :
  dict_get k (dict_update d1 d2) = Some v → (k, v) ∈ d2 ∨ dict_get k d1 = Some v.
Proof.
  unfold dict_update. revert d1.
  induction d2 as [|[k0 v0] d2 IH]; intros d1; simpl; [by right|].
  intros [Hin|Hget]%IH.
  - left. by apply list_elem_of_further.
  - rewrite dict_get_set in Hget. case_decide as Hk; [|by right].
    injection Hget as ->. subst. left. apply list_elem_of_here.
Qed.

Lemma bind_step {A B} (m : M A) (f : A → M B) w a w1 :
  m w = (Ok a, w1) → (m ≫= f) w = f a w1.
Proof. intros H. by rewrite bind_run, H. Qed.

Lemma deref_run l w d : heap w !! l = Some d → deref l w = (Ok d, w).
Proof. intros H. unfold deref. by rewrite H. Qed.

Lemma heap_grows_is_Some w w' l :
  heap_grows w w' → is_Some (heap w !! l) → is_Some (heap w' !! l).
Proof. intros H [d Hd]. destruct (H l d Hd) as (d' & Hd' & _). by eexists. Qed.

Ltac gui_leaf :=
  first
    [ apply keeps_py_setitem; done
    | apply keeps_py_new_dict; done
    | apply keeps_modify; done ].

Lemma mode_block_succeeds (default_mode : pyval) (p : loc) w :
  is_Some (heap w !! p) →
  ∃ w', ((if decide (default_mode = VNone) then mret tt
          else
            has_mode ← py_in "mode" (VDict p);
            if (has_mode : bool) then mret tt
            else py_setitem (VDict p) "mode" default_mode) : M unit) w = (Ok tt, w')
        ∧ heap_grows w w' ∧ gui w' = gui w.
Proof.
  intros [d Hd]. case_decide as Hdm.
  - exists w. split_and!; [done|reflexivity|done].
  - simpl. rewrite (bind_step _ _ _ (dict_contains "mode" d) w).
    2: { by rewrite (bind_step _ _ _ d w) by (by apply deref_run). }
    destruct (dict_contains "mode" d) eqn:Hc.
    + exists w. split_and!; [done|reflexivity|done].
    + rewrite (bind_step _ _ _ d w) by (by apply deref_run).
      eexists. split_and!; [done| |done].
      apply heap_grows_insert; [done|]. right.
      unfold dict_contains in Hc. by destruct (dict_get "mode" d).
Qed.

Lemma placeholder_block_succeeds (pname : string) (editor : nat) (sid : pyval)
    (p : loc) w :
  is_Some (heap w !! p) → is_Some (editors w !! editor) →
  ∃ w', ((if decide (pname = "id") then
            is_named ← isinstance_NamedIDPropertyEditor editor;
            if (is_named : bool) then py_setitem (VDict p) "placeholder" sid
            else mret tt
          else mret tt) : M unit) w = (Ok tt, w')
        ∧ heap_grows w w' ∧ gui w' = gui w.
Proof.
  intros [d Hd] [ed Hed]. case_decide as Hid.
  - unfold isinstance_NamedIDPropertyEditor.
    rewrite (bind_step _ _ _
               (match ed_class ed with NamedIDPropertyEditor => true | _ => false end) w).
    2: { unfold get_editor. by rewrite bind_run, Hed. }
    destruct (ed_class ed).
    + simpl. rewrite (bind_step _ _ _ d w) by (by apply deref_run).
      eexists. split_and!; [done| |done].
      apply heap_grows_insert; [done|by left].
    + exists w. split_and!; [done|reflexivity|done].
  - exists w. split_and!; [done|reflexivity|done].
Qed.

Lemma update_editor_runs (S : loc → Prop) label editor wdescr pname pl w lb ed :
  descr_wf (heap w) S (classname wdescr) pl →
  labels w !! label = Some lb → is_Some (lb_tooltip lb) →
  editors w !! editor = Some ed →
  ∃ w', update_editor label editor wdescr pname (VDict pl) w = (Ok tt, w').
Proof.
  intros (generic & Hpl & Hparams & Hov & Hhelp) Hlb Ht Hed.
  unfold update_editor.
  rewrite (bind_step _ _ _ generic w) by (simpl; by apply deref_run).
  (* default_mode *)
  assert (∃ dm, (match dict_get "params" generic with
                 | Some p => py_get p "mode" VNone
                 | None => mret VNone
                 end) w = (Ok dm, w)) as [dm Hdm].
  { destruct (dict_get "params" generic) as [v|] eqn:Hv; [|by eexists].
    destruct (Hparams v eq_refl) as (p & -> & _ & [d Hd]). eexists. simpl.
    by rewrite (bind_step _ _ _ d w) by (by apply deref_run). }
  rewrite (bind_step _ _ _ dm w Hdm).
  (* the merged descriptor *)
  assert (∃ pdescr,
    merge_class_descr (classname wdescr) generic w = (Ok pdescr, w)
    ∧ (∀ v, dict_get "params" pdescr = Some v →
         ∃ p, v = VDict p ∧ is_Some (heap w !! p))
    ∧ (∀ hl, dict_get "help" pdescr = Some (VDict hl) → is_Some (heap w !! hl)))
    as (pdescr & Hmerge & Hpp & Hph).
  { unfold merge_class_descr.
    destruct (dict_get (classname wdescr) generic) as [v|] eqn:Hv.
    - destruct (Hov v eq_refl) as (ol & override & -> & _ & Hol & Hop & Hoh).
      exists (dict_update generic override). split_and!.
      + simpl. by rewrite (bind_step _ _ _ override w) by (by apply deref_run).
      + intros v' [Hin|Hget]%dict_get_update_Some.
        * destruct (Hop _ Hin) as (p & -> & _ & ?); eauto.
        * destruct (Hparams _ Hget) as (p & -> & _ & ?); eauto.
      + intros hl [Hin|Hget]%dict_get_update_Some; eauto.
    - exists generic. split_and!; [done| |done].
      intros v' Hget. destruct (Hparams _ Hget) as (p & -> & _ & ?); eauto. }
  rewrite (bind_step _ _ _ pdescr w Hmerge).
  (* params *)
  assert (∃ p w1,
    (match dict_get "params" pdescr with
     | Some p => mret p
     | None => py_new_dict
     end) w = (Ok (VDict p), w1)
    ∧ is_Some (heap w1 !! p) ∧ heap_grows w w1 ∧ gui w1 = gui w)
    as (p & w1 & Hparams1 & Hp1 & Hg1 & Hgui1).
  { destruct (dict_get "params" pdescr) as [v|] eqn:Hv.
    - destruct (Hpp v eq_refl) as (p & -> & Hsome).
      exists p, w. split_and!; [done|done|reflexivity|done].
    - eexists _, _. split_and!; [reflexivity| |apply heap_grows_py_new_dict|done].
      simpl_world. rewrite lookup_insert_eq. by eexists. }
  rewrite (bind_step _ _ _ _ _ Hparams1).
  destruct (mode_block_succeeds dm p w1 Hp1) as (w2 & Hmode & Hg2 & Hgui2).
  rewrite (bind_step _ _ _ _ _ Hmode).
  assert (editors w2 = editors w ∧ labels w2 = labels w) as [Heds2 Hlbs2].
  { unfold gui in *. split; congruence. }
  destruct (placeholder_block_succeeds pname editor (start_id wdescr) p w2)
    as (w3 & Hph3 & Hg3 & Hgui3).
  { by eapply heap_grows_is_Some. }
  { rewrite Heds2, Hed. by eexists. }
  rewrite (bind_step _ _ _ _ _ Hph3).
  assert (editors w3 = editors w ∧ labels w3 = labels w) as [Heds3 Hlbs3].
  { unfold gui in *. split; congruence. }
  assert (heap_grows w w3) as Hg by (etrans; [|done]; by etrans).
  (* the keyword arguments *)
  destruct (heap_grows_is_Some w2 w3 p Hg3 (heap_grows_is_Some w1 w2 p Hg2 Hp1))
    as [kw Hkw].
  rewrite (bind_step _ _ _ kw w3) by (simpl; by apply deref_run).
  rewrite (bind_step _ _ _ tt (set_editors <[editor := ed_set_parameters kw ed]> w3)).
  2: { unfold editor_parameters, update_editor_obj, get_editor.
       by rewrite bind_run, Heds3, Hed. }
  (* the tooltip *)
  set (w4 := set_editors <[editor := ed_set_parameters kw ed]> w3).
  assert (∃ help,
    (match default VNone (dict_get "help" pdescr) with
     | VDict l =>
         items ← deref l; mret (help_for_class (classname wdescr) items)
     | _ => mret (default VNone (dict_get "help" pdescr))
     end) w4 = (Ok help, w4)) as [help Hhelp4].
  { destruct (dict_get "help" pdescr) as [v|] eqn:Hv; simpl; [|by eexists].
    destruct v as [| | | |hl]; try (by eexists).
    destruct (heap_grows_is_Some w w3 hl Hg (Hph hl eq_refl)) as [items Hitems].
    eexists. by rewrite (bind_step _ _ _ items w4) by (by apply deref_run). }
  rewrite (bind_step _ _ _ _ _ Hhelp4).
  rewrite (bind_step _ _ _ tt (set_labels <[label := lb_set_tooltip help lb]> w4)).
  2: { unfold label_tooltip_set_text, get_label. rewrite bind_run. subst w4.
       simpl_world. rewrite Hlbs3, Hlb. destruct Ht as [t ->]. done. }
  rewrite bind_run. unfold gets at 1.
  unfold editor_edit, update_editor_obj, get_editor. rewrite bind_run. subst w4.
  simpl_world. rewrite Heds3.
  rewrite list_lookup_insert_eq by (by eapply lookup_lt_Some).
  by eexists.
Qed.

Lemma update_editor_succeeds (S : loc → Prop) label editor wdescr pname pl w lb ed :
  (∀ s, S s → is_Some (heap w !! s)) →
  descr_wf (heap w) S (classname wdescr) pl →
  labels w !! label = Some lb → is_Some (lb_tooltip lb) →
  editors w !! editor = Some ed →
  ∃ w', update_editor label editor wdescr pname (VDict pl) w = (Ok tt, w')
        ∧ heap_frame S (heap w) (heap w').
Proof.
  intros HS Hwf Hlb Ht Hed.
  destruct (update_editor_runs S label editor wdescr pname pl w lb ed)
    as [w' Hrun]; [done..|].
  exists w'. split; [done|].
  destruct Hwf as (generic & Hpl & Hparams & Hov & Hhelp).
  apply update_editor_Ok_editor in Hrun
    as (generic' & pdescr & dm & p & d0 & ed' & (pl' & [= <-] & Hpl') & Hm & _
        & Hsrc & _ & Hheap & _).
  assert (generic' = generic) as -> by congruence.
  assert (¬ S p) as Hp.
  { destruct Hsrc as [[Hget _]|(_ & Hnone & _)].
    - unfold merged_descr in Hm. rewrite Hpl in Hm. simpl in Hm.
      destruct (dict_get (classname wdescr) generic) as [v|] eqn:Hv.
      + destruct (Hov v eq_refl) as (ol & override & -> & _ & Hol & Hop & _).
        rewrite Hol in Hm. simpl in Hm. injection Hm as <-.
        apply dict_get_update_Some in Hget as [Hin|Hget].
        * by destruct (Hop _ Hin) as (p' & [= <-] & ? & _).
        * by destruct (Hparams _ Hget) as (p' & [= <-] & ? & _).
      + injection Hm as <-. by destruct (Hparams _ Hget) as (p' & [= <-] & ? & _).
    - intros [d Hd]%HS. congruence. }
  rewrite Hheap. split.
  - intros s Hs. apply lookup_insert_ne. by intros <-.
  - intros l Hl. rewrite lookup_insert_is_Some. destruct (decide (p = l)); auto.
Qed.

Section construction_complete.
Context (env : Env).

Lemma create_properties_complete gcode propdescr col plist row w row' w' :
  for_fold (create_property env gcode propdescr col) plist row w = (Ok row', w') →
  (∀ key, is_Some (dict_get key (_propbag w)) → is_Some (dict_get key (_propbag w')))
  ∧ ∀ name, name ∈ plist → is_Some (dict_get (gcode +:+ name) (_propbag w')).
Proof.
  revert row w. induction plist as [|n plist IH]; intros row w; simpl.
  - intros [_ ->]%ret_Ok. split; [done|]. intros ? Hin. by apply elem_of_nil in Hin.
  - intros (row1 & w1 & Hstep & Hrest)%bind_Ok.
    apply create_property_Ok in Hstep as (lb & ed & _ & _ & _ & _ & Hbag).
    destruct (IH _ _ Hrest) as [Hmono Hall].
    assert (∀ key, is_Some (dict_get key (_propbag w)) →
                   is_Some (dict_get key (_propbag w1))) as Hmono1.
    { intros key Hkey. rewrite Hbag, dict_get_set. by case_decide. }
    split; [by auto|].
    intros name [->|Hin]%elem_of_cons; [|by auto].
    apply Hmono. rewrite Hbag, dict_get_set_eq. by eexists.
Qed.

Lemma create_group_complete col row g w row' w' :
  create_group env col row g w = (Ok row', w') →
  (∀ key, is_Some (dict_get key (_propbag w)) → is_Some (dict_get key (_propbag w')))
  ∧ ∀ name, name ∈ g.1.2 → is_Some (dict_get (g.1.1.1 +:+ name) (_propbag w')).
Proof.
  destruct g as [[[gcode gname] plist] propdescr]. unfold create_group. simpl.
  intros (label & w1 & Hnew & H)%bind_Ok.
  unfold new_label in Hnew. injection Hnew as <- <-.
  apply bind_Ok in H as (u1 & w2 & (x1 & Hx1 & ->)%update_label_Ok & H).
  by apply create_properties_complete in H.
Qed.

Lemma create_groups_complete col groups row w row' w' :
  for_fold (create_group env col) groups row w = (Ok row', w') →
  (∀ key, is_Some (dict_get key (_propbag w)) → is_Some (dict_get key (_propbag w')))
  ∧ ∀ g name, g ∈ groups → name ∈ g.1.2 →
      is_Some (dict_get (g.1.1.1 +:+ name) (_propbag w')).
Proof.
  revert row w. induction groups as [|g groups IH]; intros row w; simpl.
  - intros [_ ->]%ret_Ok. split; [done|]. intros ?? Hin. by apply elem_of_nil in Hin.
  - intros (row1 & w1 & Hstep & Hrest)%bind_Ok.
    apply create_group_complete in Hstep as [Hmono1 Hg].
    destruct (IH _ _ Hrest) as [Hmono Hall]. split; [by auto|].
    intros g' name [->|Hin]%elem_of_cons Hname; [by auto|by eauto].
Qed.

Lemma registered_created gcode name :
  registered env gcode name →
  ∃ g, g ∈ create_groups env ∧ g.1.1.1 = gcode ∧ name ∈ g.1.2.
Proof.
  intros (a & p & gp & Hin & Hname). unfold edit_groups in Hin.
  unfold create_groups.
  repeat (apply elem_of_cons in Hin as [[= -> -> -> ->]|Hin];
          [eexists (_, _, _, _); split; [|split; [reflexivity|exact Hname]];
           repeat first [apply list_elem_of_here | apply list_elem_of_further] |]).
  by apply elem_of_nil in Hin.
Qed.

Lemma init_complete h w0 :
  __init__ env (new_world h) = (Ok tt, w0) → bag_complete env w0.
Proof.
  unfold __init__.
  intros (u1 & w1 & _ & H)%bind_Ok.
  apply bind_Ok in H as (u2 & w2 & _ & H).
  apply bind_Ok in H as (u3 & w3 & Hc & Hh).
  assert (_propbag w0 = _propbag w3) as Hbag.
  { pose proof (hide_all_identity w3) as Hk. rewrite Hh in Hk.
    unfold keeps, panel_identity in Hk. by injection Hk. }
  unfold bag_complete. rewrite Hbag.
  unfold _create_properties in Hc.
  apply bind_Ok in Hc as (row & w4 & Hc & [_ ->]%ret_Ok).
  apply create_groups_complete in Hc as [_ Hall].
  intros gcode name (g & Hg & <- & Hname)%registered_created. by apply Hall.
Qed.

Lemma panel_state_complete h ops w : panel_state env h ops w → bag_complete env w.
Proof.
  intros (w0 & Hinit & ->). intros gcode name Hreg.
  pose proof (run_identity env ops w0) as Hid. unfold panel_identity in Hid.
  injection Hid as Hbag _ _. rewrite Hbag. by eapply init_complete.
Qed.
End construction_complete.

Lemma for_each_succeeds {A} (I : world → Prop) (D : A → Prop) (f : A → M unit) :
  (∀ x w, D x → I w → ∃ w', f x w = (Ok tt, w') ∧ I w') →
  ∀ l w, Forall D l → I w → ∃ w', for_each f l w = (Ok tt, w') ∧ I w'.
Proof.
  intros Hf l. induction l as [|x l IH]; intros w HD Hw; simpl.
  - by exists w.
  - apply Forall_cons in HD as [Hx HD].
    destruct (Hf x w Hx Hw) as (w1 & Hrun1 & Hw1).
    destruct (IH w1 HD Hw1) as (w' & Hrun & Hw').
    exists w'. by rewrite (bind_step _ _ _ _ _ Hrun1).
Qed.

Section edit_succeeds.
Context (env : Env) (S : loc → Prop) (wdescr : WidgetDescr)
  (class_descr : BuilderClass).

Local Abbreviation edit_ready := (edit_ready env S wdescr).

Lemma edit_ready_keeps w w' :
  edit_ready w → panel_identity w' = panel_identity w →
  heap_frame S (heap w) (heap w') → edit_ready w'.
Proof.
  intros (Hwf & Hc & Ht) Hid Hframe. split_and!.
  - by eapply panel_wf_keeps.
  - unfold bag_complete. unfold panel_identity in Hid. injection Hid as -> _ _. done.
  - by eapply tables_wf_frame.
Qed.

Lemma heap_frame_refl h : heap_frame S h h.
Proof. by split. Qed.

Lemma show_or_hide_succeeds name pl label widget shown w key :
  edit_ready w → (key, (label, widget)) ∈ _propbag w →
  descr_wf (heap w) S (classname wdescr) pl →
  ∃ w', show_or_hide wdescr name (VDict pl) label widget shown w = (Ok tt, w')
        ∧ heap_frame S (heap w) (heap w').
Proof.
  intros (Hwf & _ & [HS _]) Hin Hdescr.
  destruct (wf_entries _ _ Hwf _ _ _ Hin) as (lb & ed & Hlb & Ht & Hed & _).
  unfold show_or_hide. destruct shown.
  - destruct (update_editor_succeeds S label widget wdescr name pl w lb ed)
      as (w1 & Hrun & Hframe); [done..|].
    pose proof (update_editor_identity label widget wdescr name (VDict pl) w) as Hid.
    rewrite Hrun in Hid. unfold keeps, panel_identity in Hid. simpl in Hid.
    injection Hid as _ Heds Hlbs.
    assert (is_Some (labels w1 !! label)) as [lb1 Hlb1].
    { apply lookup_lt_is_Some. rewrite <-(length_fmap lb_identity), Hlbs, length_fmap.
      by eapply lookup_lt_Some. }
    assert (is_Some (editors w1 !! widget)) as [ed1 Hed1].
    { apply lookup_lt_is_Some. rewrite <-(length_fmap ed_identity), Heds, length_fmap.
      by eapply lookup_lt_Some. }
    rewrite (bind_step _ _ _ _ _ Hrun).
    rewrite (bind_step _ _ _ tt (set_labels <[label := lb_set_gridded true lb1]> w1)).
    2: { unfold label_grid, update_label, get_label. by rewrite bind_run, Hlb1. }
    unfold widget_grid, update_editor_obj, get_editor. rewrite bind_run. simpl_world.
    rewrite Hed1. by eexists.
  - rewrite (bind_step _ _ _ tt (set_labels <[label := lb_set_gridded false lb]> w)).
    2: { by apply label_grid_remove_run. }
    rewrite (widget_grid_remove_run _ _ ed) by done.
    eexists. split; [done|]. apply heap_frame_refl.
Qed.

Lemma edit_property_succeeds gcode attrname proplist gproperties name w :
  (gcode, attrname, proplist, gproperties) ∈ edit_groups env → name ∈ proplist →
  edit_ready w →
  ∃ w', edit_property wdescr class_descr gcode attrname gproperties name w
          = (Ok tt, w')
        ∧ edit_ready w'.
Proof.
  intros Hg Hname Hready.
  assert (∃ w', edit_property wdescr class_descr gcode attrname gproperties name w
                  = (Ok tt, w')
                ∧ heap_frame S (heap w) (heap w')) as (w' & Hrun & Hframe).
  { destruct Hready as (Hwf & Hcomplete & Htab).
    destruct (proj2 Htab _ _ _ _ _ Hg Hname)
      as (_ & group & pl & Hgroup & Hpl & _ & Hdescr).
    destruct (Hcomplete gcode name) as [[label widget] Hget]; [by do 3 eexists|].
    rewrite (edit_property_unfold env wdescr class_descr _ _ _ _ _ _ Hg).
    simpl. rewrite (bind_step _ _ _ group w) by (by apply deref_run).
    rewrite Hpl, Hget. simpl.
    eapply show_or_hide_succeeds; [done| |done]. by apply dict_get_Some_elem. }
  exists w'. split; [done|]. eapply edit_ready_keeps; [done| |done].
  pose proof (edit_property_identity wdescr class_descr gcode attrname gproperties
                name w) as Hid.
  by rewrite Hrun in Hid.
Qed.

Lemma edit_group_succeeds g w :
  g ∈ edit_groups env → edit_ready w →
  ∃ w', edit_group wdescr class_descr g w = (Ok tt, w') ∧ edit_ready w'.
Proof.
  destruct g as [[[gcode attrname] proplist] gproperties]. intros Hg Hready.
  unfold edit_group.
  apply (for_each_succeeds edit_ready (fun name => name ∈ proplist)); [|..|done].
  - intros name w1 Hname Hw1. by eapply edit_property_succeeds.
  - by apply Forall_forall.
Qed.

Lemma edit_groups_succeed w :
  edit_ready w →
  ∃ w', for_each (edit_group wdescr class_descr) (edit_groups env) w = (Ok tt, w')
        ∧ edit_ready w'.
Proof.
  intros Hready.
  apply (for_each_succeeds edit_ready (fun g => g ∈ edit_groups env)); [|..|done].
  - intros g w1 Hg Hw1. by apply edit_group_succeeds.
  - by apply Forall_forall.
Qed.
End edit_succeeds.

(** ** The exceptions of [edit] (C8) *)

Lemma for_each_app {A} (f : A → M unit) (l1 l2 : list A) w :
  for_each f (l1 ++ l2) w =
    match for_each f l1 w with
    | (Ok _, w1) => for_each f l2 w1
    | (Raise e, w1) => (Raise e, w1)
    end.
Proof.
  revert w. induction l1 as [|x l1 IH]; intros w; simpl; [done|].
  rewrite !bind_run. destruct (f x w) as [[[]|e] w1]; [|done]. apply IH.
Qed.

Lemma for_each_map {A B} (f : B → M unit) (g : A → B) (l : list A) w :
  for_each f (map g l) w = for_each (fun x => f (g x)) l w.
Proof.
  revert w. induction l as [|x l IH]; intros w; simpl; [done|].
  rewrite !bind_run. destruct (f (g x) w) as [[[]|e] w1]; [|done]. apply IH.
Qed.

(** A loop raises exactly what its first failing iteration raises, from
    the state in which that iteration raised it. *)
Lemma for_each_Raise {A} (f : A → M unit) (l : list A) w e w' :
  for_each f l w = (Raise e, w') ↔
    ∃ before x after w1,
      l = before ++ x :: after
      ∧ for_each f before w = (Ok tt, w1)
      ∧ f x w1 = (Raise e, w').
Proof.
  revert w. induction l as [|y l IH]; intros w; simpl.
  - split; [done|]. intros (before & x & after & w1 & Hl & _).
    by destruct before.
  - rewrite bind_Raise. split.
    + intros [Hy|([] & w1 & Hy & Hl)].
      * by exists [], y, l, w.
      * apply IH in Hl as (before & x & after & w2 & -> & Hb & Hx).
        exists (y :: before), x, after, w2. split_and!; [done| |done].
        simpl. by rewrite bind_run, Hy.
    + intros (before & x & after & w1 & Hl & Hb & Hx).
      destruct before as [|y' before]; simpl in Hl; injection Hl as -> ->.
      * injection Hb as <-. by left.
      * simpl in Hb. apply bind_Ok in Hb as ([] & w2 & Hy & Hb).
        right. exists tt, w2. split; [done|]. apply IH. by exists before, x, after, w1.
Qed.

Section edit_failures.
Context (env : Env) (wdescr : WidgetDescr) (class_descr : BuilderClass).

(** The two loops of [edit] are one loop over [edit_order]. *)
Lemma edit_loops_flat w :
  for_each (edit_group wdescr class_descr) (edit_groups env) w =
    for_each (edit_step wdescr class_descr) (edit_order env) w.
Proof.
  unfold edit_order. generalize (edit_groups env) as gs. intros gs. revert w.
  induction gs as [|[[[gcode attrname] proplist] gproperties] gs IH]; intros w;
    simpl; [done|].
  rewrite for_each_app, bind_run, for_each_map. unfold edit_group at 1, edit_step at 1.
  simpl.
  destruct (for_each (edit_property wdescr class_descr gcode attrname gproperties)
              proplist w) as [[[]|e] w1]; [|done].
  apply IH.
Qed.

Lemma edit_order_registered gcode attrname gproperties name :
  (gcode, attrname, gproperties, name) ∈ edit_order env →
  ∃ proplist, (gcode, attrname, proplist, gproperties) ∈ edit_groups env
              ∧ name ∈ proplist.
Proof.
  unfold edit_order. intros Hin. apply list_elem_of_In, in_concat in Hin
    as (l & Hl & Hin).
  apply in_map_iff in Hl as ([[[g a] pl] gp] & <- & Hg).
  apply in_map_iff in Hin as (n & [= <- <- <- <-] & Hn).
  exists pl. split; by apply list_elem_of_In.
Qed.

Lemma edit_step_identity x :
  preserves (keeps panel_identity) (edit_step wdescr class_descr x).
Proof. apply edit_property_identity. Qed.

(** On a panel whose bag is complete, an iteration of [edit] raises only
    what the lookup of the descriptor raises or what [update_editor]
    raises for a property that is shown, and it raises all of it. *)
Lemma edit_step_Raise gcode attrname gproperties name w e w' :
  panel_wf env w → bag_complete env w →
  (gcode, attrname, gproperties, name) ∈ edit_order env →
  edit_step wdescr class_descr (gcode, attrname, gproperties, name) w = (Raise e, w') ↔
    py_getitem (VDict gproperties) name w = (Raise e, w')
    ∨ ∃ propdescr label widget,
        py_getitem (VDict gproperties) name w = (Ok propdescr, w)
        ∧ dict_get (gcode +:+ name) (_propbag w) = Some (label, widget)
        ∧ shown_by_spec class_descr gcode name = true
        ∧ update_editor label widget wdescr name propdescr w = (Raise e, w').
Proof.
  intros Hwf Hbag (proplist & Hg & Hname)%edit_order_registered.
  unfold edit_step. cbn [fst snd]. rewrite (edit_property_unfold _ _ _ _ _ _ _ _ _ Hg).
  pose proof (py_getitem_state (VDict gproperties) name w) as Hst.
  destruct (py_getitem (VDict gproperties) name w) as [[propdescr|e0] w1];
    simpl in Hst; subst w1.
  2: { split.
       - intros [= -> ->]. by left.
       - intros [[= -> ->]|(? & ? & ? & [=] & _)]. done. }
  destruct (Hbag gcode name) as [[label widget] Hget]; [by do 3 eexists|].
  rewrite Hget.
  destruct (wf_entries _ _ Hwf _ _ _ (dict_get_Some_elem _ _ _ Hget))
    as (lb & ed & Hlb & _ & Hed & _).
  unfold show_or_hide. destruct (shown_by_spec class_descr gcode name).
  - rewrite bind_run.
    pose proof (update_editor_identity label widget wdescr name propdescr w) as Hid.
    destruct (update_editor label widget wdescr name propdescr w) as [[[]|e1] w1]
      eqn:Hupd.
    + unfold keeps, panel_identity in Hid. simpl in Hid. injection Hid as _ Heds Hlbs.
      assert (is_Some (labels w1 !! label)) as [lb1 Hlb1].
      { apply lookup_lt_is_Some. rewrite <-(length_fmap lb_identity), Hlbs, length_fmap.
        by eapply lookup_lt_Some. }
      assert (is_Some (editors w1 !! widget)) as [ed1 Hed1].
      { apply lookup_lt_is_Some. rewrite <-(length_fmap ed_identity), Heds, length_fmap.
        by eapply lookup_lt_Some. }
      rewrite bind_run. unfold label_grid, update_label, get_label. rewrite bind_run, Hlb1.
      unfold modify at 1.
      unfold widget_grid, update_editor_obj, get_editor. rewrite bind_run. simpl_world.
      rewrite Hed1. split; [done|].
      intros [[=]|(? & ? & ? & [= <-] & [= <- <-] & _ & Hraise)]. congruence.
    + split.
      * intros [= -> ->]. right. by exists propdescr, label, widget.
      * intros [[=]|(? & ? & ? & [= <-] & [= <- <-] & _ & Hraise)]. congruence.
  - rewrite bind_run, (label_grid_remove_run _ _ lb) by done.
    rewrite (widget_grid_remove_run _ _ ed) by done.
    split; [done|]. intros [[=]|(? & ? & ? & _ & _ & [=] & _)].
Qed.

(** The iterations of [edit] that end normally keep the panel what it is. *)
Lemma edit_steps_keep l w w' :
  panel_wf env w → bag_complete env w →
  for_each (edit_step wdescr class_descr) l w = (Ok tt, w') →
  panel_wf env w' ∧ bag_complete env w'.
Proof.
  intros Hwf Hbag Hrun.
  assert (keeps panel_identity w w') as Hid.
  { pose proof (preserves_for_each (keeps panel_identity)
                  (edit_step wdescr class_descr) l
                  (fun x _ => edit_step_identity x) w) as Hid.
    by rewrite Hrun in Hid. }
  split; [by eapply panel_wf_keeps|].
  unfold bag_complete. unfold keeps, panel_identity in Hid. injection Hid as -> _ _.
  done.
Qed.

End edit_failures.

(** What [update_editor] raises on a descriptor that is not a dict, and
    on an entry for the class that is not a dict. *)
Lemma update_editor_not_a_dict label editor wdescr pname (v : pyval) w :
  (∀ l, v ≠ VDict l) →
  update_editor label editor wdescr pname v w = (Raise (AttributeError "copy"), w).
Proof. intros Hv. unfold update_editor. rewrite bind_run. by destruct v; [..|destruct (Hv l)]. Qed.

Lemma update_editor_class_not_a_dict label editor wdescr pname pl generic (v : pyval) w :
  heap w !! pl = Some generic →
  is_Some (generic_mode (heap w) generic) →
  dict_get (classname wdescr) generic = Some v →
  (∀ l, v ≠ VDict l) →
  update_editor label editor wdescr pname (VDict pl) w =
    (Raise (TypeError "argument after ** must be a mapping"), w).
Proof.
  intros Hpl [dm Hdm] Hv Hnd. unfold update_editor. rewrite bind_run. simpl.
  rewrite (deref_run _ _ _ Hpl), bind_run.
  assert ((match dict_get "params" generic with
           | Some p => py_get p "mode" VNone
           | None => mret VNone
           end) w = (Ok dm, w)) as ->.
  { unfold generic_mode in Hdm. destruct (dict_get "params" generic) as [[| | | |gp]|];
      try done.
    - simpl. destruct (heap w !! gp) as [d|] eqn:Hgp; [|done]. simpl in Hdm.
      injection Hdm as <-. by rewrite bind_run, (deref_run _ _ _ Hgp).
    - by injection Hdm as <-. }
  rewrite bind_run. unfold merge_class_descr. rewrite Hv, bind_run.
  by destruct v; [..|destruct (Hnd l)].
Qed.

(** * Lemmas for the further properties *)

(** ** Loops that carry local variables *)

Lemma for_fold_inv {A B} (I : B → world → Prop) (f : B → A → M B) l b w b' w' :
  I b w →
  (∀ x b1 w1 b2 w2, x ∈ l → I b1 w1 → f b1 x w1 = (Ok b2, w2) → I b2 w2) →
  for_fold f l b w = (Ok b', w') → I b' w'.
Proof.
  revert b w. induction l as [|x l IH]; intros b w HI Hf; simpl.
  - by intros [-> ->]%ret_Ok.
  - intros (b1 & w1 & Hx & Hl)%bind_Ok. eapply (IH b1 w1); [| |done].
    + eapply Hf; [apply list_elem_of_here|done..].
    + intros y b2 w2 b3 w3 Hy. by apply Hf, list_elem_of_further.
Qed.

Lemma for_fold_succeeds {A B} (I : B → world → Prop) (D : A → Prop) (f : B → A → M B) :
  (∀ x b w, D x → I b w → ∃ b' w', f b x w = (Ok b', w') ∧ I b' w') →
  ∀ l b w, Forall D l → I b w → ∃ b' w', for_fold f l b w = (Ok b', w') ∧ I b' w'.
Proof.
  intros Hf l. induction l as [|x l IH]; intros b w HD Hw; simpl.
  - by exists b, w.
  - apply Forall_cons in HD as [Hx HD].
    destruct (Hf x b w Hx Hw) as (b1 & w1 & Hrun1 & Hw1).
    destruct (IH b1 w1 HD Hw1) as (b' & w' & Hrun & Hw').
    exists b', w'. by rewrite (bind_step _ _ _ _ _ Hrun1).
Qed.

(** A loop that raises: an iteration raised, after the iterations before
    it ended normally. *)
Lemma for_fold_Raise {A B} (I : B → world → Prop) (f : B → A → M B) l b w e w' :
  I b w →
  (∀ x b1 w1 b2 w2, x ∈ l → I b1 w1 → f b1 x w1 = (Ok b2, w2) → I b2 w2) →
  for_fold f l b w = (Raise e, w') →
  ∃ x b1 w1, x ∈ l ∧ I b1 w1 ∧ f b1 x w1 = (Raise e, w').
Proof.
  revert b w. induction l as [|x l IH]; intros b w HI Hf; simpl; [done|].
  intros [Hx|(b1 & w1 & Hx & Hl)]%bind_Raise.
  - exists x, b, w. split_and!; [apply list_elem_of_here|done..].
  - destruct (IH b1 w1) as (y & b2 & w2 & Hy & HI2 & Hrun); [| |done|].
    + eapply Hf; [apply list_elem_of_here|done..].
    + intros y b2 w2 b3 w3 Hy. by apply Hf, list_elem_of_further.
    + exists y, b2, w2. split_and!; [by apply list_elem_of_further|done..].
Qed.

(** ** The iterations of [_create_properties] *)

Section construction_run.
Context (env : Env).

Lemma create_editor_run pname pl d w :
  heap w !! pl = Some d →
  _create_editor env pname (VDict pl) w =
    (Ok (length (editors w)),
     set_editors (fun es => es ++
       [{| ed_class := editor_class_for env d; ed_row := 0; ed_column := 0;
           ed_gridded := false;
           ed_bindings := [("<<PropertyChanged>>", on_change_cb pname (length (editors w)))];
           ed_parameters := None; ed_value := VStr "" |}]) w).
Proof.
  intros Hd. unfold _create_editor.
  rewrite (bind_step _ _ _ (default VNone (dict_get "editor" d)) w).
  2: { simpl. by rewrite (bind_step _ _ _ d w) by (by apply deref_run). }
  rewrite bind_run. unfold new_editor at 1. rewrite bind_run.
  unfold editor_bind, get_editor. rewrite bind_run. norm_world.
  rewrite lookup_app_length. unfold modify. simpl. norm_world.
  by rewrite insert_app_length.
Qed.

(** One iteration of the inner loop of [_create_properties]. *)
Lemma create_property_run gcode gp col row name pl d w :
  descriptor (heap w) gp name = Some (VDict pl) → heap w !! pl = Some d →
  create_property env gcode gp col row name w =
    (Ok (row + 1),
     World (heap w)
       (labels w ++ [property_label name row col])
       (editors w ++
          [property_editor (editor_class_for env d) name row (col + 1)
             (length (editors w))])
       (_current w) (current w)
       (dict_set (gcode +:+ name) (length (labels w), length (editors w)) (_propbag w))
       (setter_calls w) (repositions w)).
Proof.
  intros Hdescr Hd. unfold descriptor in Hdescr.
  destruct (heap w !! gp) as [group|] eqn:Hgroup; [|done]. simpl in Hdescr.
  unfold create_property.
  rewrite (bind_step _ _ _ (VDict pl) w).
  2: { simpl. rewrite (bind_step _ _ _ group w) by (by apply deref_run).
       by rewrite Hdescr. }
  rewrite bind_run. unfold new_label at 1.
  rewrite bind_run. unfold label_grid_at, update_label, get_label.
  rewrite bind_run. norm_world. rewrite lookup_app_length. unfold modify at 1.
  norm_world. rewrite insert_app_length.
  rewrite bind_run. unfold label_create_tooltip, update_label, get_label.
  rewrite bind_run. norm_world. rewrite lookup_app_length. unfold modify at 1.
  norm_world. rewrite insert_app_length.
  erewrite bind_step; [|apply (create_editor_run name pl d); exact Hd]. norm_world.
  rewrite bind_run. unfold widget_grid_at, update_editor_obj, get_editor.
  rewrite bind_run. norm_world. rewrite lookup_app_length. unfold modify at 1.
  norm_world. rewrite insert_app_length.
  rewrite bind_run. unfold modify at 1. norm_world. done.
Qed.

Lemma create_property_Ok_descr gcode gp col row name w row' w' :
  create_property env gcode gp col row name w = (Ok row', w') →
  ∃ pl d, descriptor (heap w) gp name = Some (VDict pl) ∧ heap w !! pl = Some d.
Proof.
  unfold create_property.
  intros (kwdata & w1 & [-> (l & dg & [= <-] & Hdg & Hk)]%py_getitem_Ok & H)%bind_Ok.
  apply bind_Ok in H as (label & w2 & Hnew & H).
  unfold new_label in Hnew. injection Hnew as <- <-.
  apply bind_Ok in H as (u1 & w3 & (x1 & Hx1 & ->)%update_label_Ok & H).
  apply bind_Ok in H as (u2 & w4 & (x2 & Hx2 & ->)%update_label_Ok & H).
  apply bind_Ok in H as (widget & w5 & Hce & H).
  unfold _create_editor in Hce.
  apply bind_Ok in Hce as (wtype & w6 & [-> (pl & d & -> & Hd & _)]%py_get_Ok & _).
  norm_world. exists pl, d. unfold descriptor. rewrite Hdg. simpl. done.
Qed.

(** A listed property without a descriptor: the lookup raises, before
    anything is created. *)
Lemma create_property_missing gcode gp col row name w :
  is_Some (heap w !! gp) → descriptor (heap w) gp name = None →
  create_property env gcode gp col row name w = (Raise (KeyError name), w).
Proof.
  intros [group Hgroup] Hdescr. unfold descriptor in Hdescr.
  rewrite Hgroup in Hdescr. simpl in Hdescr.
  unfold create_property. rewrite bind_run. simpl.
  rewrite (bind_step _ _ _ group w) by (by apply deref_run). by rewrite Hdescr.
Qed.

Lemma create_group_unfold col row gcode gname plist gp w :
  create_group env col row (gcode, gname, plist, gp) w =
    for_fold (create_property env gcode gp col) plist (row + 1)
      (set_labels (fun ls => ls ++ [group_label gname row]) w).
Proof.
  unfold create_group. rewrite bind_run. unfold new_label at 1.
  rewrite bind_run. unfold label_grid_at, update_label, get_label.
  rewrite bind_run. norm_world. rewrite lookup_app_length. unfold modify at 1.
  norm_world. rewrite insert_app_length. done.
Qed.

End construction_run.

(** ** What construction leaves alone *)

Section keeps_new.
Context {X} (π : world → X).

Lemma keeps_new_label text :
  (∀ w f, π (set_labels f w) = π w) → preserves (keeps π) (new_label text).
Proof. intros H w. apply H. Qed.

Lemma keeps_new_editor c :
  (∀ w f, π (set_editors f w) = π w) → preserves (keeps π) (new_editor c).
Proof. intros H w. apply H. Qed.
End keeps_new.

Ltac outside_leaf :=
  first
    [ apply keeps_new_label; done
    | apply keeps_new_editor; done
    | apply keeps_update_label; done
    | apply keeps_update_editor_obj; done
    | apply keeps_modify; done ].

Section construction_frame.
Context (env : Env).

Lemma create_property_outside gcode gp col row name :
  preserves (keeps outside) (create_property env gcode gp col row name).
Proof. unfold create_property, _create_editor. preserves_with outside_leaf. Qed.

Lemma create_group_outside col row g :
  preserves (keeps outside) (create_group env col row g).
Proof.
  destruct g as [[[gcode gname] plist] gp]. unfold create_group.
  preserves_with ltac:(first [apply create_property_outside | outside_leaf]).
Qed.

Lemma hide_all_outside : preserves (keeps outside) hide_all.
Proof. unfold hide_all. preserves_with outside_leaf. Qed.

Lemma init_outside : preserves (keeps outside) (__init__ env).
Proof.
  unfold __init__, _create_properties.
  preserves_with ltac:(first
    [apply create_group_outside | apply hide_all_outside | outside_leaf]).
Qed.

End construction_frame.

(** ** The pairs construction makes *)

Lemma identity_lookup_label w w' l lb :
  keeps panel_identity w w' → labels w !! l = Some lb →
  ∃ lb', labels w' !! l = Some lb' ∧ lb_identity lb' = lb_identity lb.
Proof.
  unfold keeps, panel_identity. intros [= _ _ Hlbs] Hl.
  assert ((lb_identity <$> labels w') !! l = Some (lb_identity lb)) as Hl'.
  { by rewrite Hlbs, list_lookup_fmap, Hl. }
  rewrite list_lookup_fmap in Hl'.
  destruct (labels w' !! l) as [lb'|]; [|done].
  apply (inj Some) in Hl'. by exists lb'.
Qed.

Lemma identity_lookup_editor w w' e ed :
  keeps panel_identity w w' → editors w !! e = Some ed →
  ∃ ed', editors w' !! e = Some ed' ∧ ed_identity ed' = ed_identity ed.
Proof.
  unfold keeps, panel_identity. intros [= _ Heds _] He.
  assert ((ed_identity <$> editors w') !! e = Some (ed_identity ed)) as He'.
  { by rewrite Heds, list_lookup_fmap, He. }
  rewrite list_lookup_fmap in He'.
  destruct (editors w' !! e) as [ed'|]; [|done].
  apply (inj Some) in He'. by exists ed'.
Qed.

Lemma lb_identity_row lb t r c b : lb_identity lb = (t, r, c, b) → lb_row lb = r.
Proof. unfold lb_identity. by intros [= _ -> _ _]. Qed.

Section built.
Context (env : Env) (h : gmap loc pydict).

Local Abbreviation creating := (creating env h).
Local Abbreviation created := (created env h).

Lemma built_for_keeps w w' gp name label editor row :
  keeps panel_identity w w' →
  built_for env h w gp name label editor row →
  built_for env h w' gp name label editor row.
Proof.
  intros Hid (pl & d & lb & ed & Hdescr & Hd & Hlb & Hed & Hlbi & Hedi).
  destruct (identity_lookup_label _ _ _ _ Hid Hlb) as (lb' & Hlb' & Hlbi').
  destruct (identity_lookup_editor _ _ _ _ Hid Hed) as (ed' & Hed' & Hedi').
  exists pl, d, lb', ed'. split_and!; [done..|congruence|congruence].
Qed.

Lemma bag_built_keeps row w w' :
  keeps panel_identity w w' → bag_built env h row w → bag_built env h row w'.
Proof.
  intros Hid Hb key label editor Hin.
  assert (_propbag w' = _propbag w) as Hbag.
  { unfold keeps, panel_identity in Hid. by injection Hid. }
  rewrite Hbag in Hin.
  destruct (Hb _ _ _ Hin) as (gcode & gname & plist & gp & name & r & Hg & Hn & Hk
                              & Hr & Hbuilt).
  exists gcode, gname, plist, gp, name, r. split_and!; try done; try lia.
  by eapply built_for_keeps.
Qed.

Lemma row_of_keeps w w' l :
  keeps panel_identity w w' → row_of w' l = row_of w l.
Proof.
  unfold keeps, panel_identity, row_of. intros [= _ _ Hlbs].
  assert ((lb_identity <$> labels w') !! l = (lb_identity <$> labels w) !! l) as Hl
    by (by rewrite Hlbs).
  rewrite !list_lookup_fmap in Hl.
  destruct (labels w' !! l) as [x|], (labels w !! l) as [y|]; try done.
  apply (inj Some) in Hl. simpl. f_equal.
  unfold lb_identity in Hl. by injection Hl.
Qed.

Lemma rows_distinct_keeps w w' :
  keeps panel_identity w w' → rows_distinct w → rows_distinct w'.
Proof.
  intros Hid Hd k1 l1 e1 k2 l2 e2.
  assert (_propbag w' = _propbag w) as ->.
  { unfold keeps, panel_identity in Hid. by injection Hid. }
  rewrite !(row_of_keeps w w') by done. apply Hd.
Qed.

(** Objects appended to the stores do not disturb the pairs of the bag. *)
Lemma built_for_more w w' lbs eds gp name label editor row :
  labels w' = labels w ++ lbs → editors w' = editors w ++ eds →
  built_for env h w gp name label editor row →
  built_for env h w' gp name label editor row.
Proof.
  intros Hl He (pl & d & lb & ed & Hdescr & Hd & Hlb & Hed & Hlbi & Hedi).
  exists pl, d, lb, ed. rewrite Hl, He.
  rewrite !lookup_app_l by (by eapply lookup_lt_Some). done.
Qed.

Lemma built_row w gp name label editor row :
  built_for env h w gp name label editor row → row_of w label = Some row.
Proof.
  intros (pl & d & lb & ed & _ & _ & Hlb & _ & Hlbi & _).
  unfold row_of. rewrite Hlb. simpl. f_equal. by eapply lb_identity_row.
Qed.

Lemma row_of_more w w' lbs l :
  labels w' = labels w ++ lbs → l < length (labels w) → row_of w' l = row_of w l.
Proof. intros Hl Hlt. unfold row_of. by rewrite Hl, lookup_app_l. Qed.

Lemma built_label_lt w gp name label editor row :
  built_for env h w gp name label editor row → label < length (labels w).
Proof.
  intros (pl & d & lb & ed & _ & _ & Hlb & _). by eapply lookup_lt_Some.
Qed.

Lemma create_property_creating gcode gname plist gp name row w row' w' :
  (gcode, gname, plist, gp) ∈ create_groups env → name ∈ plist →
  creating row w →
  create_property env gcode gp 0 row name w = (Ok row', w') →
  creating row' w'.
Proof.
  intros Hg Hname (Hheap & Hrow & Hbuilt & Hdist) Hrun.
  destruct (create_property_Ok_descr _ _ _ _ _ _ _ _ _ Hrun) as (pl & d & Hdescr & Hd).
  rewrite (create_property_run env gcode gp 0 row name pl d w Hdescr Hd) in Hrun.
  injection Hrun as <- <-.
  set (lb := property_label name row 0).
  set (ed := property_editor (editor_class_for env d) name row (0 + 1)
               (length (editors w))).
  set (w' := World _ _ _ _ _ _ _ _).
  assert (built_for env h w' gp name (length (labels w)) (length (editors w)) row)
    as Hnew.
  { exists pl, d, lb, ed. unfold w'. simpl_world.
    rewrite !lookup_app_length, <-Hheap. done. }
  assert (∀ k l e, (k, (l, e)) ∈ _propbag w →
            ∃ r, r < row ∧ row_of w l = Some r ∧ row_of w' l = row_of w l) as Hold.
  { intros k l e Hin.
    destruct (Hbuilt _ _ _ Hin) as (? & ? & ? & gp0 & n0 & r & _ & _ & _ & Hr & Hb).
    exists r. split_and!; [lia|by eapply built_row|].
    eapply (row_of_more w w' [lb]); [done|]. by eapply built_label_lt. }
  split_and!; [done|lia| |].
  - intros k l e Hin. unfold w' in Hin. simpl_world.
    apply elem_of_dict_set in Hin as [[= -> -> ->]|Hin].
    + exists gcode, gname, plist, gp, name, row. split_and!; try done; lia.
    + destruct (Hbuilt _ _ _ Hin) as (g0 & gn0 & p0 & gp0 & n0 & r & ? & ? & ? & Hr & Hb).
      exists g0, gn0, p0, gp0, n0, r. split_and!; try done; try lia.
      by eapply (built_for_more w _ [lb] [ed]).
  - intros k1 l1 e1 k2 l2 e2 Hin1 Hin2 Hrows. unfold w' in Hin1, Hin2. simpl_world.
    apply elem_of_dict_set in Hin1 as [[= -> -> ->]|Hin1];
      apply elem_of_dict_set in Hin2 as [[= -> -> ->]|Hin2]; [done| | |].
    + destruct (Hold _ _ _ Hin2) as (r & Hr & Hrow2 & Hsame).
      rewrite (built_row _ _ _ _ _ _ Hnew), Hsame, Hrow2 in Hrows.
      injection Hrows as ->. lia.
    + destruct (Hold _ _ _ Hin1) as (r & Hr & Hrow1 & Hsame).
      rewrite (built_row _ _ _ _ _ _ Hnew), Hsame, Hrow1 in Hrows.
      injection Hrows as <-. lia.
    + apply (Hdist k1 l1 e1 k2 l2 e2 Hin1 Hin2).
      destruct (Hold _ _ _ Hin1) as (_ & _ & _ & <-).
      destruct (Hold _ _ _ Hin2) as (_ & _ & _ & <-). exact Hrows.
Qed.

Lemma create_group_created g row w row' w' :
  g ∈ create_groups env → created row w →
  create_group env 0 row g w = (Ok row', w') → created row' w'.
Proof.
  destruct g as [[[gcode gname] plist] gp]. intros Hg (Hheap & Hbuilt & Hdist).
  rewrite create_group_unfold. intros Hrun.
  set (w1 := set_labels (fun ls => ls ++ [group_label gname row]) w) in *.
  assert (creating (row + 1) w1) as Hw1.
  { split_and!; [done|lia| |].
    - intros k l e Hin.
      destruct (Hbuilt _ _ _ Hin) as (g0 & gn0 & p0 & gp0 & n0 & r & ? & ? & ? & Hr & Hb).
      exists g0, gn0, p0, gp0, n0, r. split_and!; try done; try lia.
      eapply (built_for_more w w1 [group_label gname row] []); [done| |done].
      by rewrite app_nil_r.
    - intros k1 l1 e1 k2 l2 e2 Hin1 Hin2 Hrows.
      apply (Hdist k1 l1 e1 k2 l2 e2 Hin1 Hin2).
      destruct (Hbuilt _ _ _ Hin1) as (? & ? & ? & ? & ? & ? & _ & _ & _ & _ & Hb1).
      destruct (Hbuilt _ _ _ Hin2) as (? & ? & ? & ? & ? & ? & _ & _ & _ & _ & Hb2).
      rewrite <-(row_of_more w w1 [group_label gname row] l1)
        by (done || by eapply built_label_lt).
      rewrite <-(row_of_more w w1 [group_label gname row] l2)
        by (done || by eapply built_label_lt).
      exact Hrows. }
  assert (creating row' w') as (? & ? & ? & ?); [|by split_and!].
  eapply (for_fold_inv creating); [exact Hw1| |exact Hrun].
  intros name b1 wa b2 wb Hname Ha Hstep.
  by eapply create_property_creating.
Qed.

Lemma create_properties_created w w' :
  heap w = h → _propbag w = [] →
  _create_properties env w = (Ok tt, w') → ∃ row, created row w'.
Proof.
  intros Hheap Hbag. unfold _create_properties.
  intros (row & w1 & Hrun & [_ ->]%ret_Ok)%bind_Ok. exists row.
  eapply (for_fold_inv created); [| |exact Hrun].
  - split_and!; [done| |].
    + intros k l e Hin. rewrite Hbag in Hin. by apply elem_of_nil in Hin.
    + intros k1 l1 e1 k2 l2 e2 Hin. rewrite Hbag in Hin. by apply elem_of_nil in Hin.
  - intros g b1 wa b2 wb Hg Ha Hstep. by eapply create_group_created.
Qed.

Lemma init_heap w r w' : __init__ env w = (r, w') → heap w' = heap w.
Proof.
  intros Hrun. pose proof (init_outside env w) as Hk. rewrite Hrun in Hk.
  unfold keeps, outside in Hk. simpl in Hk. by injection Hk.
Qed.

Lemma init_built w0 :
  __init__ env (new_world h) = (Ok tt, w0) →
  heap w0 = h ∧ ∃ row, bag_built env h row w0 ∧ rows_distinct w0.
Proof.
  intros Hrun. split; [by apply init_heap in Hrun|]. revert Hrun.
  unfold __init__.
  intros (u1 & w1 & Hm1 & H)%bind_Ok. injection Hm1 as _ <-.
  apply bind_Ok in H as (u2 & w2 & Hm2 & H). injection Hm2 as _ <-.
  apply bind_Ok in H as (u3 & w3 & Hc & Hh). destruct u3.
  apply create_properties_created in Hc as (row & _ & Hbuilt & Hdist); [|done..].
  pose proof (hide_all_identity w3) as Hk. rewrite Hh in Hk. simpl in Hk.
  exists row. split; [by eapply bag_built_keeps|by eapply rows_distinct_keeps].
Qed.

Lemma panel_state_built ops w :
  panel_state env h ops w → ∃ row, bag_built env h row w ∧ rows_distinct w.
Proof.
  intros (w0 & Hinit & ->).
  destruct (init_built _ Hinit) as (_ & row & Hbuilt & Hdist). exists row.
  pose proof (run_identity env ops w0) as Hid.
  split; [by eapply bag_built_keeps|by eapply rows_distinct_keeps].
Qed.

End built.

(** ** The keys of the bag *)

Lemma dict_set_fresh {V} (k : string) (v : V) (d : odict V) :
  k ∉ dict_keys d → dict_set k v d = d ++ [(k, v)].
Proof.
  unfold dict_keys. induction d as [|[k0 v0] d IH]; simpl; [done|].
  rewrite not_elem_of_cons. intros [Hne Hk]. rewrite decide_False by done.
  by rewrite IH.
Qed.

Lemma append_inj_r (g a b : string) : g +:+ a = g +:+ b → a = b.
Proof.
  induction g as [|c g IH]; [done|]. rewrite !append_cons. intros [= H]. auto.
Qed.

Lemma NoDup_group_keys (g : string) (names : list string) :
  NoDup names → NoDup (map (String.append g) names).
Proof.
  intros Hnd. apply (NoDup_fmap_2_strong (String.append g)); [|done].
  intros a b _ _. apply append_inj_r.
Qed.

Lemma group_keys_disjoint (g1 g2 : string) (l1 l2 : list string) (k : string) :
  String.length g1 = 2 → String.length g2 = 2 → g1 ≠ g2 →
  k ∈ map (String.append g1) l1 → k ∈ map (String.append g2) l2 → False.
Proof.
  intros H1 H2 Hne (a & -> & _)%list_elem_of_fmap (b & Heq & _)%list_elem_of_fmap.
  by destruct (key_inj g1 g2 a b H1 H2 Heq).
Qed.

Section bag_keys.
Context (env : Env).

Lemma all_keys_NoDup : names_distinct env → NoDup (all_keys env).
Proof.
  intros (H0 & H1 & H2 & H3). unfold all_keys, create_groups. simpl.
  rewrite app_nil_r.
  repeat (apply NoDup_app; split_and!; [by apply NoDup_group_keys| |]).
  4: by apply NoDup_group_keys.
  all: intros k Hk Hin; repeat (apply elem_of_app in Hin as [Hin|Hin]);
    by eapply (group_keys_disjoint _ _ _ _ k); [..|exact Hk|exact Hin].
Qed.

Lemma create_properties_keys gcode gp col plist row w row' w' :
  for_fold (create_property env gcode gp col) plist row w = (Ok row', w') →
  NoDup (dict_keys (_propbag w) ++ map (String.append gcode) plist) →
  bag_editors w = seq 0 (length (editors w)) →
  dict_keys (_propbag w') = dict_keys (_propbag w) ++ map (String.append gcode) plist
  ∧ bag_editors w' = seq 0 (length (editors w')).
Proof.
  revert row w. induction plist as [|name plist IH]; intros row w; simpl.
  - intros [_ ->]%ret_Ok _ He. by rewrite app_nil_r.
  - intros (row1 & w1 & Hstep & Hrest)%bind_Ok Hnd He.
    apply create_property_Ok in Hstep as (lb & ed & Hl1 & _ & He1 & _ & Hbag1).
    assert (gcode +:+ name ∉ dict_keys (_propbag w)) as Hfresh.
    { apply NoDup_app in Hnd as (_ & Hdisj & _). intros Hin.
      apply (Hdisj _ Hin). apply list_elem_of_here. }
    rewrite dict_set_fresh in Hbag1 by done.
    assert (dict_keys (_propbag w1) = dict_keys (_propbag w) ++ [gcode +:+ name])
      as Hkeys1.
    { unfold dict_keys. by rewrite Hbag1, map_app. }
    destruct (IH _ _ Hrest) as [Hkeys Heds].
    + by rewrite Hkeys1, <-app_assoc.
    + unfold bag_editors. rewrite Hbag1, map_app, He1, length_app. simpl.
      fold (bag_editors w). rewrite He, Nat.add_1_r, seq_S. done.
    + split; [|done]. by rewrite Hkeys, Hkeys1, <-app_assoc.
Qed.

Lemma create_groups_keys col groups row w row' w' :
  for_fold (create_group env col) groups row w = (Ok row', w') →
  NoDup (dict_keys (_propbag w) ++ concat (map group_keys groups)) →
  bag_editors w = seq 0 (length (editors w)) →
  dict_keys (_propbag w') = dict_keys (_propbag w) ++ concat (map group_keys groups)
  ∧ bag_editors w' = seq 0 (length (editors w')).
Proof.
  revert row w. induction groups as [|[[[gcode gname] plist] gp] groups IH];
    intros row w.
  - simpl. intros [_ ->]%ret_Ok _ He. by rewrite app_nil_r.
  - cbn [for_fold map concat group_keys].
    intros (row1 & w1 & Hstep & Hrest)%bind_Ok Hnd He.
    rewrite create_group_unfold in Hstep.
    apply create_properties_keys in Hstep as [Hkeys1 Heds1]; simpl_world.
    + destruct (IH _ _ Hrest) as [Hkeys Heds]; [|done|].
      * by rewrite Hkeys1, <-app_assoc.
      * split; [|done]. by rewrite Hkeys, Hkeys1, <-app_assoc.
    + rewrite app_assoc in Hnd. by apply NoDup_app in Hnd as (Hnd & _).
    + exact He.
Qed.

Lemma init_keys h w0 :
  names_distinct env →
  __init__ env (new_world h) = (Ok tt, w0) →
  dict_keys (_propbag w0) = all_keys env
  ∧ bag_editors w0 = seq 0 (length (editors w0)).
Proof.
  intros Hnd. unfold __init__.
  intros (u1 & w1 & Hm1 & H)%bind_Ok. injection Hm1 as _ <-.
  apply bind_Ok in H as (u2 & w2 & Hm2 & H). injection Hm2 as _ <-.
  apply bind_Ok in H as (u3 & w3 & Hc & Hh).
  unfold _create_properties in Hc.
  apply bind_Ok in Hc as (row & w4 & Hc & [_ <-]%ret_Ok).
  apply create_groups_keys in Hc as [Hkeys Heds]; simpl_world;
    [|by apply all_keys_NoDup|done].
  pose proof (hide_all_identity w3) as Hk. rewrite Hh in Hk.
  unfold keeps, panel_identity in Hk. simpl in Hk. injection Hk as Hbag Hed _.
  unfold bag_editors in *. rewrite Hbag. split; [done|].
  by rewrite Heds, <-(length_fmap ed_identity (editors w0)), Hed, length_fmap.
Qed.

Lemma panel_state_keys h ops w :
  names_distinct env → panel_state env h ops w →
  dict_keys (_propbag w) = all_keys env
  ∧ bag_editors w = seq 0 (length (editors w)).
Proof.
  intros Hnd (w0 & Hinit & ->).
  destruct (init_keys _ _ Hnd Hinit) as [Hkeys Heds].
  pose proof (run_identity env ops w0) as Hid. unfold panel_identity in Hid.
  injection Hid as Hbag Hed _. unfold bag_editors in *. rewrite Hbag.
  split; [done|].
  by rewrite Heds, <-(length_fmap ed_identity (editors (run env ops w0))), Hed,
    length_fmap.
Qed.

End bag_keys.

(** ** When construction ends normally *)

Lemma for_fold_Ok_each {A B} (I : B → world → Prop) (P : A → Prop)
    (f : B → A → M B) l b w b' w' :
  I b w →
  (∀ x b1 w1 b2 w2, x ∈ l → I b1 w1 → f b1 x w1 = (Ok b2, w2) → I b2 w2 ∧ P x) →
  for_fold f l b w = (Ok b', w') → I b' w' ∧ ∀ x, x ∈ l → P x.
Proof.
  revert b w. induction l as [|x l IH]; intros b w HI Hf; simpl.
  - intros [-> ->]%ret_Ok. split; [done|]. intros ? Hin. by apply elem_of_nil in Hin.
  - intros (b1 & w1 & Hx & Hl)%bind_Ok.
    destruct (Hf x b w b1 w1) as [HI1 HP]; [apply list_elem_of_here|done..|].
    destruct (IH b1 w1) as [HI' HPl]; [done| |done|].
    + intros y b2 w2 b3 w3 Hy. by apply Hf, list_elem_of_further.
    + split; [done|]. intros y [->|Hy]%elem_of_cons; auto.
Qed.

Section construction_outcome.
Context (env : Env) (h : gmap loc pydict).

Lemma create_properties_wf w w' :
  _propbag w = [] → _create_properties env w = (Ok tt, w') → panel_wf env w'.
Proof.
  intros Hbag. unfold _create_properties.
  intros (row & w1 & Hc & [_ <-]%ret_Ok)%bind_Ok.
  eapply for_fold_Ok_inv; [| |exact Hc].
  - by apply empty_bag_wf.
  - intros g b1 wa b2 wb Hg Hwfa Hcg. by eapply create_group_wf.
Qed.

Lemma hide_all_succeeds w : panel_wf env w → ∃ w', hide_all w = (Ok tt, w').
Proof.
  intros Hwf.
  destruct (hide_loop (_propbag w) (set_current None w)) as (w' & Hrun & _).
  { intros k l e Hin. simpl_world.
    destruct (wf_entries _ _ Hwf _ _ _ Hin) as (lb & ed & Hl & _ & He & _).
    split; by eapply lookup_lt_Some. }
  exists w'. unfold hide_all. rewrite bind_run. unfold modify at 1.
  rewrite bind_run. unfold gets at 1. simpl_world. exact Hrun.
Qed.

Lemma create_property_heap gcode gp col row name w :
  heap (create_property env gcode gp col row name w).2 = heap w.
Proof.
  pose proof (create_property_outside env gcode gp col row name w) as Hk.
  unfold keeps, outside in Hk. by injection Hk.
Qed.

Lemma create_properties_succeeds w :
  tables_ready env h → heap w = h →
  ∃ w', _create_properties env w = (Ok tt, w').
Proof.
  intros Hready Hheap. unfold _create_properties.
  destruct (for_fold_succeeds (fun _ w => heap w = h)
              (fun g => g ∈ create_groups env) (create_group env 0))
    with (l := create_groups env) (b := 0) (w := w) as (row & w' & Hrun & _);
    [|by apply Forall_forall|done|].
  - intros [[[gcode gname] plist] gp] row w1 Hg Hw1.
    rewrite create_group_unfold.
    apply (for_fold_succeeds (fun _ w => heap w = h) (fun name => name ∈ plist));
      [|by apply Forall_forall|done].
    intros name row1 w2 Hname Hw2.
    destruct (Hready _ _ _ _ _ Hg Hname) as (pl & Hdescr & [d Hd]).
    rewrite <-Hw2 in Hdescr, Hd.
    rewrite (create_property_run env gcode gp 0 row1 name pl d w2 Hdescr Hd).
    by eexists _, _.
  - exists w'. by rewrite (bind_step _ _ _ _ _ Hrun).
Qed.

Lemma init_succeeds :
  tables_ready env h → ∃ w0, __init__ env (new_world h) = (Ok tt, w0).
Proof.
  intros Hready. unfold __init__.
  rewrite bind_run. unfold modify at 1. rewrite bind_run. unfold modify at 1.
  destruct (create_properties_succeeds
              (set__propbag (fun _ => []) (set__current None (new_world h))) Hready)
    as (w3 & Hc); [done|].
  rewrite (bind_step _ _ _ _ _ Hc).
  apply hide_all_succeeds. eapply create_properties_wf; [|exact Hc]. done.
Qed.

Lemma create_properties_Ok_ready w w' :
  heap w = h → _create_properties env w = (Ok tt, w') → tables_ready env h.
Proof.
  intros Hheap. unfold _create_properties.
  intros (row & w1 & Hc & _)%bind_Ok.
  apply (for_fold_Ok_each (fun _ w => heap w = h)
           (fun g : string * string * list string * loc =>
              ∀ name, name ∈ g.1.2 →
              ∃ pl, descriptor h g.2 name = Some (VDict pl) ∧ is_Some (h !! pl)))
    in Hc as [_ Hall]; [|done|].
  - intros gcode gname plist gp name Hg Hname.
    exact (Hall _ Hg name Hname).
  - intros [[[gcode gname] plist] gp] b1 wa b2 wb Hg Ha. rewrite create_group_unfold.
    intros Hstep. simpl.
    eapply (for_fold_Ok_each (fun _ w => heap w = h)); [| |exact Hstep]; [done|].
    intros name b3 wc b4 wd Hname Hc' Hrun. split.
    + pose proof (create_property_heap gcode gp 0 b3 name wc) as Hk.
      rewrite Hrun in Hk. simpl in Hk. congruence.
    + apply create_property_Ok_descr in Hrun as (pl & d & Hdescr & Hd).
      rewrite Hc' in Hdescr, Hd. eauto.
Qed.

Lemma init_Ok_ready w0 :
  __init__ env (new_world h) = (Ok tt, w0) → tables_ready env h.
Proof.
  unfold __init__.
  intros (u1 & w1 & Hm1 & H)%bind_Ok. injection Hm1 as _ <-.
  apply bind_Ok in H as (u2 & w2 & Hm2 & H). injection Hm2 as _ <-.
  apply bind_Ok in H as (u3 & w3 & Hc & _). destruct u3.
  by eapply create_properties_Ok_ready; [|exact Hc].
Qed.

(** With tables that are dicts of dicts, the only way construction can
    fail is a listed property without a descriptor. *)
Lemma create_properties_Raise w e w' :
  tables_typed env h → heap w = h →
  _create_properties env w = (Raise e, w') →
  ∃ gcode gname plist gp name,
    (gcode, gname, plist, gp) ∈ create_groups env ∧ name ∈ plist
    ∧ descriptor h gp name = None ∧ e = KeyError name.
Proof.
  intros Htyped Hheap. unfold _create_properties.
  intros [Hrun|(row & w1 & _ & [=])]%bind_Raise.
  assert (∀ g b1 w1 b2 w2, g ∈ create_groups env → heap w1 = h →
            create_group env 0 b1 g w1 = (Ok b2, w2) → heap w2 = h) as Hgroup.
  { intros g b1 w1 b2 w2 _ Hw1 Hstep.
    pose proof (create_group_outside env 0 b1 g w1) as Hk. rewrite Hstep in Hk.
    unfold keeps, outside in Hk. simpl in Hk. injection Hk as Hk _ _. congruence. }
  apply (for_fold_Raise (fun _ w => heap w = h)) in Hrun
    as ([[[gcode gname] plist] gp] & row & w1 & Hg & Hw1 & Hstep); [|done|done].
  rewrite create_group_unfold in Hstep.
  apply (for_fold_Raise (fun _ w => heap w = h)) in Hstep
    as (name & row1 & w2 & Hname & Hw2 & Hprop); [|done|].
  2: { intros name b1 wa b2 wb _ Ha Hok.
       pose proof (create_property_heap gcode gp 0 b1 name wa) as Hk.
       rewrite Hok in Hk. simpl in Hk. congruence. }
  exists gcode, gname, plist, gp, name. split_and!; [done..| |].
  all: destruct (Htyped _ _ _ _ Hg) as [Hgp Hdicts];
    destruct (descriptor h gp name) as [v|] eqn:Hdescr.
  - destruct (Hdicts name v Hname Hdescr) as (pl & -> & [d Hd]).
    rewrite <-Hw2 in Hdescr, Hd.
    rewrite (create_property_run env gcode gp 0 row1 name pl d w2 Hdescr Hd) in Hprop.
    done.
  - done.
  - destruct (Hdicts name v Hname Hdescr) as (pl & -> & [d Hd]).
    rewrite <-Hw2 in Hdescr, Hd.
    rewrite (create_property_run env gcode gp 0 row1 name pl d w2 Hdescr Hd) in Hprop.
    done.
  - rewrite <-Hw2 in Hdescr, Hgp.
    rewrite (create_property_missing env gcode gp 0 row1 name w2 Hgp Hdescr) in Hprop.
    by injection Hprop.
Qed.

End construction_outcome.

(** ** Frames of the operations *)

(** Closes the goals about operations that do not touch the part of the
    world that is kept. *)
Ltac field_leaf :=
  first
    [ apply keeps_new_label; done
    | apply keeps_new_editor; done
    | apply keeps_update_label; done
    | apply keeps_update_editor_obj; done
    | apply keeps_label_tooltip_set_text; done
    | apply keeps_py_setitem; done
    | apply keeps_py_new_dict; done
    | apply keeps_modify; done ].

Lemma but_visibility_set_labels w i x y :
  labels w !! i = Some x → lb_content y = lb_content x →
  but_visibility (set_labels <[i := y]> w) = but_visibility w.
Proof.
  intros Hi Hy. unfold but_visibility. simpl_world.
  by rewrite (fmap_insert_same _ _ _ x).
Qed.

Lemma but_visibility_set_editors w i x y :
  editors w !! i = Some x → ed_content y = ed_content x →
  but_visibility (set_editors <[i := y]> w) = but_visibility w.
Proof.
  intros Hi Hy. unfold but_visibility. simpl_world.
  by rewrite (fmap_insert_same _ _ _ x).
Qed.

Ltac visibility_leaf :=
  first
    [ apply keeps_update_label; intros ? ? ?;
      by eapply but_visibility_set_labels
    | apply keeps_update_editor_obj; intros ? ? ?;
      by eapply but_visibility_set_editors
    | apply keeps_modify; done ].

Lemma label_grid_remove_but_visibility label :
  preserves (keeps but_visibility) (label_grid_remove label).
Proof. unfold label_grid_remove. visibility_leaf. Qed.

Lemma widget_grid_remove_but_visibility editor :
  preserves (keeps but_visibility) (widget_grid_remove editor).
Proof. unfold widget_grid_remove. visibility_leaf. Qed.

Lemma hide_all_but_visibility : preserves (keeps but_visibility) hide_all.
Proof.
  unfold hide_all.
  preserves_with ltac:(first
    [ apply label_grid_remove_but_visibility
    | apply widget_grid_remove_but_visibility
    | visibility_leaf ]).
Qed.

Lemma but_visibility_lookup_editor w w' i ed :
  but_visibility w' = but_visibility w → editors w !! i = Some ed →
  ∃ ed', editors w' !! i = Some ed' ∧ ed_content ed' = ed_content ed.
Proof.
  unfold but_visibility. intros [= _ _ Heds _ _ _ _] He.
  assert ((ed_content <$> editors w') !! i = Some (ed_content ed)) as He'.
  { by rewrite Heds, list_lookup_fmap, He. }
  rewrite list_lookup_fmap in He'.
  destruct (editors w' !! i) as [ed'|]; [|done].
  apply (inj Some) in He'. by exists ed'.
Qed.

Lemma but_visibility_lookup_label w w' i lb :
  but_visibility w' = but_visibility w → labels w !! i = Some lb →
  ∃ lb', labels w' !! i = Some lb' ∧ lb_content lb' = lb_content lb.
Proof.
  unfold but_visibility. intros [= _ Hlbs _ _ _ _ _] Hl.
  assert ((lb_content <$> labels w') !! i = Some (lb_content lb)) as Hl'.
  { by rewrite Hlbs, list_lookup_fmap, Hl. }
  rewrite list_lookup_fmap in Hl'.
  destruct (labels w' !! i) as [lb'|]; [|done].
  apply (inj Some) in Hl'. by exists lb'.
Qed.

(** Hiding what is hidden changes nothing. *)
Lemma label_grid_remove_hidden label w :
  label_hidden w label → label_grid_remove label w = (Ok tt, w).
Proof.
  intros (lb & Hlb & Hg). rewrite (label_grid_remove_run _ _ lb Hlb). f_equal.
  destruct w, lb. unfold set_labels. simpl in *. subst.
  by rewrite list_insert_id.
Qed.

Lemma widget_grid_remove_hidden editor w :
  editor_hidden w editor → widget_grid_remove editor w = (Ok tt, w).
Proof.
  intros (ed & Hed & Hg). rewrite (widget_grid_remove_run _ _ ed Hed). f_equal.
  destruct w, ed. unfold set_editors. simpl in *. subst.
  by rewrite list_insert_id.
Qed.

Lemma hide_loop_hidden (items : odict (nat * nat)) w :
  (∀ k l e, (k, (l, e)) ∈ items → label_hidden w l ∧ editor_hidden w e) →
  for_each (fun '(_v, (label, widget)) =>
              label_grid_remove label;; widget_grid_remove widget) items w
    = (Ok tt, w).
Proof.
  induction items as [|[k [l e]] items IH]; intros Hall; simpl; [done|].
  destruct (Hall k l e) as [Hl He]; [apply list_elem_of_here|].
  rewrite bind_run, bind_run, (label_grid_remove_hidden l w Hl).
  rewrite (widget_grid_remove_hidden e w He).
  apply IH. intros k' l' e' Hin. apply (Hall k'). by apply list_elem_of_further.
Qed.

Lemma hide_all_hidden w :
  current w = Some None →
  (∀ k l e, (k, (l, e)) ∈ _propbag w → label_hidden w l ∧ editor_hidden w e) →
  hide_all w = (Ok tt, w).
Proof.
  intros Hc Hall. unfold hide_all. rewrite bind_run. unfold modify at 1.
  assert (set_current None w = w) as ->.
  { destruct w. unfold set_current. simpl in *. by subst. }
  rewrite bind_run. unfold gets at 1. by apply hide_loop_hidden.
Qed.

(** ** The setter and the current widget *)

Section calls.
Context (env : Env).

Lemma update_editor_attributes label editor wdescr pname propdescr :
  preserves (keeps attributes) (update_editor label editor wdescr pname propdescr).
Proof. unfold update_editor. preserves_with field_leaf. Qed.

Lemma hide_all_calls : preserves (keeps (fun w => (_current w, setter_calls w,
                                                   repositions w))) hide_all.
Proof. unfold hide_all. preserves_with field_leaf. Qed.

Lemma edit_loop_attributes wdescr class_descr :
  preserves (keeps attributes)
    (for_each (edit_group wdescr class_descr) (edit_groups env)).
Proof.
  preserves_with ltac:(first [apply update_editor_attributes | field_leaf]).
Qed.

Lemma edit_calls wdescr :
  preserves (keeps setter_calls) (edit env wdescr).
Proof.
  unfold edit.
  preserves_with ltac:(first
    [ apply (preserves_for_each (keeps setter_calls))
    | field_leaf ]).
  all: try apply _.
  all: intros;
    match goal with
    | |- preserves _ (edit_group _ _ ?g) => destruct g as [[[? ?] ?] ?]
    end.
  all: unfold edit_group, edit_property, update_editor;
    preserves_with field_leaf.
Qed.

(** What a change event does to the record of setter calls. *)
Lemma event_generate_calls editor sequence w :
  let w' := (event_generate editor sequence w).2 in
  _current w' = _current w ∧ repositions w' = repositions w
  ∧ ∃ calls, setter_calls w' = setter_calls w ++ calls ∧ length calls ≤ 1
      ∧ ∀ c, c ∈ calls → _current w = Some c.1.1.
Proof.
  unfold event_generate, get_editor. rewrite bind_run.
  destruct (editors w !! editor) as [x|]; simpl.
  2: { split_and!; [done..|]. exists []. rewrite app_nil_r.
       split_and!; [done|simpl; lia|]. intros c Hc. by apply elem_of_nil in Hc. }
  destruct (dict_get sequence (ed_bindings x)) as [[pname e]|]; simpl.
  2: { split_and!; [done..|]. exists []. rewrite app_nil_r.
       split_and!; [done|simpl; lia|]. intros c Hc. by apply elem_of_nil in Hc. }
  unfold _on_property_changed. rewrite bind_run. unfold gets at 1. cbv beta iota.
  destruct (_current w) as [wdescr|] eqn:Hcur; simpl; rewrite ?Hcur.
  2: { split_and!; [done..|]. exists []. rewrite app_nil_r.
       split_and!; [done|simpl; lia|]. intros c Hc. by apply elem_of_nil in Hc. }
  rewrite bind_run. unfold get_editor.
  destruct (editors w !! e) as [y|]; simpl; rewrite ?Hcur.
  2: { split_and!; [done..|]. exists []. rewrite app_nil_r.
       split_and!; [done|simpl; lia|]. intros c Hc. by apply elem_of_nil in Hc. }
  split_and!; [done..|]. exists [(wdescr, pname, ed_value y)].
  split_and!; [done|simpl; lia|].
  intros c ->%list_elem_of_singleton. done.
Qed.

Lemma editor_edit_attributes editor value :
  preserves (keeps attributes) (editor_edit editor value).
Proof. unfold editor_edit. field_leaf. Qed.

Lemma user_input_calls editor value w :
  let w' := (user_input editor value w).2 in
  _current w' = _current w ∧ repositions w' = repositions w
  ∧ ∃ calls, setter_calls w' = setter_calls w ++ calls ∧ length calls ≤ 1
      ∧ ∀ c, c ∈ calls → _current w = Some c.1.1.
Proof.
  unfold user_input. rewrite bind_run.
  pose proof (editor_edit_attributes editor value w) as Hk.
  destruct (editor_edit editor value w) as [[[]|e] w1]; simpl in *.
  - unfold keeps, attributes in Hk. injection Hk as Hc _ _ Hs Hr.
    destruct (event_generate_calls editor "<<PropertyChanged>>" w1)
      as (Hc' & Hr' & calls & Hs' & Hlen & Hall).
    rewrite Hc', Hr', Hs', Hc, Hs, Hr. split_and!; [done..|].
    exists calls. split_and!; [done..|]. intros c Hin. rewrite <-Hc. by apply Hall.
  - unfold keeps, attributes in Hk. injection Hk as Hc _ _ Hs Hr.
    split_and!; [done..|]. exists []. rewrite app_nil_r.
    split_and!; [done|simpl; lia|]. intros c Hin. by apply elem_of_nil in Hin.
Qed.

(** One operation: the setter is called at most once, by a change event
    only, on the current widget; and only [edit] changes the current
    widget. *)
Lemma run_op_calls o w :
  let w' := (run_op env o w).2 in
  (match o with Edit wdescr => _current w' = Some wdescr | _ => _current w' = _current w end)
  ∧ ∃ calls, setter_calls w' = setter_calls w ++ calls
      ∧ length calls ≤ (if is_event o then 1 else 0)
      ∧ ∀ c, c ∈ calls → _current w = Some c.1.1.
Proof.
  assert (∀ w' : world, setter_calls w' = setter_calls w →
    ∃ calls, setter_calls w' = setter_calls w ++ calls ∧ length calls ≤ 0
      ∧ ∀ c, c ∈ calls → _current w = Some c.1.1) as Hnone.
  { intros w' Hs. exists []. rewrite app_nil_r. split_and!; [done..|].
    intros c Hin. by apply elem_of_nil in Hin. }
  destruct o as [wdescr| |label editor wdescr pname propdescr|editor|editor value];
    simpl.
  - split; [apply edit_sets__current|]. apply Hnone. apply edit_calls.
  - pose proof (hide_all_calls w) as Hk. unfold keeps in Hk.
    injection Hk as Hc Hs _. split; [done|]. by apply Hnone.
  - pose proof (update_editor_attributes label editor wdescr pname propdescr w) as Hk.
    unfold keeps, attributes in Hk. injection Hk as Hc _ _ Hs _.
    split; [done|]. by apply Hnone.
  - destruct (event_generate_calls editor "<<PropertyChanged>>" w) as (Hc & _ & Hex).
    done.
  - destruct (user_input_calls editor value w) as (Hc & _ & Hex). done.
Qed.

Lemma run_cons o ops w : run env (o :: ops) w = run env ops (run_op env o w).2.
Proof. done. Qed.

End calls.

Section current.
Context (env : Env).

Lemma init_current w : _current (__init__ env w).2 = None.
Proof.
  unfold __init__. rewrite bind_run. unfold modify at 1.
  set (w1 := set__current None w).
  change None with (_current w1). generalize w1. clear w w1.
  change (preserves (keeps _current)
    (modify (set__propbag (fun _ => []));; _create_properties env;; hide_all)).
  unfold _create_properties, create_group, create_property, _create_editor, hide_all.
  preserves_with field_leaf.
Qed.

Lemma run_current ops w :
  (∀ wdescr, Edit wdescr ∉ ops) → _current (run env ops w) = _current w.
Proof.
  revert w. induction ops as [|o ops IH]; intros w Hno; [done|].
  rewrite run_cons, IH.
  - destruct (run_op_calls env o w) as [Hc _]. destruct o; try done.
    exfalso. apply (Hno wdescr). apply list_elem_of_here.
  - intros wdescr Hin. apply (Hno wdescr). by apply list_elem_of_further.
Qed.

Lemma edit_repositions wdescr w :
  repositions (edit env wdescr w).2 =
    match (edit env wdescr w).1 with
    | Ok _ => S (repositions w)
    | Raise _ => repositions w
    end.
Proof.
  destruct (edit env wdescr w) as [r w'] eqn:Hrun. simpl.
  unfold edit in Hrun. rewrite bind_run in Hrun. unfold modify at 1 in Hrun.
  destruct (CLASS_MAP env !! classname wdescr) as [entry|].
  2: { by injection Hrun as <- <-. }
  rewrite bind_run in Hrun.
  pose proof (edit_loop_attributes env wdescr (builder entry)
                (set__current (Some wdescr) w)) as Hk.
  destruct (for_each (edit_group wdescr (builder entry)) (edit_groups env)
              (set__current (Some wdescr) w)) as [[[]|e] w1];
    injection Hrun as <- <-;
    unfold keeps, attributes in Hk; injection Hk as _ _ _ _ Hr;
    simpl_world; by rewrite Hr.
Qed.

End current.

(** ** What [update_editor] touches *)

#[global] Instance only_at_preorder l e : PreOrder (only_at l e).
Proof.
  split.
  - intros w. by split.
  - intros w1 w2 w3 [Hl1 He1] [Hl2 He2]. split; intros j Hj.
    + by rewrite Hl2, Hl1.
    + by rewrite He2, He1.
Qed.

Lemma only_at_update_label f l e :
  preserves (only_at l e) (update_label f l).
Proof.
  intros w. unfold update_label, get_label. rewrite bind_run.
  destruct (labels w !! l) as [x|]; simpl; [|reflexivity].
  split; [|done]. intros j Hj. simpl_world. by rewrite list_lookup_insert_ne.
Qed.

Lemma only_at_update_editor_obj f l e :
  preserves (only_at l e) (update_editor_obj f e).
Proof.
  intros w. unfold update_editor_obj, get_editor. rewrite bind_run.
  destruct (editors w !! e) as [x|]; simpl; [|reflexivity].
  split; [done|]. intros j Hj. simpl_world. by rewrite list_lookup_insert_ne.
Qed.

Lemma only_at_label_tooltip_set_text l e t :
  preserves (only_at l e) (label_tooltip_set_text l t).
Proof.
  intros w. unfold label_tooltip_set_text, get_label. rewrite bind_run.
  destruct (labels w !! l) as [x|]; simpl; [|reflexivity].
  destruct (lb_tooltip x); simpl; [|reflexivity].
  split; [|done]. intros j Hj. simpl_world. by rewrite list_lookup_insert_ne.
Qed.

Lemma keeps_gui_only_at {A} (m : M A) l e :
  preserves (keeps gui) m → preserves (only_at l e) m.
Proof.
  intros Hm w. specialize (Hm w). unfold keeps, gui in Hm.
  injection Hm as Hl He. split; intros j _; congruence.
Qed.

Ltac only_at_leaf :=
  first
    [ apply only_at_update_label
    | apply only_at_update_editor_obj
    | apply only_at_label_tooltip_set_text
    | apply keeps_gui_only_at; field_leaf ].

Lemma update_editor_only_at label editor wdescr pname propdescr :
  preserves (only_at label editor) (update_editor label editor wdescr pname propdescr).
Proof.
  unfold update_editor, editor_parameters, editor_edit.
  preserves_with only_at_leaf.
Qed.

Lemma show_or_hide_only_at wdescr name propdescr label widget shown :
  preserves (only_at label widget)
    (show_or_hide wdescr name propdescr label widget shown).
Proof.
  unfold show_or_hide, label_grid, widget_grid, label_grid_remove, widget_grid_remove.
  destruct shown;
    preserves_with ltac:(first [apply update_editor_only_at | only_at_leaf]).
Qed.

Lemma hide_branch_but_visibility wdescr name propdescr label widget :
  preserves (keeps but_visibility)
    (show_or_hide wdescr name propdescr label widget false).
Proof.
  unfold show_or_hide.
  preserves_with ltac:(first
    [ apply label_grid_remove_but_visibility
    | apply widget_grid_remove_but_visibility ]).
Qed.

(** ** The arguments of [editor.parameters] *)

Lemma dict_get_with_default_mode k default_mode (d : pydict) :
  k ≠ "mode" → dict_get k (with_default_mode default_mode d) = dict_get k d.
Proof.
  intros Hk. unfold with_default_mode. case_decide; [done|].
  destruct (dict_contains "mode" d); [done|]. by apply dict_get_set_ne.
Qed.

Lemma with_default_mode_has_mode default_mode (d : pydict) m :
  dict_get "mode" d = Some m → with_default_mode default_mode d = d.
Proof.
  intros Hm. unfold with_default_mode, dict_contains. rewrite Hm.
  by case_decide.
Qed.

Lemma dict_get_with_placeholder k pname c sid (d : pydict) :
  k ≠ "placeholder" → dict_get k (with_placeholder pname c sid d) = dict_get k d.
Proof.
  intros Hk. unfold with_placeholder. case_decide; [|done].
  destruct c; [|done]. by apply dict_get_set_ne.
Qed.

Lemma with_placeholder_other pname c sid (d : pydict) :
  pname ≠ "id" → with_placeholder pname c sid d = d.
Proof. intros Hp. unfold with_placeholder. by rewrite decide_False. Qed.

Lemma dict_update_keeps_keys {V} k (d1 d2 : odict V) :
  is_Some (dict_get k d1) → is_Some (dict_get k (dict_update d1 d2)).
Proof.
  unfold dict_update. revert d1.
  induction d2 as [|[k0 v0] d2 IH]; intros d1 Hk; simpl; [done|].
  apply IH. rewrite dict_get_set. by case_decide.
Qed.

Lemma merged_descr_keeps_keys h classname pl generic pdescr k :
  h !! pl = Some generic →
  merged_descr h classname (VDict pl) = Some pdescr →
  is_Some (dict_get k generic) → is_Some (dict_get k pdescr).
Proof.
  intros Hpl Hm Hk. unfold merged_descr in Hm. rewrite Hpl in Hm. simpl in Hm.
  destruct (dict_get classname generic) as [[| | | |ol]|]; try done.
  - destruct (h !! ol) as [override|]; [|done]. simpl in Hm. injection Hm as <-.
    by apply dict_update_keeps_keys.
  - by injection Hm as <-.
Qed.

(** ** The properties a class does not have *)

#[global] Instance keeps_pair_preorder env key label editor :
  PreOrder (keeps_pair env key label editor).
Proof.
  split.
  - intros w Hwf Hget. done.
  - intros w1 w2 w3 H12 H23 Hwf Hget.
    destruct (H12 Hwf Hget) as (Hwf2 & Hget2 & Hc2).
    destruct (H23 Hwf2 Hget2) as (Hwf3 & Hget3 & Hc3).
    split_and!; [done..|congruence].
Qed.

Lemma but_visibility_pair_content w w' label editor :
  but_visibility w' = but_visibility w →
  pair_content label editor w' = pair_content label editor w.
Proof.
  unfold but_visibility, pair_content. intros [= _ Hl He _ _ _ _].
  by rewrite <-!list_lookup_fmap, Hl, He.
Qed.

Lemma only_at_pair_content l e w w' label editor :
  only_at l e w w' → label ≠ l → editor ≠ e →
  pair_content label editor w' = pair_content label editor w.
Proof.
  intros [Hl He] Hnl Hne. unfold pair_content. by rewrite Hl, He.
Qed.

Lemma edit_groups_gp env g a1 p1 gp1 a2 p2 gp2 :
  (g, a1, p1, gp1) ∈ edit_groups env → (g, a2, p2, gp2) ∈ edit_groups env →
  a1 = a2 ∧ p1 = p2 ∧ gp1 = gp2.
Proof.
  intros H1 H2. unfold edit_groups in *.
  repeat (apply elem_of_cons in H1 as [H1|H1]);
    repeat (apply elem_of_cons in H2 as [H2|H2]);
    try (by apply elem_of_nil in H1); try (by apply elem_of_nil in H2);
    by simplify_eq.
Qed.

Section hidden_properties.
Context (env : Env) (wdescr : WidgetDescr) (class_descr : BuilderClass).
Context (g0 n0 : string) (l0 e0 : nat).
Hypothesis Hreg0 : registered env g0 n0.
Hypothesis Hhidden : shown_by_spec class_descr g0 n0 = false.

Lemma edit_property_keeps_pair gcode attrname proplist gp name :
  (gcode, attrname, proplist, gp) ∈ edit_groups env → name ∈ proplist →
  preserves (keeps_pair env (g0 +:+ n0) l0 e0)
    (edit_property wdescr class_descr gcode attrname gp name).
Proof.
  intros Hg Hname w Hwf Hget.
  pose proof (edit_property_identity wdescr class_descr gcode attrname gp name w)
    as Hid.
  split_and!.
  - eapply panel_wf_keeps; [exact Hwf|exact Hid].
  - unfold keeps, panel_identity in Hid. injection Hid as -> _ _. exact Hget.
  - clear Hid. rewrite (edit_property_unfold env wdescr class_descr _ _ _ _ _ _ Hg).
    destruct (py_getitem (VDict gp) name w) as [[propdescr|e] w1]; [|done].
    destruct (dict_get (gcode +:+ name) (_propbag w)) as [[label widget]|] eqn:Hget';
      [|done].
    destruct (decide (g0 +:+ n0 = gcode +:+ name)) as [Heq|Hne].
    + assert (registered env gcode name) as Hreg by (by do 3 eexists).
      apply key_inj in Heq as [-> ->]; [|by eapply registered_length..].
      rewrite Hhidden. apply but_visibility_pair_content.
      apply hide_branch_but_visibility.
    + eapply only_at_pair_content; [apply show_or_hide_only_at|..].
      * intros ->. apply Hne.
        eapply (wf_distinct _ _ Hwf); eauto using dict_get_Some_elem.
      * intros ->. apply Hne.
        eapply (wf_distinct _ _ Hwf); eauto using dict_get_Some_elem.
Qed.

Lemma edit_loop_keeps_pair :
  preserves (keeps_pair env (g0 +:+ n0) l0 e0)
    (for_each (edit_group wdescr class_descr) (edit_groups env)).
Proof.
  apply preserves_for_each; [apply _|].
  intros [[[gcode attrname] proplist] gp] Hg. unfold edit_group.
  apply preserves_for_each; [apply _|].
  intros name Hname. by eapply edit_property_keeps_pair.
Qed.

End hidden_properties.

Lemma edit_keeps_pair env wdescr entry g0 n0 l0 e0 :
  CLASS_MAP env !! classname wdescr = Some entry →
  registered env g0 n0 → shown_by_spec (builder entry) g0 n0 = false →
  preserves (keeps_pair env (g0 +:+ n0) l0 e0) (edit env wdescr).
Proof.
  intros Hclass Hreg Hhidden. unfold edit. rewrite Hclass.
  assert (∀ f, (∀ w, panel_identity (f w) = panel_identity w) →
               (∀ w, gui (f w) = gui w) →
               preserves (keeps_pair env (g0 +:+ n0) l0 e0) (modify f)) as Hmod.
  { intros f Hid Hgui w Hwf Hget. simpl. split_and!.
    - eapply panel_wf_keeps; [exact Hwf|]. apply Hid.
    - specialize (Hid w). unfold panel_identity in Hid. injection Hid as -> _ _. done.
    - specialize (Hgui w). unfold gui in Hgui. injection Hgui as Hl He.
      unfold pair_content. by rewrite Hl, He. }
  apply preserves_bind; [apply _|by apply Hmod|]. intros _.
  apply preserves_bind; [apply _|by apply edit_loop_keeps_pair|]. intros _.
  by apply Hmod.
Qed.

(** ** What [edit] puts into the editors it shows *)

Lemma for_each_post_Ok {A} (I : world → Prop) (P : A → world → Prop)
    (T : relation world) `{!PreOrder T} (D : A → Prop) (f : A → M unit) :
  (∀ x w1 w2, D x → P x w1 → T w1 w2 → P x w2) →
  (∀ x w1 w2, D x → I w1 → f x w1 = (Ok tt, w2) → I w2 ∧ P x w2 ∧ T w1 w2) →
  ∀ l w w', Forall D l → I w → for_each f l w = (Ok tt, w') →
    I w' ∧ (∀ x, x ∈ l → P x w') ∧ T w w'.
Proof.
  intros Hstable Hstep l. induction l as [|y l IH]; intros w w' HD Hw; simpl.
  - intros [_ ->]%ret_Ok. split_and!; [done| |reflexivity].
    intros x Hx. by apply elem_of_nil in Hx.
  - apply Forall_cons in HD as [Hy HD].
    intros ([] & w1 & Hfy & Hl)%bind_Ok.
    destruct (Hstep y w w1 Hy Hw Hfy) as (Hw1 & HP1 & HT1).
    destruct (IH w1 w' HD Hw1 Hl) as (Hw' & HP & HT).
    split_and!; [done| |by etrans].
    intros x [->|Hx]%elem_of_cons; [|by apply HP].
    by eapply Hstable.
Qed.

Lemma heap_frame_trans S h1 h2 h3 :
  heap_frame S h1 h2 → heap_frame S h2 h3 → heap_frame S h1 h3.
Proof.
  intros [Hs1 Hd1] [Hs2 Hd2]. split.
  - intros s Hs. by rewrite Hs2, Hs1.
  - intros l Hl. by apply Hd2, Hd1.
Qed.

Lemma merged_descr_frame S h0 h1 classname pl :
  heap_frame S h0 h1 → S pl → descr_wf h0 S classname pl →
  merged_descr h1 classname (VDict pl) = merged_descr h0 classname (VDict pl).
Proof.
  intros [Hsame _] Hpl (generic & Hgen & _ & Hov & _).
  unfold merged_descr. rewrite (Hsame pl Hpl), Hgen. simpl.
  destruct (dict_get classname generic) as [v|] eqn:Hv; [|done].
  destruct (Hov v eq_refl) as (ol & override & -> & Hol & _).
  by rewrite (Hsame ol Hol).
Qed.

(** [update_editor], then [grid] on the label and on the editor. *)
Lemma show_branch_Ok wdescr name propdescr label widget w w' :
  show_or_hide wdescr name propdescr label widget true w = (Ok tt, w') →
  ∃ pdescr lb ed help,
    merged_descr (heap w) (classname wdescr) propdescr = Some pdescr
    ∧ labels w' !! label = Some lb ∧ editors w' !! widget = Some ed
    ∧ ed_value ed =
        display_value (heap w') (widget_property wdescr name)
          (dict_get "default" pdescr)
    ∧ help_resolved (heap w') (classname wdescr)
        (default VNone (dict_get "help" pdescr)) help
    ∧ lb_tooltip lb = Some help.
Proof.
  unfold show_or_hide.
  intros (u0 & w1 & Hupd & H)%bind_Ok.
  apply bind_Ok in H as (u1 & w2 & (x & Hx & ->)%update_label_Ok & H).
  apply update_editor_obj_Ok in H as (y & Hy & ->).
  apply update_editor_Ok in Hupd
    as (generic & pdescr & dm & p & d0 & lb & ed & help & _ & Hm & _ & _ & Hlb & _
        & Hed & Hhelp & ->).
  simpl_world.
  rewrite list_lookup_insert_eq in Hx by (by eapply lookup_lt_Some).
  rewrite list_lookup_insert_eq in Hy by (by eapply lookup_lt_Some).
  injection Hx as <-. injection Hy as <-.
  eexists pdescr, _, _, help. split_and!; [done| | |..].
  - apply list_lookup_insert_eq. rewrite length_insert. by eapply lookup_lt_Some.
  - apply list_lookup_insert_eq. rewrite length_insert. by eapply lookup_lt_Some.
  - done.
  - done.
  - done.
Qed.

Section refresh.
Context (env : Env) (S : loc → Prop) (wdescr : WidgetDescr)
  (class_descr : BuilderClass) (h0 : gmap loc pydict).
Hypothesis Htables : tables_wf env h0 S (classname wdescr).

Local Abbreviation editing := (editing env S wdescr h0).
Local Abbreviation refreshed := (refreshed env h0 wdescr).
Local Abbreviation stays_refreshed := (stays_refreshed env h0 wdescr).

#[local] Instance stays_refreshed_preorder : PreOrder stays_refreshed.
Proof.
  split.
  - by intros w g n _ H.
  - intros w1 w2 w3 H12 H23 g n Hreg H. apply H23, H12; done.
Qed.

Lemma edit_property_refreshes gcode attrname proplist gp name w1 w2 :
  (gcode, attrname, proplist, gp) ∈ edit_groups env → name ∈ proplist →
  editing w1 →
  edit_property wdescr class_descr gcode attrname gp name w1 = (Ok tt, w2) →
  editing w2
  ∧ (shown_by_spec class_descr gcode name = true → refreshed gcode name w2)
  ∧ stays_refreshed w1 w2.
Proof.
  intros Hg Hname [Hready Hframe] Hrun.
  assert (registered env gcode name) as Hreg by (by do 3 eexists).
  destruct Hready as (Hwf & Hcomplete & Htab).
  (* the descriptor is the one of the tables the loop started with *)
  destruct (proj2 Htables _ _ _ _ _ Hg Hname)
    as (Hgp & group & pl & Hgroup & Hpl & HSpl & Hdescr0).
  destruct (proj2 Htab _ _ _ _ _ Hg Hname)
    as (_ & group1 & pl1 & Hgroup1 & Hpl1 & _ & Hdescr1).
  assert (group1 = group) as ->.
  { destruct Hframe as [Hsame _]. rewrite (Hsame gp Hgp) in Hgroup1. congruence. }
  assert (pl1 = pl) as -> by congruence.
  destruct (Hcomplete gcode name Hreg) as [[label widget] Hget].
  pose proof (dict_get_Some_elem _ _ _ Hget) as Hin.
  (* the iteration is [show_or_hide] on the pair *)
  rewrite (edit_property_unfold env wdescr class_descr _ _ _ _ _ _ Hg) in Hrun.
  simpl in Hrun. rewrite (bind_step _ _ _ group w1) in Hrun by (by apply deref_run).
  rewrite Hpl, Hget in Hrun. simpl in Hrun.
  destruct (show_or_hide_succeeds env S wdescr name pl label widget
              (shown_by_spec class_descr gcode name) w1 (gcode +:+ name))
    as (w2' & Hrun' & Hframe'); [by split_and!|done|done|].
  assert (w2' = w2) as -> by congruence. clear Hrun'.
  pose proof (show_or_hide_only_at wdescr name (VDict pl) label widget
                (shown_by_spec class_descr gcode name) w1) as Honly.
  rewrite Hrun in Honly. simpl in Honly.
  pose proof (edit_property_identity wdescr class_descr gcode attrname gp name w1)
    as Hid.
  rewrite (edit_property_unfold env wdescr class_descr _ _ _ _ _ _ Hg) in Hid.
  simpl in Hid. rewrite (bind_step _ _ _ group w1) in Hid by (by apply deref_run).
  rewrite Hpl, Hget in Hid. simpl in Hid. rewrite Hrun in Hid. simpl in Hid.
  assert (_propbag w2 = _propbag w1) as Hbag.
  { unfold keeps, panel_identity in Hid. by injection Hid. }
  assert (shown_by_spec class_descr gcode name = true → refreshed gcode name w2)
    as Hnew.
  { intros Hshown. rewrite Hshown in Hrun.
    apply show_branch_Ok in Hrun
      as (pdescr & lb & ed & help & Hm & Hlb & Hed & Hval & Hhelp & Htip).
    rewrite (merged_descr_frame S h0 (heap w1)) in Hm by done.
    exists attrname, proplist, gp, group, pl, pdescr, label, widget, lb, ed,
      (heap w2), help.
    rewrite Hbag. split_and!; done. }
  split_and!.
  - split.
    + eapply edit_ready_keeps; [by split_and!|exact Hid|exact Hframe'].
    + by eapply heap_frame_trans.
  - exact Hnew.
  - intros g n Hreg' Href.
    destruct (decide (g +:+ n = gcode +:+ name)) as [Heq|Hne].
    + apply key_inj in Heq as [-> ->]; [|by eapply registered_length..].
      destruct (shown_by_spec class_descr gcode name) eqn:Hshown; [by apply Hnew|].
      pose proof (hide_branch_but_visibility wdescr name (VDict pl) label widget w1)
        as Hvis.
      rewrite Hrun in Hvis. simpl in Hvis.
      destruct Href as (a & p & gp' & gr & pl' & pd & l & e & lb & ed & hx & help
                        & ? & ? & ? & ? & Hget0 & Hlb & Hed & ? & ? & ?).
      destruct (but_visibility_lookup_label _ _ _ _ Hvis Hlb) as (lb' & Hlb' & Hlc).
      destruct (but_visibility_lookup_editor _ _ _ _ Hvis Hed) as (ed' & Hed' & Hec).
      exists a, p, gp', gr, pl', pd, l, e, lb', ed', hx, help.
      unfold lb_content in Hlc. unfold ed_content in Hec.
      injection Hlc as _ _ _ Htip. injection Hec as _ _ _ _ _ Hval.
      rewrite Hbag. split_and!; try done; congruence.
    + destruct Href as (a & p & gp' & gr & pl' & pd & l & e & lb & ed & hx & help
                        & ? & ? & ? & ? & Hget0 & Hlb & Hed & ? & ? & ?).
      assert (l ≠ label ∧ e ≠ widget) as [Hl He].
      { split; intros ->; apply Hne;
          eapply (wf_distinct _ _ Hwf); eauto using dict_get_Some_elem. }
      destruct Honly as [Hlbs Heds].
      exists a, p, gp', gr, pl', pd, l, e, lb, ed, hx, help.
      rewrite Hbag, Hlbs, Heds by done. split_and!; done.
Qed.

Lemma edit_group_refreshes g w1 w2 :
  g ∈ edit_groups env → editing w1 →
  edit_group wdescr class_descr g w1 = (Ok tt, w2) →
  editing w2
  ∧ (∀ name, name ∈ g.1.2 → shown_by_spec class_descr g.1.1.1 name = true →
       refreshed g.1.1.1 name w2)
  ∧ stays_refreshed w1 w2.
Proof.
  destruct g as [[[gcode attrname] proplist] gp]. intros Hg Hw1 Hrun.
  unfold edit_group in Hrun. simpl.
  eapply (for_each_post_Ok editing
            (fun name w => shown_by_spec class_descr gcode name = true →
                           refreshed gcode name w)
            stays_refreshed (fun name => name ∈ proplist));
    [| |by apply Forall_forall|exact Hw1|exact Hrun].
  - intros name wa wb Hname HP HT Hshown. apply HT; [by do 3 eexists|by apply HP].
  - intros name wa wb Hname Ha Hstep. by eapply edit_property_refreshes.
Qed.

Lemma edit_loop_refreshes w1 w2 :
  editing w1 →
  for_each (edit_group wdescr class_descr) (edit_groups env) w1 = (Ok tt, w2) →
  ∀ gcode name, registered env gcode name →
    shown_by_spec class_descr gcode name = true → refreshed gcode name w2.
Proof.
  intros Hw1 Hrun.
  destruct (for_each_post_Ok editing
              (fun (g : string * option string * list string * loc) w =>
                 ∀ name, name ∈ g.1.2 →
                   shown_by_spec class_descr g.1.1.1 name = true →
                   refreshed g.1.1.1 name w)
              stays_refreshed (fun g => g ∈ edit_groups env)
              (edit_group wdescr class_descr))
    with (l := edit_groups env) (w := w1) (w' := w2) as (_ & Hall & _);
    [| |by apply Forall_forall|done|done|].
  - intros [[[gcode attrname] proplist] gp] wa wb Hg HP HT name Hname Hshown.
    simpl in *. apply HT; [by do 3 eexists|by apply HP].
  - intros g wa wb Hg Ha Hstep. by apply edit_group_refreshes.
  - intros gcode name (attrname & proplist & gp & Hg & Hname) Hshown.
    exact (Hall _ Hg name Hname Hshown).
Qed.

End refresh.

Lemma heap_frame_same S h : heap_frame S h h.
Proof. by split. Qed.

Lemma edit_refreshes env h ops w wdescr entry S w' :
  panel_state env h ops w →
  CLASS_MAP env !! classname wdescr = Some entry →
  tables_wf env (heap w) S (classname wdescr) →
  edit env wdescr w = (Ok tt, w') →
  ∀ gcode name, registered env gcode name →
    shown_by_spec (builder entry) gcode name = true →
    refreshed env (heap w) wdescr gcode name w'.
Proof.
  intros Hstate Hclass Htab Hrun gcode name Hreg Hshown.
  unfold edit in Hrun. rewrite Hclass in Hrun.
  apply bind_Ok in Hrun as (u1 & w1 & Hm & Hrun). injection Hm as _ <-.
  apply bind_Ok in Hrun as ([] & w2 & Hloop & Hm). injection Hm as <-.
  assert (editing env S wdescr (heap w) (set__current (Some wdescr) w)) as Hw1.
  { split; [split_and!|apply heap_frame_same].
    - eapply panel_wf_keeps; [by eapply panel_state_wf|done].
    - exact (panel_state_complete env h ops w Hstate).
    - done. }
  destruct (edit_loop_refreshes env S wdescr (builder entry) (heap w) Htab _ _
              Hw1 Hloop gcode name Hreg Hshown)
    as (a & p & gp & gr & pl & pd & l & e & lb & ed & hx & help & H).
  exists a, p, gp, gr, pl, pd, l, e, lb, ed, hx, help. exact H.
Qed.

(** The display value of a string does not depend on the heap when the
    default is a string or is missing. *)
Lemma display_value_str h (s : string) (dflt : option pyval) :
  (s ≠ "" → display_value h (VStr s) dflt = VStr s)
  ∧ (s = "" → ∀ t, dflt = Some (VStr t) → display_value h (VStr s) dflt = VStr t)
  ∧ (s = "" → dflt = None → display_value h (VStr s) dflt = VStr "").
Proof.
  unfold display_value. split_and!.
  - intros Hs. simpl. by rewrite bool_decide_eq_false_2.
  - intros -> t ->. simpl. by destruct (bool_decide (t = "")) eqn:Ht;
      [apply bool_decide_eq_true in Ht as ->|].
  - by intros -> ->.
Qed.

(** ** The headers of the groups *)

#[global] Instance keeps_headers_preorder env : PreOrder (keeps_headers env).
Proof.
  split.
  - intros w. split; [done|]. intros _ i lb Hlb _. by rewrite Hlb.
  - intros w1 w2 w3 [Hid1 Hh1] [Hid2 Hh2]. split; [congruence|].
    intros Hwf i lb Hlb Ht.
    specialize (Hh1 Hwf i lb Hlb Ht).
    apply fmap_Some in Hh1 as (lb2 & Hlb2 & Hg).
    destruct (identity_lookup_label w1 w2 i lb Hid1 Hlb) as (lb2' & Hlb2' & Hi).
    assert (lb2' = lb2) as -> by congruence.
    assert (lb_tooltip lb2 = None) as Ht2.
    { unfold lb_identity in Hi. rewrite Ht in Hi.
      destruct (lb_tooltip lb2); [by injection Hi|done]. }
    rewrite (Hh2 (panel_wf_keeps env w1 w2 Hwf Hid1) i lb2 Hlb2 Ht2). by rewrite Hg.
Qed.

(** An operation that keeps the identity of the objects and changes the
    visibility of one pair of the bag at most keeps the headers. *)
Lemma changes_only_keeps_headers env w w' key l e b :
  panel_identity w' = panel_identity w →
  changes_only l e b w w' →
  (panel_wf env w → (key, (l, e)) ∈ _propbag w) →
  keeps_headers env w w'.
Proof.
  intros Hid (_ & Hlbs & _) Hin. split; [done|].
  intros Hwf i lb Hlb Ht.
  destruct (Hlbs i) as [->|[-> _]]; [by rewrite Hlb|].
  destruct (wf_entries _ _ Hwf _ _ _ (Hin Hwf)) as (lb0 & _ & Hlb0 & [t Ht0] & _).
  congruence.
Qed.

Lemma keeps_gui_headers env {A} (m : M A) :
  preserves (keeps panel_identity) m → preserves (keeps grid_flags) m →
  preserves (keeps_headers env) m.
Proof.
  intros Hid Hg w. split; [apply Hid|]. intros _ i lb Hlb _.
  specialize (Hg w). unfold keeps, grid_flags in Hg. injection Hg as _ Hl _.
  by rewrite <-list_lookup_fmap, Hl, list_lookup_fmap, Hlb.
Qed.

Section headers.
Context (env : Env).

Lemma hide_item_keeps_headers key l e w :
  (key, (l, e)) ∈ _propbag w →
  keeps_headers env w ((label_grid_remove l;; widget_grid_remove e) w).2.
Proof.
  intros Hin. eapply (changes_only_keeps_headers env _ _ key l e false); [| |done].
  - assert (preserves (keeps panel_identity)
              (label_grid_remove l;; widget_grid_remove e)) as Hk.
    { unfold label_grid_remove, widget_grid_remove. preserves_with identity_leaf. }
    apply Hk.
  - assert (preserves (changes_only l e false)
              (label_grid_remove l;; widget_grid_remove e)) as Hk.
    { unfold label_grid_remove, widget_grid_remove.
      preserves_with ltac:(first
        [ apply changes_only_label_set | apply changes_only_editor_set ]). }
    apply Hk.
Qed.

Lemma hide_loop_keeps_headers (items : odict (nat * nat)) w :
  (∀ x, x ∈ items → x ∈ _propbag w) →
  keeps_headers env w
    (for_each (fun '(_v, (label, widget)) =>
                 label_grid_remove label;; widget_grid_remove widget) items w).2.
Proof.
  revert w. induction items as [|[k [l e]] items IH]; intros w Hsub; simpl.
  - reflexivity.
  - rewrite bind_run.
    pose proof (hide_item_keeps_headers k l e w (Hsub _ (list_elem_of_here _ _)))
      as Hstep.
    destruct ((label_grid_remove l;; widget_grid_remove e) w) as [[[]|ex] w1] eqn:Hrun;
      simpl in *; [|done].
    etrans; [exact Hstep|]. apply IH. intros x Hx.
    destruct Hstep as [Hid _]. unfold panel_identity in Hid. injection Hid as -> _ _.
    by apply Hsub, list_elem_of_further.
Qed.

Lemma hide_all_keeps_headers : preserves (keeps_headers env) hide_all.
Proof.
  intros w. unfold hide_all. rewrite bind_run. unfold modify at 1.
  rewrite bind_run. unfold gets at 1. cbv beta iota.
  etrans; [|by apply hide_loop_keeps_headers].
  split; [done|]. intros _ i lb Hlb _. simpl_world. by rewrite Hlb.
Qed.

Lemma edit_property_keeps_headers wdescr class_descr gcode attrname proplist gp name :
  (gcode, attrname, proplist, gp) ∈ edit_groups env →
  preserves (keeps_headers env)
    (edit_property wdescr class_descr gcode attrname gp name).
Proof.
  intros Hg w.
  pose proof (edit_property_identity wdescr class_descr gcode attrname gp name w)
    as Hid.
  rewrite (edit_property_unfold env wdescr class_descr _ _ _ _ _ _ Hg) in *.
  destruct (py_getitem (VDict gp) name w) as [[propdescr|e] w1]; [|reflexivity].
  destruct (dict_get (gcode +:+ name) (_propbag w)) as [[label widget]|] eqn:Hget;
    [|reflexivity].
  eapply (changes_only_keeps_headers env _ _ (gcode +:+ name) label widget);
    [exact Hid|apply show_or_hide_changes_only|].
  intros _. by apply dict_get_Some_elem.
Qed.

Lemma edit_keeps_headers wdescr : preserves (keeps_headers env) (edit env wdescr).
Proof.
  unfold edit.
  assert (∀ f, (∀ w, panel_identity (f w) = panel_identity w) →
               (∀ w, labels (f w) = labels w) →
               preserves (keeps_headers env) (modify f)) as Hmod.
  { intros f Hid Hl w. split; [apply Hid|]. intros _ i lb Hlb _. simpl.
    by rewrite Hl, Hlb. }
  apply preserves_bind; [apply _|by apply Hmod|]. intros _.
  destruct (CLASS_MAP env !! classname wdescr) as [entry|];
    [|apply preserves_raise; apply _].
  apply preserves_bind; [apply _| |intros _; by apply Hmod].
  apply preserves_for_each; [apply _|].
  intros [[[gcode attrname] proplist] gp] Hg. unfold edit_group.
  apply preserves_for_each; [apply _|].
  intros name _. by eapply edit_property_keeps_headers.
Qed.

Lemma event_generate_grid_flags editor sequence :
  preserves (keeps grid_flags) (event_generate editor sequence).
Proof. unfold event_generate, _on_property_changed. preserves_with field_leaf. Qed.

Lemma user_input_grid_flags editor value :
  preserves (keeps grid_flags) (user_input editor value).
Proof.
  unfold user_input, editor_edit.
  preserves_with ltac:(first [apply event_generate_grid_flags | grid_flags_leaf]).
Qed.

Lemma run_op_keeps_headers o : preserves (keeps_headers env) (run_op env o).
Proof.
  destruct o; simpl.
  - apply edit_keeps_headers.
  - apply hide_all_keeps_headers.
  - apply keeps_gui_headers;
      [apply update_editor_identity|apply update_editor_grid_flags].
  - apply keeps_gui_headers;
      [apply event_generate_identity|apply event_generate_grid_flags].
  - apply keeps_gui_headers;
      [apply user_input_identity|apply user_input_grid_flags].
Qed.

Lemma run_keeps_headers ops w : keeps_headers env w (run env ops w).
Proof.
  revert w. induction ops as [|o ops IH]; intros w; [reflexivity|].
  rewrite run_cons. etrans; [apply run_op_keeps_headers|apply IH].
Qed.

(** Construction only appends to the store of labels. *)
Lemma create_properties_prefix gcode gp col plist row w row' w' :
  for_fold (create_property env gcode gp col) plist row w = (Ok row', w') →
  labels w `prefix_of` labels w'.
Proof.
  intros Hrun.
  eapply (for_fold_inv (fun _ w1 => labels w `prefix_of` labels w1)); [| |exact Hrun].
  - done.
  - intros name b1 w1 b2 w2 _ Hpre (lb & ed & Hl & _)%create_property_Ok.
    rewrite Hl. etrans; [exact Hpre|]. by apply prefix_app_r.
Qed.

Lemma create_properties_headers gcode gp plist row w row' w' :
  for_fold (create_property env gcode gp 0) plist row w = (Ok row', w') →
  (∀ i lb, labels w !! i = Some lb → lb_tooltip lb = None → lb_gridded lb = true) →
  (∀ i lb, labels w' !! i = Some lb → lb_tooltip lb = None → lb_gridded lb = true).
Proof.
  intros Hrun Hw.
  eapply (for_fold_inv (fun _ w1 => ∀ i lb, labels w1 !! i = Some lb →
                           lb_tooltip lb = None → lb_gridded lb = true));
    [exact Hw| |exact Hrun].
  intros name b1 w1 b2 w2 _ Hw1 Hstep i lb.
  destruct (create_property_Ok_descr _ _ _ _ _ _ _ _ _ Hstep) as (pl & d & Hdescr & Hd).
  rewrite (create_property_run env gcode gp 0 b1 name pl d w1 Hdescr Hd) in Hstep.
  injection Hstep as _ <-. simpl_world.
  intros [Hi|[_ Hi]]%lookup_app_Some; [by eauto|].
  apply list_lookup_singleton_Some in Hi as [_ <-]. done.
Qed.

Lemma create_groups_headers groups row w row' w' :
  for_fold (create_group env 0) groups row w = (Ok row', w') →
  (∀ i lb, labels w !! i = Some lb → lb_tooltip lb = None → lb_gridded lb = true) →
  labels w `prefix_of` labels w' ∧ headers_made groups w'.
Proof.
  revert row w. induction groups as [|[[[gcode gname] plist] gp] groups IH];
    intros row w.
  - simpl. intros [_ ->]%ret_Ok Hw. split; [done|]. split; [done|].
    intros ???? Hin. by apply elem_of_nil in Hin.
  - cbn [for_fold]. intros (row1 & w1 & Hstep & Hrest)%bind_Ok Hw.
    rewrite create_group_unfold in Hstep.
    pose proof (create_properties_prefix _ _ _ _ _ _ _ _ Hstep) as Hpre1.
    simpl_world.
    assert (∀ i lb, labels w1 !! i = Some lb → lb_tooltip lb = None →
                    lb_gridded lb = true) as Hw1.
    { eapply create_properties_headers; [exact Hstep|]. simpl_world.
      intros i lb [Hi|[_ Hi]]%lookup_app_Some; [by eauto|].
      apply list_lookup_singleton_Some in Hi as [_ <-]. done. }
    destruct (IH _ _ Hrest Hw1) as (Hpre & Hgrid & Hall).
    split; [|split; [done|]].
    + etrans; [|exact Hpre]. etrans; [|exact Hpre1]. by apply prefix_app_r.
    + intros gc gn pls gp' [[= -> -> -> ->]|Hin]%elem_of_cons; [|by eauto].
      exists (length (labels w)), row.
      eapply prefix_lookup_Some; [|exact Hpre].
      eapply prefix_lookup_Some; [|exact Hpre1].
      apply lookup_app_length.
Qed.

Lemma init_headers h w0 :
  __init__ env (new_world h) = (Ok tt, w0) →
  panel_wf env w0
  ∧ (∀ i lb, labels w0 !! i = Some lb → lb_tooltip lb = None → lb_gridded lb = true)
  ∧ ∀ gcode gname plist gp, (gcode, gname, plist, gp) ∈ create_groups env →
      ∃ i lb, labels w0 !! i = Some lb ∧ lb_text lb = gname ∧ lb_tooltip lb = None.
Proof.
  intros Hinit. split; [by eapply init_wf|]. revert Hinit. unfold __init__.
  intros (u1 & w1 & Hm1 & H)%bind_Ok. injection Hm1 as _ <-.
  apply bind_Ok in H as (u2 & w2 & Hm2 & H). injection Hm2 as _ <-.
  apply bind_Ok in H as (u3 & w3 & Hc & Hh). destruct u3.
  assert (panel_wf env w3) as Hwf3.
  { eapply create_properties_wf; [|exact Hc]. done. }
  unfold _create_properties in Hc.
  apply bind_Ok in Hc as (row & w4 & Hc & [_ <-]%ret_Ok).
  apply create_groups_headers in Hc as (_ & Hgrid & Hall).
  2: { simpl. intros i lb Hi. by rewrite lookup_nil in Hi. }
  pose proof (hide_all_keeps_headers w3) as [Hid Hkeep]. rewrite Hh in Hid, Hkeep.
  simpl in Hid, Hkeep. specialize (Hkeep Hwf3).
  assert (∀ i lb, labels w3 !! i = Some lb → lb_tooltip lb = None →
            ∃ lb', labels w0 !! i = Some lb' ∧ lb_text lb' = lb_text lb
                   ∧ lb_tooltip lb' = None ∧ lb_gridded lb' = true) as Hmove.
  { intros i lb Hlb Ht.
    destruct (identity_lookup_label w3 w0 i lb Hid Hlb) as (lb' & Hlb' & Hi).
    exists lb'. unfold lb_identity in Hi. rewrite Ht in Hi.
    specialize (Hkeep i lb Hlb Ht). rewrite Hlb' in Hkeep. simpl in Hkeep.
    injection Hkeep as Hg. rewrite (Hgrid i lb Hlb Ht) in Hg.
    destruct (lb_tooltip lb') eqn:Ht'; [by injection Hi|].
    injection Hi as Htext _ _. done. }
  split.
  - intros i lb' Hlb' Ht'.
    assert (is_Some (labels w3 !! i)) as [lb Hlb].
    { apply lookup_lt_is_Some.
      unfold panel_identity in Hid. injection Hid as _ _ Hl.
      rewrite <-(length_fmap lb_identity), <-Hl, length_fmap.
      by eapply lookup_lt_Some. }
    destruct (identity_lookup_label w3 w0 i lb Hid Hlb) as (lb2 & Hlb2 & Hi).
    assert (lb2 = lb') as -> by congruence.
    assert (lb_tooltip lb = None) as Ht.
    { unfold lb_identity in Hi. rewrite Ht' in Hi.
      destruct (lb_tooltip lb); [by injection Hi|done]. }
    destruct (Hmove i lb Hlb Ht) as (lb3 & Hlb3 & _ & _ & Hg). congruence.
  - intros gcode gname plist gp Hg.
    destruct (Hall _ _ _ _ Hg) as (i & r & Hlb).
    destruct (Hmove i _ Hlb eq_refl) as (lb' & Hlb' & Htext & Ht & _).
    by exists i, lb'.
Qed.

End headers.

Lemma edit_loop_editing env S wdescr class_descr h0 w1 w2 :
  tables_wf env h0 S (classname wdescr) →
  editing env S wdescr h0 w1 →
  for_each (edit_group wdescr class_descr) (edit_groups env) w1 = (Ok tt, w2) →
  editing env S wdescr h0 w2.
Proof.
  intros Htab Hw1 Hrun.
  eapply (for_each_Ok_inv (editing env S wdescr h0)); [exact Hw1| |exact Hrun].
  intros g wa [] wb Hg Ha Hstep.
  by destruct (edit_group_refreshes env S wdescr class_descr h0 Htab g wa wb Hg Ha Hstep).
Qed.

(** ** The attribute [current] *)

Section current_attribute.
Context (env : Env).

Lemma edit_current wdescr : preserves (keeps current) (edit env wdescr).
Proof.
  unfold edit.
  preserves_with ltac:(first
    [ apply (preserves_for_each (keeps current))
    | field_leaf ]).
  all: try apply _.
  all: intros;
    match goal with
    | |- preserves _ (edit_group _ _ ?g) => destruct g as [[[? ?] ?] ?]
    end.
  all: unfold edit_group, edit_property, update_editor;
    preserves_with field_leaf.
Qed.

Lemma event_generate_current editor sequence :
  preserves (keeps current) (event_generate editor sequence).
Proof. unfold event_generate, _on_property_changed. preserves_with field_leaf. Qed.

Lemma user_input_current editor value :
  preserves (keeps current) (user_input editor value).
Proof.
  unfold user_input, editor_edit.
  preserves_with ltac:(first [apply event_generate_current | field_leaf]).
Qed.

Lemma run_op_current o w :
  current w = Some None → current (run_op env o w).2 = Some None.
Proof.
  intros Hc.
  destruct o as [wdescr| |label editor wdescr pname propdescr|editor|editor value];
    simpl.
  - by rewrite (edit_current wdescr w).
  - apply hide_all_assigns_current.
  - pose proof (update_editor_attributes label editor wdescr pname propdescr w) as Hk.
    unfold keeps, attributes in Hk. injection Hk as _ Hk _ _ _. congruence.
  - by rewrite (event_generate_current editor _ w).
  - by rewrite (user_input_current editor value w).
Qed.

Lemma init_current_attribute w w0 :
  __init__ env w = (Ok tt, w0) → current w0 = Some None.
Proof.
  unfold __init__.
  intros (u1 & w1 & _ & H)%bind_Ok.
  apply bind_Ok in H as (u2 & w2 & _ & H).
  apply bind_Ok in H as (u3 & w3 & _ & Hh).
  pose proof (hide_all_assigns_current w3) as Hc. by rewrite Hh in Hc.
Qed.

End current_attribute.

(** ** [update_editor] raises before it changes anything *)

(** A step that only reads: the rest runs from the same state. *)
Lemma bind_readonly {A B} (m : M A) (f : A → M B) w :
  (m w).2 = w →
  (m ≫= f) w = match (m w).1 with Ok a => f a w | Raise e => (Raise e, w) end.
Proof.
  intros Hw. rewrite bind_run. destruct (m w) as [[a|e] w1]; simpl in *; by subst.
Qed.

Lemma readonly_run {A} (m : M A) w r : (m w).2 = w → (m w).1 = r → m w = (r, w).
Proof. destruct (m w) as [r' w']. simpl. by intros -> ->. Qed.

Lemma py_copy_state v w : (py_copy v w).2 = w.
Proof.
  assert (preserves (keeps (fun w => w)) (py_copy v)) as H.
  { unfold py_copy. preserves_with fail. }
  apply H.
Qed.

Lemma py_get_state v k dflt w : (py_get v k dflt w).2 = w.
Proof.
  assert (preserves (keeps (fun w => w)) (py_get v k dflt)) as H.
  { unfold py_get. preserves_with fail. }
  apply H.
Qed.

Lemma py_kwargs_state v w : (py_kwargs v w).2 = w.
Proof.
  assert (preserves (keeps (fun w => w)) (py_kwargs v)) as H.
  { unfold py_kwargs. preserves_with fail. }
  apply H.
Qed.

Lemma py_in_state k v w : (py_in k v w).2 = w.
Proof.
  assert (preserves (keeps (fun w => w)) (py_in k v)) as H.
  { unfold py_in. preserves_with fail. }
  apply H.
Qed.

Lemma merge_class_descr_state classname pdescr w :
  (merge_class_descr classname pdescr w).2 = w.
Proof.
  assert (preserves (keeps (fun w => w)) (merge_class_descr classname pdescr)) as H.
  { unfold merge_class_descr, py_kwargs. preserves_with fail. }
  apply H.
Qed.

Lemma isinstance_state editor w : (isinstance_NamedIDPropertyEditor editor w).2 = w.
Proof.
  assert (preserves (keeps (fun w => w)) (isinstance_NamedIDPropertyEditor editor))
    as H.
  { unfold isinstance_NamedIDPropertyEditor. preserves_with fail. }
  apply H.
Qed.

(** An assignment into something that is not a dict of the heap raises
    and changes nothing. *)
Lemma py_setitem_not_dict v k x w :
  (∀ p, v = VDict p → heap w !! p = None) →
  ∃ e, py_setitem v k x w = (Raise e, w).
Proof.
  intros Hv. destruct v as [| | | |p]; try (by eexists).
  simpl. rewrite bind_run. unfold deref. rewrite (Hv p eq_refl). by eexists.
Qed.

Lemma py_kwargs_not_dict v w :
  (∀ p, v = VDict p → heap w !! p = None) →
  ∃ e, py_kwargs v w = (Raise e, w).
Proof.
  intros Hv. destruct v as [| | | |p]; try (by eexists).
  simpl. unfold deref. rewrite (Hv p eq_refl). by eexists.
Qed.

Section all_or_nothing.
Context (label editor : nat) (wdescr : WidgetDescr) (pname : string).
Context (lb : Label) (ed : Editor).

(** What [update_editor] does once it has [params], a reference. *)
Local Abbreviation after_params pdescr default_mode params :=
  ((((if decide (default_mode = VNone) then mret tt
      else
        has_mode ← py_in "mode" params;
        if (has_mode : bool) then mret tt
        else py_setitem params "mode" default_mode) : M unit);;
    ((if decide (pname = "id") then
        is_named ← isinstance_NamedIDPropertyEditor editor;
        if (is_named : bool) then py_setitem params "placeholder" (start_id wdescr)
        else mret tt
      else mret tt) : M unit);;
    kw ← py_kwargs params;
    editor_parameters editor kw;;
    let help := default VNone (dict_get "help" pdescr) in
    help ←
      match help with
      | VDict l => items ← deref l; mret (help_for_class (classname wdescr) items)
      | _ => mret help
      end;
    label_tooltip_set_text label help;;
    let default_ := default (VStr "") (dict_get "default" pdescr) in
    let value := widget_property wdescr pname in
    h ← gets heap;
    let value := if negb (truthy h value) && truthy h default_ then default_ else value in
    editor_edit editor value) : M unit).

(** With [params] a dict of the heap, the rest ends normally. *)
Lemma after_params_succeeds pdescr default_mode p w :
  is_Some (heap w !! p) →
  labels w !! label = Some lb → is_Some (lb_tooltip lb) →
  editors w !! editor = Some ed →
  (∀ hl, dict_get "help" pdescr = Some (VDict hl) → is_Some (heap w !! hl)) →
  ∃ w', after_params pdescr default_mode (VDict p) w = (Ok tt, w').
Proof.
  intros Hp Hlb Ht Hed Hhelp.
  destruct (mode_block_succeeds default_mode p w Hp) as (w2 & Hmode & Hg2 & Hgui2).
  rewrite (bind_step _ _ _ _ _ Hmode).
  assert (editors w2 = editors w ∧ labels w2 = labels w) as [Heds2 Hlbs2].
  { unfold gui in *. split; congruence. }
  destruct (placeholder_block_succeeds pname editor (start_id wdescr) p w2)
    as (w3 & Hph3 & Hg3 & Hgui3).
  { by eapply heap_grows_is_Some. }
  { rewrite Heds2, Hed. by eexists. }
  rewrite (bind_step _ _ _ _ _ Hph3).
  assert (editors w3 = editors w ∧ labels w3 = labels w) as [Heds3 Hlbs3].
  { unfold gui in *. split; congruence. }
  assert (heap_grows w w3) as Hg by (by etrans).
  destruct (heap_grows_is_Some w2 w3 p Hg3 (heap_grows_is_Some w w2 p Hg2 Hp))
    as [kw Hkw].
  rewrite (bind_step _ _ _ kw w3) by (simpl; by apply deref_run).
  rewrite (bind_step _ _ _ tt (set_editors <[editor := ed_set_parameters kw ed]> w3)).
  2: { unfold editor_parameters, update_editor_obj, get_editor.
       by rewrite bind_run, Heds3, Hed. }
  set (w4 := set_editors <[editor := ed_set_parameters kw ed]> w3).
  assert (∃ help,
    (match default VNone (dict_get "help" pdescr) with
     | VDict l =>
         items ← deref l; mret (help_for_class (classname wdescr) items)
     | _ => mret (default VNone (dict_get "help" pdescr))
     end) w4 = (Ok help, w4)) as [help Hhelp4].
  { destruct (dict_get "help" pdescr) as [v|] eqn:Hv; simpl; [|by eexists].
    destruct v as [| | | |hl]; try (by eexists).
    destruct (heap_grows_is_Some w w3 hl Hg (Hhelp hl eq_refl)) as [items Hitems].
    eexists. by rewrite (bind_step _ _ _ items w4) by (by apply deref_run). }
  rewrite (bind_step _ _ _ _ _ Hhelp4).
  rewrite (bind_step _ _ _ tt (set_labels <[label := lb_set_tooltip help lb]> w4)).
  2: { unfold label_tooltip_set_text, get_label. rewrite bind_run. unfold w4.
       simpl_world. rewrite Hlbs3, Hlb. destruct Ht as [t ->]. done. }
  rewrite bind_run. unfold gets at 1.
  unfold editor_edit, update_editor_obj, get_editor. rewrite bind_run. unfold w4.
  simpl_world. rewrite Heds3.
  rewrite list_lookup_insert_eq by (by eapply lookup_lt_Some).
  by eexists.
Qed.

(** With [params] anything else, the rest raises from where it is:
    nothing can be assigned into [params], and [params] cannot be
    passed as keyword arguments. *)
Lemma after_params_raises pdescr default_mode params w :
  (∀ p, params = VDict p → heap w !! p = None) →
  ∃ e, after_params pdescr default_mode params w = (Raise e, w).
Proof.
  intros Hbad.
  destruct (py_kwargs_not_dict params w Hbad) as [e3 Hkw].
  assert (∃ e, ((kw ← py_kwargs params;
                 editor_parameters editor kw;;
                 let help := default VNone (dict_get "help" pdescr) in
                 help ←
                   match help with
                   | VDict l =>
                       items ← deref l;
                       mret (help_for_class (classname wdescr) items)
                   | _ => mret help
                   end;
                 label_tooltip_set_text label help;;
                 let default_ := default (VStr "") (dict_get "default" pdescr) in
                 let value := widget_property wdescr pname in
                 h ← gets heap;
                 let value :=
                   if negb (truthy h value) && truthy h default_ then default_
                   else value in
                 editor_edit editor value) : M unit) w = (Raise e, w)) as [e4 Hrest].
  { exists e3. by rewrite bind_run, Hkw. }
  assert (∃ r, (r = Ok tt ∨ ∃ e, r = Raise e) ∧
    ((if decide (pname = "id") then
        is_named ← isinstance_NamedIDPropertyEditor editor;
        if (is_named : bool) then py_setitem params "placeholder" (start_id wdescr)
        else mret tt
      else mret tt) : M unit) w = (r, w)) as (r2 & Hr2 & Hph).
  { destruct (decide (pname = "id")) as [Hid|Hid];
      [|exists (Ok tt); split; [by left|done]].
    rewrite (bind_readonly _ _ _ (isinstance_state editor w)).
    destruct ((isinstance_NamedIDPropertyEditor editor w).1) as [[|]|e].
    - destruct (py_setitem_not_dict params "placeholder" (start_id wdescr) w Hbad)
        as [e' He']. exists (Raise e'). split; [right; by eexists|done].
    - exists (Ok tt). split; [by left|done].
    - exists (Raise e). split; [right; by eexists|done]. }
  assert (∃ r, (r = Ok tt ∨ ∃ e, r = Raise e) ∧
    ((if decide (default_mode = VNone) then mret tt
      else
        has_mode ← py_in "mode" params;
        if (has_mode : bool) then mret tt
        else py_setitem params "mode" default_mode) : M unit) w = (r, w))
    as (r1 & Hr1 & Hmode).
  { destruct (decide (default_mode = VNone)) as [Hdm|Hdm];
      [exists (Ok tt); split; [by left|done]|].
    rewrite (bind_readonly _ _ _ (py_in_state "mode" params w)).
    destruct ((py_in "mode" params w).1) as [[|]|e].
    - exists (Ok tt). split; [by left|done].
    - destruct (py_setitem_not_dict params "mode" default_mode w Hbad) as [e' He'].
      exists (Raise e'). split; [right; by eexists|done].
    - exists (Raise e). split; [right; by eexists|done]. }
  rewrite bind_run, Hmode.
  destruct Hr1 as [->|[e1 ->]]; [|by eexists].
  rewrite bind_run, Hph.
  destruct Hr2 as [->|[e2 ->]]; [|by eexists].
  by eexists.
Qed.

Lemma update_editor_all_or_nothing propdescr w :
  heap_closed (heap w) →
  labels w !! label = Some lb → is_Some (lb_tooltip lb) →
  editors w !! editor = Some ed →
  all_or_nothing (update_editor label editor wdescr pname propdescr) w.
Proof.
  intros Hclosed Hlb Ht Hed. unfold all_or_nothing, update_editor.
  (* the copy of the descriptor *)
  rewrite (bind_readonly _ _ _ (py_copy_state propdescr w)).
  destruct ((py_copy propdescr w).1) as [generic|e] eqn:Hcopy; [|right; by eexists].
  apply (readonly_run _ _ _ (py_copy_state propdescr w)) in Hcopy.
  apply py_copy_Ok in Hcopy as (_ & pl & -> & Hpl).
  (* the generic mode *)
  assert ((match dict_get "params" generic with
           | Some p => py_get p "mode" VNone
           | None => mret VNone
           end w).2 = w) as Hro1.
  { destruct (dict_get "params" generic); [apply py_get_state|done]. }
  rewrite (bind_readonly _ _ _ Hro1).
  destruct ((match dict_get "params" generic with
             | Some p => py_get p "mode" VNone
             | None => mret VNone
             end w).1) as [default_mode|e] eqn:Hdm; [|right; by eexists].
  (* the merged descriptor *)
  rewrite (bind_readonly _ _ _ (merge_class_descr_state (classname wdescr) generic w)).
  destruct ((merge_class_descr (classname wdescr) generic w).1) as [pdescr|e]
    eqn:Hmerge; [|right; by eexists].
  apply (readonly_run _ _ _ (merge_class_descr_state _ generic w)) in Hmerge.
  assert (∀ k l', dict_get k pdescr = Some (VDict l') → is_Some (heap w !! l'))
    as Hrefs.
  { intros k l' Hk. unfold merge_class_descr in Hmerge.
    destruct (dict_get (classname wdescr) generic) as [override|] eqn:Hov.
    - apply bind_Ok in Hmerge
        as (kw & w1 & [-> (ol & -> & Hol)]%py_kwargs_Ok & [-> _]%ret_Ok).
      apply dict_get_update_Some in Hk as [Hin|Hget].
      + by eapply Hclosed.
      + eapply Hclosed; [exact Hpl|]. by apply dict_get_Some_elem.
    - apply ret_Ok in Hmerge as [-> _].
      eapply Hclosed; [exact Hpl|]. by apply dict_get_Some_elem. }
  clear Hmerge.
  (* the params *)
  destruct (dict_get "params" pdescr) as [params|] eqn:Hparams.
  - rewrite (bind_step _ _ _ params w) by done.
    destruct params as [| | | |p];
      try (right; apply after_params_raises; by intros p [=]).
    destruct (heap w !! p) as [d|] eqn:Hp.
    + left. apply after_params_succeeds; try done; by eauto.
    + right. apply after_params_raises. by intros p' [= <-].
  - left. unfold py_new_dict at 1. rewrite bind_run.
    apply after_params_succeeds; simpl_world; try done.
    + rewrite lookup_insert_eq. by eexists.
    + intros hl Hhl. rewrite lookup_insert_is_Some'. right. by eauto.
Qed.

End all_or_nothing.

(** A heap is closed when the dicts it lists refer to dicts it has. *)
Lemma heap_closed_of_list (h : gmap loc pydict) :
  Forall (fun ld : loc * pydict =>
            Forall (fun kv : string * pyval =>
                      match kv.2 with
                      | VDict l' => is_Some (h !! l')
                      | _ => True
                      end) ld.2) (map_to_list h) →
  heap_closed h.
Proof.
  intros HF l d k l' Hl Hin. apply elem_of_map_to_list in Hl.
  rewrite Forall_forall in HF. specialize (HF (l, d) Hl). simpl in HF.
  rewrite Forall_forall in HF. exact (HF (k, VDict l') Hin).
Qed.

(** * The properties of the specification *)

Section claims.
Context (env : Env).

(** C1. On a panel in any state it can reach after construction, for a
    widget whose class is in [CLASS_MAP]: [edit] ends normally when the
    tables are well formed for the class; and whenever [edit] ends
    normally, the pairs of the property bag are those of the registered
    properties, and the label and the editor of a registered property
    are in the layout if the property is of the required group or is
    named in the list the class declares for the property's group;
    otherwise both are out of the layout, and are still in the stores. *)
Theorem edit_shows_exactly (h : gmap loc pydict) (ops : list op) (w : world)
    (wdescr : WidgetDescr) (entry : ClassMapEntry) (S : loc → Prop) :
  panel_state env h ops w →
  CLASS_MAP env !! classname wdescr = Some entry →
  (tables_wf env (heap w) S (classname wdescr) →
   ∃ w', edit env wdescr w = (Ok tt, w')
         ∧ tables_wf env (heap w') S (classname wdescr))
  ∧ ∀ w', edit env wdescr w = (Ok tt, w') →
      (∀ key label editor, (key, (label, editor)) ∈ _propbag w' →
         ∃ gcode name, key = gcode +:+ name ∧ registered env gcode name)
      ∧ ∀ gcode name, registered env gcode name →
          ∃ label editor lb ed,
            dict_get (gcode +:+ name) (_propbag w') = Some (label, editor)
            ∧ labels w' !! label = Some lb
            ∧ editors w' !! editor = Some ed
            ∧ lb_gridded lb = shown_by_spec (builder entry) gcode name
            ∧ ed_gridded ed = shown_by_spec (builder entry) gcode name.
Proof.
  intros Hstate Hclass. split.
  - intros Htab.
    destruct (edit_groups_succeed env S wdescr (builder entry)
                (set__current (Some wdescr) w)) as (w1 & Hrun & _ & _ & Htab1).
    { split_and!.
      - eapply panel_wf_keeps; [by eapply panel_state_wf|done].
      - exact (panel_state_complete env h ops w Hstate).
      - done. }
    exists (count_reposition w1). split; [|done].
    unfold edit. rewrite bind_run. unfold modify at 1. rewrite Hclass.
    by rewrite (bind_step _ _ _ _ _ Hrun).
  - intros w' Hrun. by eapply edit_Ok_shows_exactly.
Qed.

(** C2. When [update_editor] ends normally, the value it passes to
    [editor.edit] is: the current value of the property if that value is
    truthy; else the ["default"] of the descriptor (as merged for the
    widget's class) if there is one and it is truthy; else the current
    value itself, as it is.  So a current value that is a string is
    passed as the specification says (itself, else the default, else the
    empty string), and one that is falsy and is not the empty string
    ([None], [0], [False]) is passed unchanged when no default applies. *)
Theorem editor_value_is_current_or_default (label editor : nat)
    (wdescr : WidgetDescr) (pname : string) (propdescr : pyval) (w w' : world) :
  update_editor label editor wdescr pname propdescr w = (Ok tt, w') →
  ∃ pdescr ed,
    merged_descr (heap w) (classname wdescr) propdescr = Some pdescr
    ∧ editors w' !! editor = Some ed
    ∧ (truthy (heap w') (widget_property wdescr pname) = true →
       ed_value ed = widget_property wdescr pname)
    ∧ (truthy (heap w') (widget_property wdescr pname) = false →
       ∀ d, dict_get "default" pdescr = Some d → truthy (heap w') d = true →
         ed_value ed = d)
    ∧ (truthy (heap w') (widget_property wdescr pname) = false →
       (∀ d, dict_get "default" pdescr = Some d → truthy (heap w') d = false) →
       ed_value ed = widget_property wdescr pname)
    ∧ (∀ s, widget_property wdescr pname = VStr s →
       ed_value ed =
         display_value_spec (heap w') (VStr s) (dict_get "default" pdescr)).
Proof.
  intros (generic & pdescr & dm & p & d0 & ed & _ & Hm & _ & _ & _ & _ & Hed)
    %update_editor_Ok_editor.
  eexists pdescr, _. split_and!; [done|exact Hed|..]; simpl; unfold display_value.
  - by intros ->.
  - intros -> d -> Ht. simpl. by rewrite Ht.
  - intros -> Hd. simpl.
    destruct (dict_get "default" pdescr) as [d|]; simpl; [|done].
    by rewrite (Hd d eq_refl).
  - intros s ->. apply display_value_is_spec.
Qed.

(** C3. When [update_editor] ends normally and the ["help"] entry of the
    descriptor (as merged for the widget's class) is a dict, the tooltip
    text of the label is the value of the first key of that dict, in the
    dict's order, that is a prefix of the widget's class name, and the
    empty string when no key is a prefix.  The dict is read after the
    assignments into [params]; it is as it was before the call unless it
    is the [params] dict itself. *)
Theorem tooltip_is_first_prefix_match (label editor : nat) (wdescr : WidgetDescr)
    (pname : string) (propdescr : pyval) (w w' : world) (pdescr : pydict)
    (hl : loc) :
  update_editor label editor wdescr pname propdescr w = (Ok tt, w') →
  merged_descr (heap w) (classname wdescr) propdescr = Some pdescr →
  dict_get "help" pdescr = Some (VDict hl) →
  ∃ items lb text,
    heap w' !! hl = Some items
    ∧ labels w' !! label = Some lb
    ∧ lb_tooltip lb = Some text
    ∧ text = help_for_class (classname wdescr) items
    ∧ first_prefix_match (classname wdescr) items text
    ∧ (is_Some (heap w !! hl) → dict_get "params" pdescr ≠ Some (VDict hl) →
       heap w !! hl = Some items).
Proof.
  intros (generic & pdescr' & dm & p & d0 & lb & ed & help & _ & Hm & _ & Hsrc
          & Hlb & _ & _ & Hhelp & ->)%update_editor_Ok Hm' Hh.
  rewrite Hm in Hm'. injection Hm' as ->. rewrite Hh in Hhelp. simpl in Hhelp.
  destruct Hhelp as (items & Hitems & ->).
  exists items, (lb_set_tooltip (help_for_class (classname wdescr) items) lb),
    (help_for_class (classname wdescr) items).
  simpl. split_and!; [done| |done|done| |].
  - apply list_lookup_insert_eq. by eapply lookup_lt_Some.
  - apply help_for_class_first_match.
  - intros [d Hd] Hne. rewrite lookup_insert_ne in Hitems; [done|].
    intros ->. destruct Hsrc as [[Hp _]|(_ & Hp & _)]; congruence.
Qed.

(** C4. On a panel in any state it can reach after construction, [hide_all]
    ends normally and afterwards the label and the editor of every pair
    in the property bag are out of the layout. *)
Theorem hide_all_hides_every_property (h : gmap loc pydict) (ops : list op)
    (w : world) :
  panel_state env h ops w →
  ∃ w', hide_all w = (Ok tt, w')
    ∧ _propbag w' = _propbag w
    ∧ ∀ key label editor, (key, (label, editor)) ∈ _propbag w' →
        (∃ lb, labels w' !! label = Some lb ∧ lb_gridded lb = false)
        ∧ (∃ ed, editors w' !! editor = Some ed ∧ ed_gridded ed = false).
Proof.
  intros Hwf%panel_state_wf.
  destruct (hide_loop (_propbag w) (set_current None w)) as (w' & Hrun & Hvis & _).
  { intros k l e Hin. simpl_world.
    destruct (wf_entries _ _ Hwf _ _ _ Hin) as (lb & ed & Hl & _ & He & _).
    split; by eapply lookup_lt_Some. }
  exists w'. unfold hide_all. rewrite bind_run. unfold modify at 1.
  rewrite bind_run. unfold gets at 1. simpl_world.
  assert (_propbag w' = _propbag w) as Hbag.
  { pose proof (hide_all_identity w) as Hk. unfold keeps, hide_all in Hk.
    rewrite bind_run in Hk. unfold modify at 1 in Hk.
    rewrite bind_run in Hk. unfold gets at 1 in Hk. simpl_world.
    rewrite Hrun in Hk. unfold panel_identity in Hk. by injection Hk. }
  split_and!; [done..|]. rewrite Hbag. exact Hvis.
Qed.

(** C5. On a panel that has a current widget descriptor, the
    [<<PropertyChanged>>] event of the editor of a registered property
    [name] makes exactly one call of the descriptor's setter: with [name]
    and with the value the editor holds, as it is.  Nothing else changes.
    So when the user gives the editor the value [v], the setter is called
    once, with [name] and [v]. *)
Theorem property_changed_calls_setter_once (h : gmap loc pydict) (ops : list op)
    (w : world) (wdescr : WidgetDescr) (gcode name : string) (label editor : nat) :
  panel_state env h ops w →
  _current w = Some wdescr →
  registered env gcode name →
  dict_get (gcode +:+ name) (_propbag w) = Some (label, editor) →
  (∃ ed w', editors w !! editor = Some ed
     ∧ event_generate editor "<<PropertyChanged>>" w = (Ok tt, w')
     ∧ setter_calls w' = setter_calls w ++ [(wdescr, name, ed_value ed)]
     ∧ w' = log_setter_call (wdescr, name, ed_value ed) w)
  ∧ ∀ v, ∃ w', user_input editor v w = (Ok tt, w')
      ∧ setter_calls w' = setter_calls w ++ [(wdescr, name, v)].
Proof.
  intros Hwf%panel_state_wf Hc Hreg Hget.
  destruct (bag_key_name env w _ _ _ _ Hreg Hget) as (Hin & _ & Hn).
  destruct (property_changed_run env w _ _ _ _ Hwf Hin Hc) as (ed & He & Hrun).
  rewrite Hn in Hrun. split.
  - by exists ed, (log_setter_call (wdescr, name, ed_value ed) w).
  - intros v. set (w1 := set_editors <[editor := ed_set_value v ed]> w).
    assert (panel_wf env w1) as Hwf1.
    { eapply panel_wf_keeps; [exact Hwf|]. by eapply panel_identity_set_editors. }
    destruct (property_changed_run env w1 _ _ _ _ Hwf1 Hin Hc) as (ed1 & He1 & Hrun1).
    rewrite Hn in Hrun1. subst w1. simpl_world.
    rewrite list_lookup_insert_eq in He1 by (by eapply lookup_lt_Some).
    injection He1 as <-.
    exists (log_setter_call (wdescr, name, v)
              (set_editors <[editor := ed_set_value v ed]> w)).
    split; [|reflexivity]. unfold user_input.
    rewrite (bind_step _ _ _ tt (set_editors <[editor := ed_set_value v ed]> w)).
    + exact Hrun1.
    + unfold editor_edit, update_editor_obj, get_editor. by rewrite bind_run, He.
Qed.


(** C7. The property bag is the same after any sequence of operations
    ([edit], [hide_all], [update_editor], change callbacks) as before it:
    no key is added or removed and every key names the same pair.  The
    stores of labels and editors keep their size, and every editor keeps
    its class, its place in the grid and its bindings: editors are not
    destroyed or created again, only their visibility, parameters and
    value change. *)
Theorem propbag_fixed_after_construction (ops : list op) (w : world) :
  _propbag (run env ops w) = _propbag w
  ∧ dict_keys (_propbag (run env ops w)) = dict_keys (_propbag w)
  ∧ length (editors (run env ops w)) = length (editors w)
  ∧ length (labels (run env ops w)) = length (labels w)
  ∧ ∀ i ed, editors w !! i = Some ed →
      ∃ ed', editors (run env ops w) !! i = Some ed'
        ∧ ed_class ed' = ed_class ed
        ∧ ed_bindings ed' = ed_bindings ed
        ∧ (ed_row ed', ed_column ed') = (ed_row ed, ed_column ed).
Proof.
  pose proof (run_identity env ops w) as Hid. unfold panel_identity in Hid.
  injection Hid as Hbag Heds Hlbs. split_and!.
  - done.
  - by rewrite Hbag.
  - by rewrite <-(length_fmap ed_identity), Heds, length_fmap.
  - by rewrite <-(length_fmap lb_identity), Hlbs, length_fmap.
  - intros i ed Hi.
    assert ((ed_identity <$> editors (run env ops w)) !! i = Some (ed_identity ed)) as Hi'.
    { by rewrite Heds, list_lookup_fmap, Hi. }
    rewrite list_lookup_fmap in Hi'.
    destruct (editors (run env ops w) !! i) as [ed'|]; [|done].
    apply (inj Some) in Hi'. unfold ed_identity in Hi'.
    injection Hi' as H1 H2 H3 H4. exists ed'. by rewrite H1, H2, H3, H4.
Qed.

(** C8. [edit] has no handler of its own, on a panel that was
    constructed, whatever the tables hold when it is called.  It raises
    in two cases only, and in each of them always.  When the class of
    the widget is not in [CLASS_MAP], it raises the [KeyError] of that
    lookup, after the assignment of [self._current] and nothing else.
    Otherwise it goes through the properties in order, and at the first
    one whose descriptor lookup raises, or which the class has and for
    which [update_editor] raises, it raises that same exception from the
    state reached there: the properties before it are done, those after
    it are not touched, and the scrolled frame is not repositioned.  So
    a property without a descriptor gives the [KeyError] of its name, a
    descriptor that is not a dict the [AttributeError] of [copy], an
    entry for the class that is not a dict the [TypeError] of the [**]. *)
Theorem edit_propagates_lookup_failures (h tables : gmap loc pydict)
    (ops : list op) (wp : world) (wdescr : WidgetDescr) :
  panel_state env h ops wp →
  let w := set_heap (fun _ => tables) wp in
  let w0 := set__current (Some wdescr) w in
  (∀ e w',
     edit env wdescr w = (Raise e, w') ↔
       (CLASS_MAP env !! classname wdescr = None
        ∧ e = KeyError (classname wdescr) ∧ w' = w0)
       ∨ ∃ entry before gcode attrname gproperties name after w1,
           CLASS_MAP env !! classname wdescr = Some entry
           ∧ edit_order env = before ++ (gcode, attrname, gproperties, name) :: after
           ∧ for_each (edit_step wdescr (builder entry)) before w0 = (Ok tt, w1)
           ∧ (py_getitem (VDict gproperties) name w1 = (Raise e, w')
              ∨ ∃ propdescr label widget,
                  py_getitem (VDict gproperties) name w1 = (Ok propdescr, w1)
                  ∧ dict_get (gcode +:+ name) (_propbag w1) = Some (label, widget)
                  ∧ shown_by_spec (builder entry) gcode name = true
                  ∧ update_editor label widget wdescr name propdescr w1
                    = (Raise e, w')))
  ∧ (∀ entry before gcode attrname gproperties name after w1 group,
       CLASS_MAP env !! classname wdescr = Some entry →
       edit_order env = before ++ (gcode, attrname, gproperties, name) :: after →
       for_each (edit_step wdescr (builder entry)) before w0 = (Ok tt, w1) →
       heap w1 !! gproperties = Some group →
       (dict_get name group = None →
        edit env wdescr w = (Raise (KeyError name), w1))
       ∧ (∀ v, dict_get name group = Some v → (∀ l, v ≠ VDict l) →
            shown_by_spec (builder entry) gcode name = true →
            edit env wdescr w = (Raise (AttributeError "copy"), w1))
       ∧ (∀ pl generic v,
            dict_get name group = Some (VDict pl) →
            heap w1 !! pl = Some generic →
            is_Some (generic_mode (heap w1) generic) →
            dict_get (classname wdescr) generic = Some v → (∀ l, v ≠ VDict l) →
            shown_by_spec (builder entry) gcode name = true →
            edit env wdescr w =
              (Raise (TypeError "argument after ** must be a mapping"), w1))).
Proof.
  intros Hstate w w0.
  assert (panel_wf env w0 ∧ bag_complete env w0) as [Hwf0 Hbag0].
  { split.
    - eapply panel_wf_keeps; [by eapply panel_state_wf|done].
    - exact (panel_state_complete env h ops wp Hstate). }
  assert (∀ e w',
     edit env wdescr w = (Raise e, w') ↔
       (CLASS_MAP env !! classname wdescr = None
        ∧ e = KeyError (classname wdescr) ∧ w' = w0)
       ∨ ∃ entry before gcode attrname gproperties name after w1,
           CLASS_MAP env !! classname wdescr = Some entry
           ∧ edit_order env = before ++ (gcode, attrname, gproperties, name) :: after
           ∧ for_each (edit_step wdescr (builder entry)) before w0 = (Ok tt, w1)
           ∧ (py_getitem (VDict gproperties) name w1 = (Raise e, w')
              ∨ ∃ propdescr label widget,
                  py_getitem (VDict gproperties) name w1 = (Ok propdescr, w1)
                  ∧ dict_get (gcode +:+ name) (_propbag w1) = Some (label, widget)
                  ∧ shown_by_spec (builder entry) gcode name = true
                  ∧ update_editor label widget wdescr name propdescr w1
                    = (Raise e, w'))) as Hiff.
  { intros e w'. unfold edit. rewrite bind_run. unfold modify at 1. fold w0.
    destruct (CLASS_MAP env !! classname wdescr) as [entry|] eqn:Hclass.
    2: { split.
         - intros [= <- <-]. by left.
         - intros [(_ & -> & ->)|(? & ? & ? & ? & ? & ? & ? & ? & [=] & _)]. done. }
    rewrite bind_Raise, edit_loops_flat, for_each_Raise. split.
    - intros [(before & [[[gcode attrname] gproperties] name] & after & w1 & Hl & Hb
               & Hx)|(? & ? & _ & [=])].
      right. exists entry, before, gcode, attrname, gproperties, name, after, w1.
      split_and!; [done..|].
      destruct (edit_steps_keep env wdescr (builder entry) _ _ _ Hwf0 Hbag0 Hb)
        as [Hwf1 Hbag1].
      assert ((gcode, attrname, gproperties, name) ∈ edit_order env) as Hin.
      { rewrite Hl. apply elem_of_app. right. apply list_elem_of_here. }
      by apply (edit_step_Raise env wdescr (builder entry) _ _ _ _ _ _ _
                  Hwf1 Hbag1 Hin) in Hx.
    - intros [(? & _)|(entry' & before & gcode & attrname & gproperties & name & after
                      & w1 & [= <-] & Hl & Hb & Hx)]; [done|].
      left. exists before, (gcode, attrname, gproperties, name), after, w1.
      split_and!; [done..|].
      destruct (edit_steps_keep env wdescr (builder entry) _ _ _ Hwf0 Hbag0 Hb)
        as [Hwf1 Hbag1].
      assert ((gcode, attrname, gproperties, name) ∈ edit_order env) as Hin.
      { rewrite Hl. apply elem_of_app. right. apply list_elem_of_here. }
      by apply (edit_step_Raise env wdescr (builder entry) _ _ _ _ _ _ _
                  Hwf1 Hbag1 Hin). }
  split; [exact Hiff|].
  intros entry before gcode attrname gproperties name after w1 group Hclass Hl Hb Hgroup.
  destruct (edit_steps_keep env wdescr (builder entry) _ _ _ Hwf0 Hbag0 Hb)
    as [Hwf1 Hbag1].
  assert (registered env gcode name) as Hreg.
  { destruct (edit_order_registered env gcode attrname gproperties name)
      as (proplist & Hg & Hn); [|by do 3 eexists].
    rewrite Hl. apply elem_of_app. right. apply list_elem_of_here. }
  destruct (Hbag1 gcode name Hreg) as [[label widget] Hget].
  split_and!.
  - intros Hnone. apply Hiff. right.
    exists entry, before, gcode, attrname, gproperties, name, after, w1.
    split_and!; [done..|]. left. simpl. by rewrite bind_run, (deref_run _ _ _ Hgroup), Hnone.
  - intros v Hv Hnd Hshown. apply Hiff. right.
    exists entry, before, gcode, attrname, gproperties, name, after, w1.
    split_and!; [done..|]. right. exists v, label, widget. split_and!; [|done|done|].
    + simpl. by rewrite bind_run, (deref_run _ _ _ Hgroup), Hv.
    + by apply update_editor_not_a_dict.
  - intros pl generic v Hv Hpl Hdm Hcls Hnd Hshown. apply Hiff. right.
    exists entry, before, gcode, attrname, gproperties, name, after, w1.
    split_and!; [done..|]. right. exists (VDict pl), label, widget.
    split_and!; [|done|done|].
    + simpl. by rewrite bind_run, (deref_run _ _ _ Hgroup), Hv.
    + by eapply update_editor_class_not_a_dict.
Qed.

(** C9. [hide_all] assigns [self.current], not [self._current]: whatever
    the outcome of the last [edit], after [hide_all] the panel still
    refers to the widget descriptor that was edited, and the
    [<<PropertyChanged>>] event of any registered editor still calls the
    setter of that descriptor. *)
Theorem hide_all_keeps_current_widget (h : gmap loc pydict) (ops : list op)
    (w0 w1 w2 : world) (wdescr : WidgetDescr) (r1 r2 : result unit)
    (key : string) (label editor : nat) :
  panel_state env h ops w0 →
  edit env wdescr w0 = (r1, w1) →
  hide_all w1 = (r2, w2) →
  (key, (label, editor)) ∈ _propbag w2 →
  _current w2 = Some wdescr
  ∧ current w2 = Some None
  ∧ ∃ ed, editors w2 !! editor = Some ed
      ∧ event_generate editor "<<PropertyChanged>>" w2 =
          (Ok tt, log_setter_call (wdescr, key_name key, ed_value ed) w2)
      ∧ setter_calls (log_setter_call (wdescr, key_name key, ed_value ed) w2) =
          setter_calls w2 ++ [(wdescr, key_name key, ed_value ed)].
Proof.
  intros Hwf0%panel_state_wf Hedit Hhide Hin.
  assert (_current w1 = Some wdescr) as Hc1.
  { pose proof (edit_sets__current env wdescr w0) as H1. by rewrite Hedit in H1. }
  assert (_current w2 = Some wdescr) as Hc2.
  { pose proof (hide_all_keeps__current w1) as H2. unfold keeps in H2.
    rewrite Hhide in H2. simpl in H2. congruence. }
  assert (panel_wf env w2) as Hwf2.
  { assert (w2 = run env [Edit wdescr; HideAll] w0) as ->.
    { unfold run. simpl. rewrite Hedit. simpl. by rewrite Hhide. }
    by apply run_wf. }
  split_and!; [done| |].
  - pose proof (hide_all_assigns_current w1) as H2. by rewrite Hhide in H2.
  - destruct (property_changed_run env w2 _ _ _ _ Hwf2 Hin Hc2) as (ed & He & Hrun).
    by exists ed.
Qed.

(** C10. [propdescr.copy()] copies one level: when the merged descriptor
    names a ["params"] dict, that dict is the one the tables hold, and
    the assignments of [update_editor] go into it.  After the call the
    dict has the generic ["mode"] if it had none and there is a generic
    one, and the ["placeholder"] for ["id"] on a [NamedIDPropertyEditor];
    and after any further operations on the panel, for any widget, it
    still has every key it has now, with the same value but for
    ["placeholder"], which later calls assign again. *)
Theorem update_editor_mutates_shared_params (label editor : nat)
    (wdescr : WidgetDescr) (pname : string) (propdescr : pyval) (w w' : world)
    (pdescr : pydict) (p : loc) (d0 : pydict) :
  update_editor label editor wdescr pname propdescr w = (Ok tt, w') →
  merged_descr (heap w) (classname wdescr) propdescr = Some pdescr →
  dict_get "params" pdescr = Some (VDict p) →
  heap w !! p = Some d0 →
  ∃ generic default_mode ed d1,
    (∃ pl, propdescr = VDict pl ∧ heap w !! pl = Some generic)
    ∧ generic_mode (heap w) generic = Some default_mode
    ∧ editors w !! editor = Some ed
    ∧ heap w' !! p = Some d1
    ∧ d1 = with_placeholder pname (ed_class ed) (start_id wdescr)
             (with_default_mode default_mode d0)
    ∧ (default_mode ≠ VNone → dict_get "mode" d0 = None →
       dict_get "mode" d1 = Some default_mode)
    ∧ (pname = "id" → ed_class ed = NamedIDPropertyEditor →
       dict_get "placeholder" d1 = Some (start_id wdescr))
    ∧ ∀ ops, ∃ d2,
        heap (run env ops w') !! p = Some d2
        ∧ ∀ k v, dict_get k d1 = Some v →
            is_Some (dict_get k d2)
            ∧ (k ≠ "placeholder" → dict_get k d2 = Some v).
Proof.
  intros (generic & pdescr' & dm & p' & d0' & ed & Hpl & Hm & Hdm & Hsrc & Hed
          & Hheap & _)%update_editor_Ok_editor Hm' Hp Hd0.
  rewrite Hm in Hm'. injection Hm' as ->.
  destruct Hsrc as [[Hp' Hd0']|[Hp' _]]; [|congruence].
  assert (p' = p) as -> by congruence. assert (d0' = d0) as -> by congruence.
  eexists generic, dm, ed, _. split_and!; [done|done|done| |reflexivity|..].
  - rewrite Hheap. apply lookup_insert_eq.
  - intros Hdm' Hmode. unfold with_default_mode, dict_contains.
    rewrite decide_False, Hmode by done.
    unfold with_placeholder. case_decide; [|by apply dict_get_set_eq].
    destruct (ed_class ed); [|by apply dict_get_set_eq].
    rewrite dict_get_set_ne by done. apply dict_get_set_eq.
  - intros -> Hc. unfold with_placeholder. rewrite decide_True, Hc by done.
    apply dict_get_set_eq.
  - intros ops. apply (run_heap_grows env ops w').
    rewrite Hheap. apply lookup_insert_eq.
Qed.

End claims.

(** * Further properties of the panel *)

Section construction_properties.
Context (env : Env).

(** X1. [__init__] ends normally exactly when every name of the four
    lists of [pygubudesigner.properties] has a descriptor in the table of
    its group and the descriptor is a dict.  (The editor factory, the
    toolkit and the style handler are taken not to raise.) *)
Theorem init_succeeds_iff_tables_ready (h : gmap loc pydict) :
  (∃ w0, __init__ env (new_world h) = (Ok tt, w0)) ↔ tables_ready env h.
Proof.
  split.
  - intros [w0 Hinit]. by eapply init_Ok_ready.
  - apply init_succeeds.
Qed.

(** X2. When the four tables are dicts and the descriptors they hold for
    listed properties are dicts, [__init__] can only fail on a listed
    property that has no descriptor, and what it raises is the
    [KeyError] of that lookup, with the property's name. *)
Theorem init_failure_is_missing_descriptor (h : gmap loc pydict) (e : exn)
    (w' : world) :
  tables_typed env h →
  __init__ env (new_world h) = (Raise e, w') →
  ∃ gcode gname plist gp name,
    (gcode, gname, plist, gp) ∈ create_groups env ∧ name ∈ plist
    ∧ descriptor h gp name = None ∧ e = KeyError name.
Proof.
  intros Htyped. unfold __init__.
  rewrite bind_run. unfold modify at 1. rewrite bind_run. unfold modify at 1.
  intros [Hc|([] & w3 & Hc & Hh)]%bind_Raise.
  - (* the loops of [_create_properties] raised *)
    by eapply create_properties_Raise; [| |exact Hc].
  - (* [hide_all] cannot raise on the panel just built *)
    destruct (hide_all_succeeds env w3) as [w4 Hok]; [|congruence].
    by eapply create_properties_wf; [|exact Hc].
Qed.

(** X3. Construction only reads the tables: whatever its outcome,
    [__init__] leaves every dict of the heap as it was, calls no setter
    and does not ask the scrolled frame to reposition. *)
Theorem init_leaves_tables_alone (w : world) :
  heap (__init__ env w).2 = heap w
  ∧ setter_calls (__init__ env w).2 = setter_calls w
  ∧ repositions (__init__ env w).2 = repositions w.
Proof.
  pose proof (init_outside env w) as Hk. unfold keeps, outside in Hk.
  injection Hk as H1 H2 H3. done.
Qed.

(** X4. In every state of a constructed panel, the label and the editor
    of a pair of the bag are on the same grid row, the label in column 0
    and the editor in column 1, below the header of the first group; the
    label's text is the property name followed by a colon; and no two
    pairs share a row. *)
Theorem pairs_on_rows_of_their_own (h : gmap loc pydict) (ops : list op) (w : world) :
  panel_state env h ops w →
  (∀ key label editor, (key, (label, editor)) ∈ _propbag w →
     ∃ lb ed,
       labels w !! label = Some lb ∧ editors w !! editor = Some ed
       ∧ lb_text lb = key_name key +:+ ":"
       ∧ lb_row lb = ed_row ed ∧ 0 < lb_row lb
       ∧ lb_column lb = 0 ∧ ed_column ed = 1)
  ∧ ∀ k1 l1 e1 k2 l2 e2 lb1 lb2,
      (k1, (l1, e1)) ∈ _propbag w → (k2, (l2, e2)) ∈ _propbag w →
      labels w !! l1 = Some lb1 → labels w !! l2 = Some lb2 →
      lb_row lb1 = lb_row lb2 → k1 = k2.
Proof.
  intros (row & Hbuilt & Hdist)%panel_state_built. split.
  - intros key label editor Hin.
    destruct (Hbuilt _ _ _ Hin)
      as (gcode & gname & plist & gp & name & r & Hg & Hname & -> & Hr
          & pl & d & lb & ed & _ & _ & Hlb & Hed & Hlbi & Hedi).
    exists lb, ed. unfold lb_identity in Hlbi. unfold ed_identity in Hedi.
    injection Hlbi as Ht Hrow Hcol _. injection Hedi as _ Hrow' Hcol' _.
    destruct (key_parts gcode name) as [_ ->].
    { eapply registered_length, create_groups_registered; done. }
    split_and!; try done; try lia.
  - intros k1 l1 e1 k2 l2 e2 lb1 lb2 Hin1 Hin2 Hl1 Hl2 Hrows.
    apply (Hdist k1 l1 e1 k2 l2 e2 Hin1 Hin2).
    unfold row_of. rewrite Hl1, Hl2. simpl. by rewrite Hrows.
Qed.

(** X5. The class of the editor of a property is the answer of the
    editor factory for the ["editor"] entry of the property's descriptor
    in the tables the panel was built over, and for [None] when the
    descriptor has no such entry; it is so in every state of the panel. *)
Theorem editor_class_from_descriptor (h : gmap loc pydict) (ops : list op)
    (w : world) (gcode gname : string) (plist : list string) (gp : loc)
    (name : string) :
  panel_state env h ops w →
  (gcode, gname, plist, gp) ∈ create_groups env → name ∈ plist →
  ∃ label editor pl d ed,
    dict_get (gcode +:+ name) (_propbag w) = Some (label, editor)
    ∧ descriptor h gp name = Some (VDict pl) ∧ h !! pl = Some d
    ∧ editors w !! editor = Some ed
    ∧ ed_class ed = create_editor env (default VNone (dict_get "editor" d)).
Proof.
  intros Hstate Hg Hname.
  pose proof (create_groups_registered env _ _ _ _ _ Hg Hname) as Hreg.
  destruct (panel_state_complete env h ops w Hstate gcode name Hreg)
    as [[label editor] Hget].
  destruct (panel_state_built env h ops w Hstate) as (row & Hbuilt & _).
  destruct (Hbuilt _ _ _ (dict_get_Some_elem _ _ _ Hget))
    as (gcode' & gname' & plist' & gp' & name' & r & Hg' & Hname' & Hkey & _
        & pl & d & lb & ed & Hdescr & Hd & _ & Hed & _ & Hedi).
  apply key_inj in Hkey as [<- <-].
  2: by eapply registered_length.
  2: by eapply registered_length, create_groups_registered.
  assert (gp' = gp) as ->.
  { clear -Hg Hg'. unfold create_groups in *.
    repeat (apply elem_of_cons in Hg as [Hg|Hg]);
      repeat (apply elem_of_cons in Hg' as [Hg'|Hg']);
      try (by apply elem_of_nil in Hg); try (by apply elem_of_nil in Hg');
      congruence. }
  exists label, editor, pl, d, ed. split_and!; try done.
  unfold ed_identity in Hedi. by injection Hedi.
Qed.

(** X6. When no name is listed twice in a group, the keys of the bag are
    exactly the keys of the listed properties, group code followed by
    name, in the order of the groups and of the lists. *)
Theorem bag_keys_are_the_listed_properties (h : gmap loc pydict) (ops : list op)
    (w : world) :
  names_distinct env → panel_state env h ops w →
  dict_keys (_propbag w) =
    map (String.append "00") (WIDGET_REQUIRED_OPTIONS env)
    ++ map (String.append "01") (WIDGET_STANDARD_OPTIONS env)
    ++ map (String.append "02") (WIDGET_SPECIFIC_OPTIONS env)
    ++ map (String.append "03") (WIDGET_CUSTOM_OPTIONS env).
Proof.
  intros Hnd Hstate.
  destruct (panel_state_keys env h ops w Hnd Hstate) as [-> _].
  unfold all_keys, create_groups. simpl. by rewrite app_nil_r.
Qed.

(** X7. When no name is listed twice in a group, every editor that
    exists is the editor of a pair of the bag, and the bag has as many
    pairs as there are editors; so after [hide_all] no editor at all is
    in the layout. *)
Theorem every_editor_is_in_the_bag (h : gmap loc pydict) (ops : list op)
    (w : world) :
  names_distinct env → panel_state env h ops w →
  (∀ i, i < length (editors w) → ∃ key label, (key, (label, i)) ∈ _propbag w)
  ∧ length (_propbag w) = length (editors w)
  ∧ ∀ w' i ed, hide_all w = (Ok tt, w') → editors w' !! i = Some ed →
      ed_gridded ed = false.
Proof.
  intros Hnd Hstate.
  destruct (panel_state_keys env h ops w Hnd Hstate) as [_ Heds].
  assert (∀ i, i < length (editors w) → ∃ key label, (key, (label, i)) ∈ _propbag w)
    as Hall.
  { intros i Hi.
    assert (i ∈ bag_editors w) as Hin.
    { rewrite Heds. apply elem_of_seq. lia. }
    apply list_elem_of_fmap in Hin as ([key [label e]] & -> & Hin). by eauto. }
  split_and!; [done| |].
  - transitivity (length (bag_editors w)).
    + unfold bag_editors. by rewrite length_map.
    + rewrite Heds. apply length_seq.
  - intros w' i ed Hhide Hed.
    assert (i < length (editors w)) as Hi.
    { pose proof (hide_all_identity w) as Hk. rewrite Hhide in Hk.
      unfold keeps, panel_identity in Hk. simpl in Hk. injection Hk as _ Hk _.
      rewrite <-(length_fmap ed_identity), <-Hk, length_fmap.
      by eapply lookup_lt_Some. }
    destruct (Hall i Hi) as (key & label & Hin).
    destruct (hide_loop (_propbag w) (set_current None w)) as (w1 & Hrun & Hvis & _).
    { intros k l e Hin'. simpl_world.
      destruct (wf_entries _ _ (panel_state_wf env h ops w Hstate) _ _ _ Hin')
        as (lb0 & ed0 & Hl & _ & He & _).
      split; by eapply lookup_lt_Some. }
    unfold hide_all in Hhide. rewrite bind_run in Hhide. unfold modify at 1 in Hhide.
    rewrite bind_run in Hhide. unfold gets at 1 in Hhide. simpl_world.
    rewrite Hrun in Hhide. injection Hhide as <-.
    destruct (Hvis _ _ _ Hin) as [_ (ed' & Hed' & Hg)]. congruence.
Qed.

End construction_properties.

Section operation_properties.
Context (env : Env).

(** X8. [hide_all] is idempotent: on a constructed panel it ends
    normally, and a second [hide_all] right after it ends normally too
    and changes nothing at all. *)
Theorem hide_all_is_idempotent (h : gmap loc pydict) (ops : list op) (w : world) :
  panel_state env h ops w →
  ∃ w1, hide_all w = (Ok tt, w1) ∧ hide_all w1 = (Ok tt, w1).
Proof.
  intros Hwf%panel_state_wf.
  destruct (hide_loop (_propbag w) (set_current None w)) as (w1 & Hrun & Hvis & _).
  { intros k l e Hin. simpl_world.
    destruct (wf_entries _ _ Hwf _ _ _ Hin) as (lb & ed & Hl & _ & He & _).
    split; by eapply lookup_lt_Some. }
  assert (hide_all w = (Ok tt, w1)) as Hhide.
  { unfold hide_all. rewrite bind_run. unfold modify at 1.
    rewrite bind_run. unfold gets at 1. simpl_world. exact Hrun. }
  exists w1. split; [done|]. apply hide_all_hidden.
  - pose proof (hide_all_assigns_current w) as Hc. by rewrite Hhide in Hc.
  - pose proof (hide_all_identity w) as Hk. rewrite Hhide in Hk.
    unfold keeps, panel_identity in Hk. simpl in Hk. injection Hk as -> _ _.
    exact Hvis.
Qed.

(** X9. [hide_all] changes what is in the layout and [self.current],
    and nothing else, whatever its outcome: the tables, the current
    widget, the bag and the record of setter calls are as before; every
    editor keeps its parameters and its value, and every label its
    tooltip text. *)
Theorem hide_all_changes_visibility_only (w : world) :
  heap (hide_all w).2 = heap w
  ∧ _current (hide_all w).2 = _current w
  ∧ _propbag (hide_all w).2 = _propbag w
  ∧ setter_calls (hide_all w).2 = setter_calls w
  ∧ (∀ i ed, editors w !! i = Some ed →
       ∃ ed', editors (hide_all w).2 !! i = Some ed'
         ∧ ed_parameters ed' = ed_parameters ed ∧ ed_value ed' = ed_value ed)
  ∧ (∀ i lb, labels w !! i = Some lb →
       ∃ lb', labels (hide_all w).2 !! i = Some lb'
         ∧ lb_text lb' = lb_text lb ∧ lb_tooltip lb' = lb_tooltip lb).
Proof.
  pose proof (hide_all_but_visibility w) as Hk. unfold keeps in Hk.
  pose proof Hk as Hk'. unfold but_visibility in Hk'.
  injection Hk' as Hheap _ _ Hcur Hbag Hcalls _.
  split_and!; try done.
  - intros i ed Hed.
    destruct (but_visibility_lookup_editor _ _ _ _ Hk Hed) as (ed' & Hed' & Hc).
    exists ed'. unfold ed_content in Hc. injection Hc as _ _ _ _ Hp Hv. done.
  - intros i lb Hlb.
    destruct (but_visibility_lookup_label _ _ _ _ Hk Hlb) as (lb' & Hlb' & Hc).
    exists lb'. unfold lb_content in Hc. injection Hc as Ht _ _ Htip. done.
Qed.

(** X10. The setter of a widget descriptor is called by change events
    only, at most once per event, and only on a widget that is the
    current one: the record of setter calls after any sequence of
    operations is the record before it followed by at most one call per
    change event of the sequence, each on the widget that was current
    before the sequence or on one given to an [edit] of the sequence.
    ([editor.edit] and [editor.parameters] are taken to fire no event of
    their own.) *)
Theorem setter_called_by_change_events_only (ops : list op) (w : world) :
  ∃ calls,
    setter_calls (run env ops w) = setter_calls w ++ calls
    ∧ length calls ≤ length (filter (fun o => is_event o = true) ops)
    ∧ ∀ c, c ∈ calls → _current w = Some c.1.1 ∨ Edit c.1.1 ∈ ops.
Proof.
  revert w. induction ops as [|o ops IH]; intros w.
  - exists []. simpl. rewrite app_nil_r. split_and!; [done..|].
    intros c Hin. by apply elem_of_nil in Hin.
  - rewrite run_cons.
    destruct (run_op_calls env o w) as (Hcur & calls0 & Hs0 & Hlen0 & Hall0).
    destruct (IH (run_op env o w).2) as (calls1 & Hs1 & Hlen1 & Hall1).
    exists (calls0 ++ calls1). split_and!.
    + by rewrite Hs1, Hs0, app_assoc.
    + rewrite length_app, filter_cons.
      destruct (is_event o) eqn:Ho.
      * rewrite decide_True by done. simpl. lia.
      * rewrite decide_False by done. lia.
    + intros c [Hin|Hin]%elem_of_app.
      * left. by apply Hall0.
      * destruct (Hall1 c Hin) as [Hc|Hc].
        -- destruct o; try (left; congruence).
           right. rewrite Hcur in Hc. injection Hc as ->. apply list_elem_of_here.
        -- right. by apply list_elem_of_further.
Qed.

(** X11. Until the first [edit] there is no current widget: on a panel
    that was constructed and then only hidden, updated or sent events,
    the [<<PropertyChanged>>] event of any editor of the bag raises
    [AttributeError] and changes nothing. *)
Theorem change_event_before_first_edit_raises (h : gmap loc pydict)
    (ops : list op) (w : world) (key : string) (label editor : nat) :
  panel_state env h ops w →
  (∀ wdescr, Edit wdescr ∉ ops) →
  (key, (label, editor)) ∈ _propbag w →
  _current w = None
  ∧ event_generate editor "<<PropertyChanged>>" w =
      (Raise (AttributeError "widget_property"), w).
Proof.
  intros Hstate Hno Hin.
  assert (_current w = None) as Hcur.
  { destruct Hstate as (w0 & Hinit & ->). rewrite run_current by done.
    pose proof (init_current env (new_world h)) as Hc. by rewrite Hinit in Hc. }
  split; [done|].
  destruct (wf_entries _ _ (panel_state_wf env h ops w Hstate) _ _ _ Hin)
    as (lb & ed & _ & _ & He & Hb & _).
  unfold event_generate, get_editor. rewrite bind_run, He, Hb.
  unfold _on_property_changed. rewrite bind_run. unfold gets at 1.
  by rewrite Hcur.
Qed.

(** X12. [edit] asks the scrolled frame to reposition exactly once when
    it ends normally and not at all when it raises; no other operation
    of the panel asks for it. *)
Theorem reposition_once_per_successful_edit (w : world) :
  (∀ wdescr,
     repositions (edit env wdescr w).2 =
       match (edit env wdescr w).1 with
       | Ok _ => S (repositions w)
       | Raise _ => repositions w
       end)
  ∧ ∀ o, (∀ wdescr, o ≠ Edit wdescr) →
      repositions (run_op env o w).2 = repositions w.
Proof.
  split; [intros wdescr; apply edit_repositions|].
  intros o Ho.
  destruct o as [wdescr| |label editor wdescr pname propdescr|editor|editor value];
    simpl.
  - by destruct (Ho wdescr).
  - pose proof (hide_all_calls w) as Hk. unfold keeps in Hk. by injection Hk.
  - pose proof (update_editor_attributes label editor wdescr pname propdescr w) as Hk.
    unfold keeps, attributes in Hk. by injection Hk.
  - by destruct (event_generate_calls editor "<<PropertyChanged>>" w) as (_ & Hr & _).
  - by destruct (user_input_calls editor value w) as (_ & Hr & _).
Qed.

End operation_properties.

Section update_editor_properties.

(** X13. The ["params"] of the entry for the widget's class replace the
    generic ["params"], they are not merged with them: every keyword
    argument of [editor.parameters] other than ["mode"] and
    ["placeholder"] is an entry of the class's ["params"], and a
    ["mode"] the class's ["params"] have is the one passed, whatever the
    generic ["mode"] is. *)
Theorem class_params_replace_generic_params (label editor : nat)
    (wdescr : WidgetDescr) (pname : string) (pl ol op : loc) (w w' : world)
    (generic override oparams : pydict) :
  update_editor label editor wdescr pname (VDict pl) w = (Ok tt, w') →
  heap w !! pl = Some generic →
  dict_get (classname wdescr) generic = Some (VDict ol) →
  heap w !! ol = Some override →
  NoDup (dict_keys override) →
  dict_get "params" override = Some (VDict op) →
  heap w !! op = Some oparams →
  ∃ ed kw,
    editors w' !! editor = Some ed
    ∧ ed_parameters ed = Some kw
    ∧ (∀ k, k ≠ "mode" → k ≠ "placeholder" → dict_get k kw = dict_get k oparams)
    ∧ (∀ m, dict_get "mode" oparams = Some m → dict_get "mode" kw = Some m).
Proof.
  intros (generic' & pdescr & dm & p & d0 & ed & (pl' & [= <-] & Hpl') & Hm & Hdm
          & Hsrc & _ & _ & Hed)%update_editor_Ok_editor
    Hpl Hov Hol Hnd Hop Hoparams.
  assert (generic' = generic) as -> by congruence.
  assert (pdescr = dict_update generic override) as ->.
  { unfold merged_descr in Hm. rewrite Hpl in Hm. simpl in Hm.
    rewrite Hov, Hol in Hm. by injection Hm. }
  rewrite dict_get_update, Hop in Hsrc by done.
  destruct Hsrc as [[[= <-] Hd0]|[? _]]; [|done].
  assert (d0 = oparams) as -> by congruence.
  eexists _, _. split_and!; [exact Hed|done|..]; simpl.
  - intros k Hk1 Hk2.
    by rewrite dict_get_with_placeholder, dict_get_with_default_mode.
  - intros m Hmode.
    rewrite dict_get_with_placeholder by done.
    by rewrite (with_default_mode_has_mode _ _ m).
Qed.

(** X14. When the descriptor, as merged for the widget's class, has no
    ["params"], [editor.parameters] is called with the arguments of a new
    dict: none at all, unless the property is ["id"] on a
    [NamedIDPropertyEditor], which gets the placeholder alone; and every
    dict of the tables is left as it was. *)
Theorem no_params_no_arguments (label editor : nat) (wdescr : WidgetDescr)
    (pname : string) (propdescr : pyval) (w w' : world) (pdescr : pydict) :
  update_editor label editor wdescr pname propdescr w = (Ok tt, w') →
  merged_descr (heap w) (classname wdescr) propdescr = Some pdescr →
  dict_get "params" pdescr = None →
  ∃ ed0 ed,
    editors w !! editor = Some ed0 ∧ editors w' !! editor = Some ed
    ∧ ed_parameters ed =
        Some (with_placeholder pname (ed_class ed0) (start_id wdescr) [])
    ∧ (pname ≠ "id" → ed_parameters ed = Some [])
    ∧ (pname = "id" → ed_class ed0 = NamedIDPropertyEditor →
       ed_parameters ed = Some [("placeholder", start_id wdescr)])
    ∧ ∀ l d, heap w !! l = Some d → heap w' !! l = Some d.
Proof.
  intros (generic & pdescr' & dm & p & d0 & ed & (pl & -> & Hpl) & Hm & Hdm
          & Hsrc & Hed0 & Hheap & Hed)%update_editor_Ok_editor Hm' Hnone.
  rewrite Hm in Hm'. injection Hm' as ->.
  destruct Hsrc as [[? _]|(_ & Hfresh & ->)]; [congruence|].
  assert (dm = VNone) as ->.
  { unfold generic_mode in Hdm.
    destruct (dict_get "params" generic) as [v|] eqn:Hv; [|by injection Hdm].
    destruct (merged_descr_keeps_keys _ _ _ _ _ "params" Hpl Hm) as [? ?];
      [by eexists|congruence]. }
  assert (with_default_mode VNone [] = []) as Hkw by done.
  rewrite Hkw in Hed, Hheap.
  eexists ed, _. split_and!; [done|exact Hed|done|..].
  - intros Hp. simpl. by rewrite with_placeholder_other.
  - intros -> Hc. simpl. unfold with_placeholder. by rewrite decide_True, Hc.
  - intros l d Hl. rewrite Hheap, lookup_insert_ne; [done|]. congruence.
Qed.

(** X15. Whatever its outcome, [update_editor] touches the label and the
    editor it is given and no other: every other label and editor is as
    it was; nothing is shown or hidden; and the current widget, the bag,
    the record of setter calls and the reposition count are as before. *)
Theorem update_editor_touches_its_pair_only (label editor : nat)
    (wdescr : WidgetDescr) (pname : string) (propdescr : pyval) (w : world) :
  let w' := (update_editor label editor wdescr pname propdescr w).2 in
  (∀ j, j ≠ label → labels w' !! j = labels w !! j)
  ∧ (∀ j, j ≠ editor → editors w' !! j = editors w !! j)
  ∧ (∀ j, lb_gridded <$> labels w' !! j = lb_gridded <$> labels w !! j)
  ∧ (∀ j, ed_gridded <$> editors w' !! j = ed_gridded <$> editors w !! j)
  ∧ _current w' = _current w ∧ current w' = current w
  ∧ _propbag w' = _propbag w ∧ setter_calls w' = setter_calls w
  ∧ repositions w' = repositions w.
Proof.
  intros w'. subst w'.
  destruct (update_editor_only_at label editor wdescr pname propdescr w) as [Hl He].
  pose proof (update_editor_grid_flags label editor wdescr pname propdescr w) as Hg.
  pose proof (update_editor_attributes label editor wdescr pname propdescr w) as Ha.
  unfold keeps, grid_flags in Hg. injection Hg as _ Hgl Hge.
  unfold keeps, attributes in Ha. injection Ha as H1 H2 H3 H4 H5.
  split_and!; try done.
  - intros j. by rewrite <-!list_lookup_fmap, Hgl.
  - intros j. by rewrite <-!list_lookup_fmap, Hge.
Qed.

End update_editor_properties.

Section edit_properties.
Context (env : Env).

(** X16. [edit] does not refresh the properties the widget's class does
    not have: whatever the outcome of [edit], the label of such a
    property keeps its tooltip text and its editor keeps the parameters
    and the value it had, those of the last widget that showed it. *)
Theorem edit_keeps_hidden_properties (h : gmap loc pydict) (ops : list op)
    (w : world) (wdescr : WidgetDescr) (entry : ClassMapEntry)
    (gcode name : string) :
  panel_state env h ops w →
  CLASS_MAP env !! classname wdescr = Some entry →
  registered env gcode name →
  shown_by_spec (builder entry) gcode name = false →
  ∃ label editor lb ed lb' ed',
    dict_get (gcode +:+ name) (_propbag w) = Some (label, editor)
    ∧ labels w !! label = Some lb ∧ editors w !! editor = Some ed
    ∧ labels (edit env wdescr w).2 !! label = Some lb'
    ∧ editors (edit env wdescr w).2 !! editor = Some ed'
    ∧ lb_tooltip lb' = lb_tooltip lb
    ∧ ed_parameters ed' = ed_parameters ed
    ∧ ed_value ed' = ed_value ed.
Proof.
  intros Hstate Hclass Hreg Hhidden.
  pose proof (panel_state_wf env h ops w Hstate) as Hwf.
  destruct (panel_state_complete env h ops w Hstate gcode name Hreg)
    as [[label editor] Hget].
  destruct (wf_entries _ _ Hwf _ _ _ (dict_get_Some_elem _ _ _ Hget))
    as (lb & ed & Hlb & _ & Hed & _).
  destruct (edit_keeps_pair env wdescr entry gcode name label editor
              Hclass Hreg Hhidden w Hwf Hget) as (_ & _ & Hc).
  unfold pair_content in Hc. rewrite Hlb, Hed in Hc. simpl in Hc.
  injection Hc as Hl He.
  apply fmap_Some in Hl as (lb' & Hlb' & Hl).
  apply fmap_Some in He as (ed' & Hed' & He).
  exists label, editor, lb, ed, lb', ed'.
  unfold lb_content in Hl. unfold ed_content in He.
  injection Hl as _ _ _ Htip. injection He as _ _ _ _ Hp Hv.
  split_and!; done.
Qed.

(** X17. After an [edit] that ends normally on well-formed tables, the
    editor of every property that is shown holds the widget's value for
    the property when that is a non-empty string; when it is the empty
    string, the editor holds the string default of the property's
    descriptor, as merged for the widget's class, and the empty string
    when the descriptor has no default.  The iterations for the other
    properties do not disturb it. *)
Theorem edit_shows_value_or_default (h : gmap loc pydict) (ops : list op)
    (w w' : world) (wdescr : WidgetDescr) (entry : ClassMapEntry) (S : loc → Prop)
    (gcode : string) (attrname : option string) (proplist : list string)
    (gp : loc) (name s : string) :
  panel_state env h ops w →
  CLASS_MAP env !! classname wdescr = Some entry →
  tables_wf env (heap w) S (classname wdescr) →
  edit env wdescr w = (Ok tt, w') →
  (gcode, attrname, proplist, gp) ∈ edit_groups env → name ∈ proplist →
  shown_by_spec (builder entry) gcode name = true →
  widget_property wdescr name = VStr s →
  ∃ group pl pdescr label editor ed,
    heap w !! gp = Some group ∧ dict_get name group = Some (VDict pl)
    ∧ merged_descr (heap w) (classname wdescr) (VDict pl) = Some pdescr
    ∧ dict_get (gcode +:+ name) (_propbag w') = Some (label, editor)
    ∧ editors w' !! editor = Some ed
    ∧ (s ≠ "" → ed_value ed = VStr s)
    ∧ (s = "" → ∀ t, dict_get "default" pdescr = Some (VStr t) →
         ed_value ed = VStr t)
    ∧ (s = "" → dict_get "default" pdescr = None → ed_value ed = VStr "").
Proof.
  intros Hstate Hclass Htab Hrun Hg Hname Hshown Hval.
  assert (registered env gcode name) as Hreg by (by do 3 eexists).
  destruct (edit_refreshes env h ops w wdescr entry S w' Hstate Hclass Htab Hrun
              gcode name Hreg Hshown)
    as (a & p & gp' & group & pl & pdescr & label & editor & lb & ed & hx & help
        & Hg' & Hgroup & Hpl & Hm & Hget & _ & Hed & Hv & _).
  destruct (edit_groups_gp env _ _ _ _ _ _ _ Hg Hg') as (_ & _ & <-).
  rewrite Hval in Hv.
  destruct (display_value_str hx s (dict_get "default" pdescr)) as (H1 & H2 & H3).
  exists group, pl, pdescr, label, editor, ed.
  split_and!; try done.
  - intros Hs. by rewrite Hv, H1.
  - intros Hs t Ht. rewrite Hv. by apply H2.
  - intros Hs Hd. rewrite Hv. by apply H3.
Qed.

(** X18. After an [edit] that ends normally on well-formed tables, the
    tooltip of every property that is shown is the ["help"] entry of the
    property's descriptor, as merged for the widget's class, when that
    entry is not a dict; it is [None] when the descriptor has no
    ["help"] entry. *)
Theorem edit_sets_plain_help_tooltips (h : gmap loc pydict) (ops : list op)
    (w w' : world) (wdescr : WidgetDescr) (entry : ClassMapEntry) (S : loc → Prop)
    (gcode : string) (attrname : option string) (proplist : list string)
    (gp : loc) (name : string) :
  panel_state env h ops w →
  CLASS_MAP env !! classname wdescr = Some entry →
  tables_wf env (heap w) S (classname wdescr) →
  edit env wdescr w = (Ok tt, w') →
  (gcode, attrname, proplist, gp) ∈ edit_groups env → name ∈ proplist →
  shown_by_spec (builder entry) gcode name = true →
  ∃ group pl pdescr label editor lb,
    heap w !! gp = Some group ∧ dict_get name group = Some (VDict pl)
    ∧ merged_descr (heap w) (classname wdescr) (VDict pl) = Some pdescr
    ∧ dict_get (gcode +:+ name) (_propbag w') = Some (label, editor)
    ∧ labels w' !! label = Some lb
    ∧ (∀ v, dict_get "help" pdescr = Some v → (∀ l, v ≠ VDict l) →
         lb_tooltip lb = Some v)
    ∧ (dict_get "help" pdescr = None → lb_tooltip lb = Some VNone).
Proof.
  intros Hstate Hclass Htab Hrun Hg Hname Hshown.
  assert (registered env gcode name) as Hreg by (by do 3 eexists).
  destruct (edit_refreshes env h ops w wdescr entry S w' Hstate Hclass Htab Hrun
              gcode name Hreg Hshown)
    as (a & p & gp' & group & pl & pdescr & label & editor & lb & ed & hx & help
        & Hg' & Hgroup & Hpl & Hm & Hget & Hlb & _ & _ & Hhelp & Htip).
  destruct (edit_groups_gp env _ _ _ _ _ _ _ Hg Hg') as (_ & _ & <-).
  exists group, pl, pdescr, label, editor, lb.
  split_and!; try done.
  - intros v Hv Hnd. rewrite Hv in Hhelp. simpl in Hhelp.
    destruct v; try (by rewrite Htip, Hhelp). by destruct (Hnd l).
  - intros Hnone. rewrite Hnone in Hhelp. simpl in Hhelp. by rewrite Htip, Hhelp.
Qed.

End edit_properties.

Section more_properties.
Context (env : Env).

(** X19. The editor of every pair of the bag has exactly one binding:
    the sequence [<<PropertyChanged>>], to the callback made for the
    name of its own property and for the editor itself.  An event of any
    other sequence on the editor ends normally and changes nothing. *)
Theorem editor_has_its_own_callback_only (h : gmap loc pydict) (ops : list op)
    (w : world) (key : string) (label editor : nat) :
  panel_state env h ops w →
  (key, (label, editor)) ∈ _propbag w →
  ∃ ed,
    editors w !! editor = Some ed
    ∧ ed_bindings ed = [("<<PropertyChanged>>", on_change_cb (key_name key) editor)]
    ∧ ∀ sequence, sequence ≠ "<<PropertyChanged>>" →
        event_generate editor sequence w = (Ok tt, w).
Proof.
  intros (row & Hbuilt & _)%panel_state_built Hin.
  destruct (Hbuilt _ _ _ Hin)
    as (gcode & gname & plist & gp & name & r & Hg & Hname & -> & _
        & pl & d & lb & ed & _ & _ & _ & Hed & _ & Hedi).
  destruct (key_parts gcode name) as [_ ->].
  { eapply registered_length, create_groups_registered; done. }
  unfold ed_identity in Hedi. injection Hedi as _ _ _ Hb.
  exists ed. split_and!; [done..|].
  intros sequence Hne. unfold event_generate, get_editor.
  rewrite bind_run, Hed, Hb. simpl. by rewrite decide_False.
Qed.

(** X20. The header of every group is a label of the panel, without a
    tooltip, and the labels without a tooltip are in the layout in every
    state of the panel: [hide_all] and [edit] never hide the headers of
    the groups, and no pair of the bag has such a label. *)
Theorem group_headers_stay_in_the_layout (h : gmap loc pydict) (ops : list op)
    (w : world) :
  panel_state env h ops w →
  (∀ gcode gname plist gp, (gcode, gname, plist, gp) ∈ create_groups env →
     ∃ i lb, labels w !! i = Some lb ∧ lb_text lb = gname
             ∧ lb_tooltip lb = None ∧ lb_gridded lb = true)
  ∧ ∀ i lb, labels w !! i = Some lb → lb_tooltip lb = None →
      lb_gridded lb = true
      ∧ ∀ key label editor, (key, (label, editor)) ∈ _propbag w → label ≠ i.
Proof.
  intros Hstate. pose proof (panel_state_wf env h ops w Hstate) as Hwf.
  destruct Hstate as (w0 & Hinit & ->).
  destruct (init_headers env h w0 Hinit) as (Hwf0 & Hgrid0 & Hall0).
  destruct (run_keeps_headers env ops w0) as [Hid Hkeep]. specialize (Hkeep Hwf0).
  assert (∀ i lb, labels (run env ops w0) !! i = Some lb → lb_tooltip lb = None →
            lb_gridded lb = true) as Hgrid.
  { intros i lb Hlb Ht.
    assert (is_Some (labels w0 !! i)) as [lb0 Hlb0].
    { apply lookup_lt_is_Some.
      unfold panel_identity in Hid. injection Hid as _ _ Hl.
      rewrite <-(length_fmap lb_identity), <-Hl, length_fmap.
      by eapply lookup_lt_Some. }
    destruct (identity_lookup_label w0 _ i lb0 Hid Hlb0) as (lb' & Hlb' & Hi).
    assert (lb' = lb) as -> by congruence.
    assert (lb_tooltip lb0 = None) as Ht0.
    { unfold lb_identity in Hi. rewrite Ht in Hi.
      destruct (lb_tooltip lb0); [by injection Hi|done]. }
    specialize (Hkeep i lb0 Hlb0 Ht0). rewrite Hlb in Hkeep. simpl in Hkeep.
    injection Hkeep as ->. by eapply Hgrid0. }
  split.
  - intros gcode gname plist gp Hg.
    destruct (Hall0 _ _ _ _ Hg) as (i & lb0 & Hlb0 & Htext & Ht0).
    destruct (identity_lookup_label w0 _ i lb0 Hid Hlb0) as (lb & Hlb & Hi).
    assert (lb_tooltip lb = None) as Ht.
    { unfold lb_identity in Hi. rewrite Ht0 in Hi.
      destruct (lb_tooltip lb); [by injection Hi|done]. }
    exists i, lb. split_and!; [done| |done|by eapply Hgrid].
    unfold lb_identity in Hi. injection Hi as -> _ _ _. done.
  - intros i lb Hlb Ht. split; [by eapply Hgrid|].
    intros key label editor Hin ->.
    destruct (wf_entries _ _ Hwf _ _ _ Hin) as (lb' & _ & Hlb' & [t Ht'] & _).
    congruence.
Qed.

(** X21. On well-formed tables, an [edit] that ends normally writes into
    ["params"] dicts only: the four tables, the descriptors and their
    entries for classes are after it what they were before it, and no
    dict is lost. *)
Theorem edit_writes_params_only (h : gmap loc pydict) (ops : list op)
    (w w' : world) (wdescr : WidgetDescr) (entry : ClassMapEntry) (S : loc → Prop) :
  panel_state env h ops w →
  CLASS_MAP env !! classname wdescr = Some entry →
  tables_wf env (heap w) S (classname wdescr) →
  edit env wdescr w = (Ok tt, w') →
  (∀ s, S s → heap w' !! s = heap w !! s)
  ∧ (∀ l, is_Some (heap w !! l) → is_Some (heap w' !! l))
  ∧ tables_wf env (heap w') S (classname wdescr).
Proof.
  intros Hstate Hclass Htab Hrun.
  unfold edit in Hrun. rewrite Hclass in Hrun.
  apply bind_Ok in Hrun as (u1 & w1 & Hm & Hrun). injection Hm as _ <-.
  apply bind_Ok in Hrun as ([] & w2 & Hloop & Hm). injection Hm as <-.
  assert (editing env S wdescr (heap w) (set__current (Some wdescr) w)) as Hw1.
  { split; [split_and!|apply heap_frame_same].
    - eapply panel_wf_keeps; [by eapply panel_state_wf|done].
    - exact (panel_state_complete env h ops w Hstate).
    - done. }
  destruct (edit_loop_editing env S wdescr (builder entry) (heap w) _ _ Htab Hw1 Hloop)
    as [(_ & _ & Htab2) [Hsame Hdom]].
  simpl_world. split_and!; done.
Qed.

End more_properties.

Section current_widget_properties.
Context (env : Env).

(** X22. An [edit] for a widget whose class is not in [CLASS_MAP] raises
    and leaves the labels and the editors as they were, showing the
    widget edited before; but the widget is already the current one, so
    a change the user then makes in an editor of the bag is told to the
    new widget: its setter is called with the editor's property name and
    the value. *)
Theorem failed_edit_redirects_change_events (h : gmap loc pydict) (ops : list op)
    (w : world) (wdescr : WidgetDescr) (key : string) (label editor : nat)
    (v : pyval) :
  panel_state env h ops w →
  CLASS_MAP env !! classname wdescr = None →
  (key, (label, editor)) ∈ _propbag w →
  ∃ w1 w2,
    edit env wdescr w = (Raise (KeyError (classname wdescr)), w1)
    ∧ labels w1 = labels w ∧ editors w1 = editors w
    ∧ user_input editor v w1 = (Ok tt, w2)
    ∧ setter_calls w2 = setter_calls w ++ [(wdescr, key_name key, v)].
Proof.
  intros Hwf%panel_state_wf Hnone Hin.
  set (w1 := set__current (Some wdescr) w).
  assert (edit env wdescr w = (Raise (KeyError (classname wdescr)), w1)) as Hedit.
  { unfold edit. rewrite bind_run. unfold modify at 1. by rewrite Hnone. }
  destruct (wf_entries _ _ Hwf _ _ _ Hin) as (lb & ed & _ & _ & He & _).
  set (w1' := set_editors <[editor := ed_set_value v ed]> w1).
  assert (panel_wf env w1') as Hwf1.
  { eapply panel_wf_keeps; [exact Hwf|].
    unfold w1', w1. by eapply (panel_identity_set_editors (set__current _ w)). }
  destruct (property_changed_run env w1' key label editor wdescr Hwf1 Hin eq_refl)
    as (ed1 & He1 & Hrun1).
  unfold w1', w1 in He1. simpl_world.
  rewrite list_lookup_insert_eq in He1 by (by eapply lookup_lt_Some).
  injection He1 as <-.
  exists w1, (log_setter_call (wdescr, key_name key, v) w1').
  split_and!; [done..| |done].
  unfold user_input.
  rewrite (bind_step _ _ _ tt w1').
  - exact Hrun1.
  - unfold editor_edit, update_editor_obj, get_editor. rewrite bind_run.
    unfold w1. simpl_world. by rewrite He.
Qed.

(** X23. The attribute [current], which [hide_all] assigns, is [None] in
    every state of a constructed panel: [edit] never assigns it, so it
    never names the widget that is edited. *)
Theorem current_attribute_is_always_None (h : gmap loc pydict) (ops : list op)
    (w : world) :
  panel_state env h ops w → current w = Some None.
Proof.
  intros (w0 & Hinit & ->).
  apply (init_current_attribute env) in Hinit.
  revert w0 Hinit. induction ops as [|o ops IH]; intros w0 Hc; [done|].
  rewrite run_cons. apply IH. by apply run_op_current.
Qed.

End current_widget_properties.

Section failure_properties.

(** X24. [update_editor] raises before it changes anything: called on a
    label that has a tooltip and on an editor that exists, as the pairs
    of the bag are, either it ends normally or it raises from the very
    state it was called in, with no dict assigned into, no parameters
    passed and no tooltip or value set. *)
Theorem update_editor_raises_before_it_changes (label editor : nat)
    (wdescr : WidgetDescr) (pname : string) (propdescr : pyval) (w w' : world)
    (lb : Label) (ed : Editor) (e : exn) :
  heap_closed (heap w) →
  labels w !! label = Some lb → is_Some (lb_tooltip lb) →
  editors w !! editor = Some ed →
  update_editor label editor wdescr pname propdescr w = (Raise e, w') →
  w' = w.
Proof.
  intros Hclosed Hlb Ht Hed Hrun.
  destruct (update_editor_all_or_nothing label editor wdescr pname lb ed propdescr w
              Hclosed Hlb Ht Hed) as [[w1 Hok]|[e1 Hraise]].
  - rewrite Hok in Hrun. discriminate Hrun.
  - rewrite Hraise in Hrun. by injection Hrun.
Qed.

End failure_properties.

(** * The properties on the sample designer *)

Module SampleFacts.
Import Sample SampleRuns.

Lemma w0_state : panel_state env tables [] w0.
Proof. exists w0. split; [by vm_compute|done]. Defined.

Lemma w_button_state : panel_state env tables [Edit button] w_button.
Proof. exists w0. split; [by vm_compute|done]. Defined.

Lemma registered_text : registered env "01" "text".
Proof.
  exists (Some "OPTIONS_STANDARD"), ["cursor"; "text"], 1. split.
  - apply list_elem_of_further, list_elem_of_here.
  - apply list_elem_of_further, list_elem_of_here.
Defined.

Lemma heap_w0 : heap w0 = tables.
Proof. vm_compute. reflexivity. Defined.

Lemma tables_wf_button : tables_wf env (heap w0) structural "ttk.Button".
Proof.
  rewrite heap_w0. split.
  - intros s Hs. unfold structural in Hs.
    assert (s ∈ [0;1;2;3;4;5;6;7;8;9;13;15]) as Hin.
    { destruct Hs as [Hs|[->| ->]].
      - do 10 (destruct s as [|s]; [set_solver|]). lia.
      - set_solver.
      - set_solver. }
    repeat (apply elem_of_cons in Hin as [->|Hin]; [vm_compute; by eexists|]).
    by apply elem_of_nil in Hin.
  - intros g a pl gp n Hg Hn. unfold edit_groups in Hg. simpl in Hg.
    repeat (apply elem_of_cons in Hg as [[= -> -> -> ->]|Hg];
      [repeat (apply elem_of_cons in Hn as [->|Hn];
         [split; [unfold structural; lia|];
          eexists _, _; split_and!;
            [vm_compute; reflexivity | vm_compute; reflexivity
            | unfold structural; lia |];
          eexists; split_and!; [vm_compute; reflexivity|..]
         |]); [..|by apply elem_of_nil in Hn] |]);
    [..|by apply elem_of_nil in Hg].
    all: try (intros v Hv; vm_compute in Hv; discriminate Hv).
    all: try (intros v Hv; vm_compute in Hv; injection Hv as <-;
              eexists; split_and!;
                [reflexivity | unfold structural; lia
                | vm_compute; eexists; reflexivity]).
    + intros hl Hv. vm_compute in Hv. injection Hv as <-. vm_compute. by eexists.
    + intros v Hv. vm_compute in Hv. injection Hv as <-.
      eexists _, _. split_and!;
        [reflexivity | unfold structural; lia | vm_compute; reflexivity | |].
      * intros v' Hin.
        repeat (apply elem_of_cons in Hin as [[= ->]|Hin]).
        -- eexists. split_and!;
             [reflexivity | unfold structural; lia | vm_compute; by eexists].
        -- by apply elem_of_nil in Hin.
      * intros hl Hin.
        repeat (apply elem_of_cons in Hin as [[=]|Hin]).
        by apply elem_of_nil in Hin.
Defined.

End SampleFacts.

Lemma edit_shows_exactly_witness :
  (∃ w', edit Sample.env Sample.button Sample.w0 = (Ok tt, w')
         ∧ tables_wf Sample.env (heap w') Sample.structural "ttk.Button")
  ∧ (∀ key label editor, (key, (label, editor)) ∈ _propbag SampleRuns.w_edit →
       ∃ gcode name, key = gcode +:+ name ∧ registered Sample.env gcode name)
  ∧ ∀ gcode name, registered Sample.env gcode name →
      ∃ label editor lb ed,
        dict_get (gcode +:+ name) (_propbag SampleRuns.w_edit) = Some (label, editor)
        ∧ labels SampleRuns.w_edit !! label = Some lb
        ∧ editors SampleRuns.w_edit !! editor = Some ed
        ∧ lb_gridded lb =
            shown_by_spec {| OPTIONS_STANDARD := ["cursor"; "text"];
                             OPTIONS_SPECIFIC := ["command"; "state"];
                             OPTIONS_CUSTOM := [] |} gcode name
        ∧ ed_gridded ed =
            shown_by_spec {| OPTIONS_STANDARD := ["cursor"; "text"];
                             OPTIONS_SPECIFIC := ["command"; "state"];
                             OPTIONS_CUSTOM := [] |} gcode name.
Proof.
  destruct (edit_shows_exactly Sample.env Sample.tables [] Sample.w0 Sample.button
              {| builder := {| OPTIONS_STANDARD := ["cursor"; "text"];
                               OPTIONS_SPECIFIC := ["command"; "state"];
                               OPTIONS_CUSTOM := [] |} |}
              Sample.structural) as [Hruns Hshows].
  - exact SampleFacts.w0_state.
  - vm_compute. reflexivity.
  - split.
    + apply Hruns. exact SampleFacts.tables_wf_button.
    + apply (Hshows SampleRuns.w_edit). vm_compute. reflexivity.
Defined.

Lemma editor_value_is_current_or_default_witness :
  ∃ pdescr ed,
    merged_descr (heap Sample.w0) "ttk.Button" (VDict 6) = Some pdescr
    ∧ editors SampleRuns.w_text !! 3 = Some ed
    ∧ (truthy (heap SampleRuns.w_text) (VStr "") = true → ed_value ed = VStr "")
    ∧ (truthy (heap SampleRuns.w_text) (VStr "") = false →
       ∀ d, dict_get "default" pdescr = Some d →
         truthy (heap SampleRuns.w_text) d = true → ed_value ed = d)
    ∧ (truthy (heap SampleRuns.w_text) (VStr "") = false →
       (∀ d, dict_get "default" pdescr = Some d →
          truthy (heap SampleRuns.w_text) d = false) →
       ed_value ed = VStr "")
    ∧ (∀ s, VStr "" = VStr s →
       ed_value ed =
         display_value_spec (heap SampleRuns.w_text) (VStr s)
           (dict_get "default" pdescr)).
Proof.
  apply (editor_value_is_current_or_default 5 3 Sample.button "text" (VDict 6)
           Sample.w0 SampleRuns.w_text).
  vm_compute. reflexivity.
Defined.

(** The getter of [Sample.blank] answers [None] and the descriptor of
    ["command"] has no default: [editor.edit] is called with [None], not
    with the empty string. *)
Lemma editor_value_is_current_or_default_counterexample :
  ∃ w' pdescr ed,
    update_editor 7 4 Sample.blank "command" (VDict 7) Sample.w0 = (Ok tt, w')
    ∧ merged_descr (heap Sample.w0) (classname Sample.blank) (VDict 7) = Some pdescr
    ∧ editors w' !! 4 = Some ed
    ∧ widget_property Sample.blank "command" = VNone
    ∧ truthy (heap w') (widget_property Sample.blank "command") = false
    ∧ dict_get "default" pdescr = None
    ∧ display_value_spec (heap w') (widget_property Sample.blank "command")
        (dict_get "default" pdescr) = VStr ""
    ∧ ed_value ed = VNone
    ∧ ed_value ed ≠
        display_value_spec (heap w') (widget_property Sample.blank "command")
          (dict_get "default" pdescr).
Proof.
  exists (update_editor 7 4 Sample.blank "command" (VDict 7) Sample.w0).2,
    [("editor", VStr "entry"); ("help", VStr "Callback")],
    {| ed_class := PropertyEditor (VStr "entry"); ed_row := 7; ed_column := 1;
       ed_gridded := false;
       ed_bindings := [("<<PropertyChanged>>", on_change_cb "command" 4)];
       ed_parameters := Some []; ed_value := VNone |}.
  split_and!; try (vm_compute; reflexivity).
  vm_compute. discriminate.
Defined.

Lemma tooltip_is_first_prefix_match_witness :
  ∃ items lb text,
    heap SampleRuns.w_text !! 13 = Some items
    ∧ labels SampleRuns.w_text !! 5 = Some lb
    ∧ lb_tooltip lb = Some text
    ∧ text = help_for_class "ttk.Button" items
    ∧ first_prefix_match "ttk.Button" items text
    ∧ (is_Some (heap Sample.w0 !! 13) →
       dict_get "params"
         [("editor", VStr "text"); ("help", VDict 13); ("default", VStr "hello")]
         ≠ Some (VDict 13) →
       heap Sample.w0 !! 13 = Some items).
Proof.
  apply (tooltip_is_first_prefix_match 5 3 Sample.button "text" (VDict 6)
           Sample.w0 SampleRuns.w_text
           [("editor", VStr "text"); ("help", VDict 13); ("default", VStr "hello")] 13).
  - vm_compute. reflexivity.
  - vm_compute. reflexivity.
  - vm_compute. reflexivity.
Defined.

Lemma hide_all_hides_every_property_witness :
  ∃ w', hide_all Sample.w_button = (Ok tt, w')
    ∧ _propbag w' = _propbag Sample.w_button
    ∧ ∀ key label editor, (key, (label, editor)) ∈ _propbag w' →
        (∃ lb, labels w' !! label = Some lb ∧ lb_gridded lb = false)
        ∧ (∃ ed, editors w' !! editor = Some ed ∧ ed_gridded ed = false).
Proof.
  apply (hide_all_hides_every_property Sample.env Sample.tables [Edit Sample.button]
           Sample.w_button).
  exact SampleFacts.w_button_state.
Defined.

Lemma property_changed_calls_setter_once_witness :
  (∃ ed w', editors Sample.w_button !! 3 = Some ed
     ∧ event_generate 3 "<<PropertyChanged>>" Sample.w_button = (Ok tt, w')
     ∧ setter_calls w' =
         setter_calls Sample.w_button ++ [(Sample.button, "text", ed_value ed)]
     ∧ w' = log_setter_call (Sample.button, "text", ed_value ed) Sample.w_button)
  ∧ ∀ v, ∃ w', user_input 3 v Sample.w_button = (Ok tt, w')
      ∧ setter_calls w' = setter_calls Sample.w_button ++ [(Sample.button, "text", v)].
Proof.
  apply (property_changed_calls_setter_once Sample.env Sample.tables
           [Edit Sample.button] Sample.w_button Sample.button "01" "text" 5 3).
  - exact SampleFacts.w_button_state.
  - vm_compute. reflexivity.
  - exact SampleFacts.registered_text.
  - vm_compute. reflexivity.
Defined.


Lemma edit_propagates_lookup_failures_witness :
  edit Sample.env Sample.button SampleVariants.w_bad_class =
    (Raise (TypeError "argument after ** must be a mapping"),
     (for_each
        (edit_step Sample.button
           {| OPTIONS_STANDARD := ["cursor"; "text"];
              OPTIONS_SPECIFIC := ["command"; "state"];
              OPTIONS_CUSTOM := [] |})
        [("00", None, 0, "class"); ("00", None, 0, "id");
         ("01", Some "OPTIONS_STANDARD", 1, "cursor");
         ("01", Some "OPTIONS_STANDARD", 1, "text");
         ("02", Some "OPTIONS_SPECIFIC", 1, "command")]
        (set__current (Some Sample.button) SampleVariants.w_bad_class)).2).
Proof.
  apply (proj2 (proj2 (proj2
           (edit_propagates_lookup_failures Sample.env Sample.tables
              (heap SampleVariants.w_bad_class) [] Sample.w0 Sample.button
              SampleFacts.w0_state)
           {| builder := {| OPTIONS_STANDARD := ["cursor"; "text"];
                            OPTIONS_SPECIFIC := ["command"; "state"];
                            OPTIONS_CUSTOM := [] |} |}
           [("00", None, 0, "class"); ("00", None, 0, "id");
            ("01", Some "OPTIONS_STANDARD", 1, "cursor");
            ("01", Some "OPTIONS_STANDARD", 1, "text");
            ("02", Some "OPTIONS_SPECIFIC", 1, "command")]
           "02" (Some "OPTIONS_SPECIFIC") 1 "state"
           [("03", Some "OPTIONS_CUSTOM", 2, "scrolltype")]
           _
           [("cursor", VDict 5); ("text", VDict 6); ("command", VDict 7);
            ("state", VDict 8)]
           ltac:(vm_compute; reflexivity) ltac:(vm_compute; reflexivity)
           ltac:(vm_compute; reflexivity) ltac:(vm_compute; reflexivity)))
           8 [("editor", VStr "choice"); ("params", VDict 14);
              ("ttk.Button", VStr "disabled")]
           (VStr "disabled")).
  - vm_compute. reflexivity.
  - vm_compute. reflexivity.
  - vm_compute. by eexists.
  - vm_compute. reflexivity.
  - discriminate.
  - vm_compute. reflexivity.
Defined.

Lemma hide_all_keeps_current_widget_witness :
  _current (hide_all SampleRuns.w_edit).2 = Some Sample.button
  ∧ current (hide_all SampleRuns.w_edit).2 = Some None
  ∧ ∃ ed, editors (hide_all SampleRuns.w_edit).2 !! 3 = Some ed
      ∧ event_generate 3 "<<PropertyChanged>>" (hide_all SampleRuns.w_edit).2 =
          (Ok tt, log_setter_call (Sample.button, key_name "01text", ed_value ed)
                    (hide_all SampleRuns.w_edit).2)
      ∧ setter_calls (log_setter_call (Sample.button, key_name "01text", ed_value ed)
                        (hide_all SampleRuns.w_edit).2) =
          setter_calls (hide_all SampleRuns.w_edit).2
            ++ [(Sample.button, key_name "01text", ed_value ed)].
Proof.
  apply (hide_all_keeps_current_widget Sample.env Sample.tables [] Sample.w0
           SampleRuns.w_edit (hide_all SampleRuns.w_edit).2 Sample.button
           (Ok tt) (Ok tt) "01text" 5 3).
  - exact SampleFacts.w0_state.
  - vm_compute. reflexivity.
  - vm_compute. reflexivity.
  - apply dict_get_Some_elem. vm_compute. reflexivity.
Defined.

Lemma update_editor_mutates_shared_params_witness :
  ∃ generic default_mode ed d1,
    (∃ pl, VDict 8 = VDict pl ∧ heap Sample.w0 !! pl = Some generic)
    ∧ generic_mode (heap Sample.w0) generic = Some default_mode
    ∧ editors Sample.w0 !! 5 = Some ed
    ∧ heap SampleRuns.w_state !! 16 = Some d1
    ∧ d1 = with_placeholder "state" (ed_class ed) (start_id Sample.button)
             (with_default_mode default_mode [("values", VStr "disabled")])
    ∧ (default_mode ≠ VNone →
       dict_get "mode" [("values", VStr "disabled")] = None →
       dict_get "mode" d1 = Some default_mode)
    ∧ ("state" = "id" → ed_class ed = NamedIDPropertyEditor →
       dict_get "placeholder" d1 = Some (start_id Sample.button))
    ∧ ∀ ops, ∃ d2,
        heap (run Sample.env ops SampleRuns.w_state) !! 16 = Some d2
        ∧ ∀ k v, dict_get k d1 = Some v →
            is_Some (dict_get k d2)
            ∧ (k ≠ "placeholder" → dict_get k d2 = Some v).
Proof.
  apply (update_editor_mutates_shared_params Sample.env 8 5 Sample.button "state"
           (VDict 8) Sample.w0 SampleRuns.w_state
           [("editor", VStr "choice"); ("params", VDict 16); ("ttk.Button", VDict 15);
            ("help", VStr "Button state")] 16 [("values", VStr "disabled")]).
  - vm_compute. reflexivity.
  - vm_compute. reflexivity.
  - vm_compute. reflexivity.
  - vm_compute. reflexivity.
Defined.

Module SampleFacts2.
Import Sample SampleRuns SampleVariants.

Lemma names_distinct_env : names_distinct env.
Proof.
  unfold names_distinct. split_and!; apply (bool_decide_unpack _); vm_compute; exact I.
Defined.

Lemma tables_typed_without_scrolltype : tables_typed env tables_without_scrolltype.
Proof.
  intros gcode gname plist gp Hg. unfold create_groups in Hg. simpl in Hg.
  repeat (apply elem_of_cons in Hg as [[= -> -> -> ->]|Hg]).
  all: try (by apply elem_of_nil in Hg).
  all: (split; [vm_compute; by eexists|]).
  all: intros name v Hname Hv;
    repeat (apply elem_of_cons in Hname as [->|Hname]);
    try (by apply elem_of_nil in Hname);
    vm_compute in Hv; try discriminate Hv; injection Hv as <-;
    eexists; (split; [reflexivity|vm_compute; by eexists]).
Defined.

Lemma w_hidden_state : panel_state env tables [Edit button; HideAll] w_hidden.
Proof. exists w0. split; [by vm_compute|done]. Defined.

Lemma no_edit_in_hide_all : ∀ wdescr, Edit wdescr ∉ [HideAll].
Proof.
  intros wdescr Hin. apply elem_of_cons in Hin as [Hin|Hin]; [discriminate Hin|].
  by apply elem_of_nil in Hin.
Defined.

Lemma hide_all_state : panel_state env tables [HideAll] (run env [HideAll] w0).
Proof. exists w0. split; [by vm_compute|done]. Defined.

Lemma standard_group :
  ("01", "Standard", ["cursor"; "text"], 1) ∈ create_groups env.
Proof. apply list_elem_of_further, list_elem_of_here. Defined.

Lemma standard_edit_group :
  ("01", Some "OPTIONS_STANDARD", ["cursor"; "text"], 1) ∈ edit_groups env.
Proof. apply list_elem_of_further, list_elem_of_here. Defined.

Lemma specific_edit_group :
  ("02", Some "OPTIONS_SPECIFIC", ["command"; "state"], 1) ∈ edit_groups env.
Proof. do 2 apply list_elem_of_further. apply list_elem_of_here. Defined.

Lemma text_listed : "text" ∈ ["cursor"; "text"].
Proof. apply list_elem_of_further, list_elem_of_here. Defined.

Lemma command_listed : "command" ∈ ["command"; "state"].
Proof. apply list_elem_of_here. Defined.

Lemma registered_scrolltype : registered env "03" "scrolltype".
Proof.
  exists (Some "OPTIONS_CUSTOM"), ["scrolltype"], 2. split.
  - do 3 apply list_elem_of_further. apply list_elem_of_here.
  - apply list_elem_of_here.
Defined.

Lemma text_pair : ("01text", (5, 3)) ∈ _propbag w0.
Proof. apply dict_get_Some_elem. vm_compute. reflexivity. Defined.

Lemma heap_closed_bad_class : heap_closed (heap w_bad_class).
Proof.
  apply heap_closed_of_list.
  let l := eval vm_compute in (map_to_list (heap w_bad_class)) in
    assert (map_to_list (heap w_bad_class) = l) as -> by (vm_compute; reflexivity).
  repeat (apply Forall_cons; split;
    [cbn [snd];
     repeat (apply Forall_cons; split;
       [cbn [snd]; try exact I; try (vm_compute; by eexists)|]);
     apply Forall_nil_2|]).
  apply Forall_nil_2.
Defined.

End SampleFacts2.

Lemma init_failure_is_missing_descriptor_witness :
  ∃ gcode gname plist gp name,
    (gcode, gname, plist, gp) ∈ create_groups Sample.env ∧ name ∈ plist
    ∧ descriptor SampleVariants.tables_without_scrolltype gp name = None
    ∧ KeyError "scrolltype" = KeyError name.
Proof.
  apply (init_failure_is_missing_descriptor Sample.env
           SampleVariants.tables_without_scrolltype (KeyError "scrolltype")
           (__init__ Sample.env (new_world SampleVariants.tables_without_scrolltype)).2).
  - exact SampleFacts2.tables_typed_without_scrolltype.
  - vm_compute. reflexivity.
Defined.

Lemma pairs_on_rows_of_their_own_witness :
  (∀ key label editor, (key, (label, editor)) ∈ _propbag Sample.w_button →
     ∃ lb ed,
       labels Sample.w_button !! label = Some lb
       ∧ editors Sample.w_button !! editor = Some ed
       ∧ lb_text lb = key_name key +:+ ":"
       ∧ lb_row lb = ed_row ed ∧ 0 < lb_row lb
       ∧ lb_column lb = 0 ∧ ed_column ed = 1)
  ∧ ∀ k1 l1 e1 k2 l2 e2 lb1 lb2,
      (k1, (l1, e1)) ∈ _propbag Sample.w_button →
      (k2, (l2, e2)) ∈ _propbag Sample.w_button →
      labels Sample.w_button !! l1 = Some lb1 →
      labels Sample.w_button !! l2 = Some lb2 →
      lb_row lb1 = lb_row lb2 → k1 = k2.
Proof.
  apply (pairs_on_rows_of_their_own Sample.env Sample.tables [Edit Sample.button]
           Sample.w_button).
  exact SampleFacts.w_button_state.
Defined.

Lemma editor_class_from_descriptor_witness :
  ∃ label editor pl d ed,
    dict_get ("01" +:+ "text") (_propbag Sample.w_button) = Some (label, editor)
    ∧ descriptor Sample.tables 1 "text" = Some (VDict pl)
    ∧ Sample.tables !! pl = Some d
    ∧ editors Sample.w_button !! editor = Some ed
    ∧ ed_class ed = create_editor Sample.env (default VNone (dict_get "editor" d)).
Proof.
  apply (editor_class_from_descriptor Sample.env Sample.tables [Edit Sample.button]
           Sample.w_button "01" "Standard" ["cursor"; "text"] 1 "text").
  - exact SampleFacts.w_button_state.
  - exact SampleFacts2.standard_group.
  - exact SampleFacts2.text_listed.
Defined.

Lemma bag_keys_are_the_listed_properties_witness :
  dict_keys (_propbag Sample.w_button) =
    map (String.append "00") (WIDGET_REQUIRED_OPTIONS Sample.env)
    ++ map (String.append "01") (WIDGET_STANDARD_OPTIONS Sample.env)
    ++ map (String.append "02") (WIDGET_SPECIFIC_OPTIONS Sample.env)
    ++ map (String.append "03") (WIDGET_CUSTOM_OPTIONS Sample.env).
Proof.
  apply (bag_keys_are_the_listed_properties Sample.env Sample.tables
           [Edit Sample.button] Sample.w_button).
  - exact SampleFacts2.names_distinct_env.
  - exact SampleFacts.w_button_state.
Defined.

Lemma every_editor_is_in_the_bag_witness :
  (∀ i, i < length (editors Sample.w_button) →
     ∃ key label, (key, (label, i)) ∈ _propbag Sample.w_button)
  ∧ length (_propbag Sample.w_button) = length (editors Sample.w_button)
  ∧ ∀ w' i ed, hide_all Sample.w_button = (Ok tt, w') → editors w' !! i = Some ed →
      ed_gridded ed = false.
Proof.
  apply (every_editor_is_in_the_bag Sample.env Sample.tables [Edit Sample.button]
           Sample.w_button).
  - exact SampleFacts2.names_distinct_env.
  - exact SampleFacts.w_button_state.
Defined.

Lemma hide_all_is_idempotent_witness :
  ∃ w1, hide_all Sample.w_button = (Ok tt, w1) ∧ hide_all w1 = (Ok tt, w1).
Proof.
  apply (hide_all_is_idempotent Sample.env Sample.tables [Edit Sample.button]
           Sample.w_button).
  exact SampleFacts.w_button_state.
Defined.

Lemma change_event_before_first_edit_raises_witness :
  _current (run Sample.env [HideAll] Sample.w0) = None
  ∧ event_generate 3 "<<PropertyChanged>>" (run Sample.env [HideAll] Sample.w0) =
      (Raise (AttributeError "widget_property"), run Sample.env [HideAll] Sample.w0).
Proof.
  apply (change_event_before_first_edit_raises Sample.env Sample.tables [HideAll]
           (run Sample.env [HideAll] Sample.w0) "01text" 5 3).
  - exact SampleFacts2.hide_all_state.
  - exact SampleFacts2.no_edit_in_hide_all.
  - apply dict_get_Some_elem. vm_compute. reflexivity.
Defined.

Lemma class_params_replace_generic_params_witness :
  ∃ ed kw,
    editors SampleRuns.w_state !! 5 = Some ed
    ∧ ed_parameters ed = Some kw
    ∧ (∀ k, k ≠ "mode" → k ≠ "placeholder" →
         dict_get k kw = dict_get k [("values", VStr "disabled")])
    ∧ (∀ m, dict_get "mode" [("values", VStr "disabled")] = Some m →
         dict_get "mode" kw = Some m).
Proof.
  apply (class_params_replace_generic_params 8 5 Sample.button "state" 8 15 16
           Sample.w0 SampleRuns.w_state
           [("editor", VStr "choice"); ("params", VDict 14); ("ttk.Button", VDict 15)]
           [("params", VDict 16); ("help", VStr "Button state")]
           [("values", VStr "disabled")]).
  - vm_compute. reflexivity.
  - vm_compute. reflexivity.
  - vm_compute. reflexivity.
  - vm_compute. reflexivity.
  - apply (bool_decide_unpack _). vm_compute. exact I.
  - vm_compute. reflexivity.
  - vm_compute. reflexivity.
Defined.

Lemma no_params_no_arguments_witness :
  ∃ ed0 ed,
    editors Sample.w0 !! 4 = Some ed0 ∧ editors SampleVariants.w_command !! 4 = Some ed
    ∧ ed_parameters ed =
        Some (with_placeholder "command" (ed_class ed0) (start_id Sample.button) [])
    ∧ ("command" ≠ "id" → ed_parameters ed = Some [])
    ∧ ("command" = "id" → ed_class ed0 = NamedIDPropertyEditor →
       ed_parameters ed = Some [("placeholder", start_id Sample.button)])
    ∧ ∀ l d, heap Sample.w0 !! l = Some d → heap SampleVariants.w_command !! l = Some d.
Proof.
  apply (no_params_no_arguments 7 4 Sample.button "command" (VDict 7) Sample.w0
           SampleVariants.w_command
           [("editor", VStr "entry"); ("help", VStr "Callback")]).
  - vm_compute. reflexivity.
  - vm_compute. reflexivity.
  - vm_compute. reflexivity.
Defined.

Lemma edit_keeps_hidden_properties_witness :
  ∃ label editor lb ed lb' ed',
    dict_get ("03" +:+ "scrolltype") (_propbag SampleVariants.w_hidden)
      = Some (label, editor)
    ∧ labels SampleVariants.w_hidden !! label = Some lb
    ∧ editors SampleVariants.w_hidden !! editor = Some ed
    ∧ labels (edit Sample.env Sample.button SampleVariants.w_hidden).2 !! label
        = Some lb'
    ∧ editors (edit Sample.env Sample.button SampleVariants.w_hidden).2 !! editor
        = Some ed'
    ∧ lb_tooltip lb' = lb_tooltip lb
    ∧ ed_parameters ed' = ed_parameters ed
    ∧ ed_value ed' = ed_value ed.
Proof.
  apply (edit_keeps_hidden_properties Sample.env Sample.tables
           [Edit Sample.button; HideAll] SampleVariants.w_hidden Sample.button
           SampleVariants.button_entry "03" "scrolltype").
  - exact SampleFacts2.w_hidden_state.
  - vm_compute. reflexivity.
  - exact SampleFacts2.registered_scrolltype.
  - vm_compute. reflexivity.
Defined.

Lemma edit_shows_value_or_default_witness :
  ∃ group pl pdescr label editor ed,
    heap Sample.w0 !! 1 = Some group ∧ dict_get "text" group = Some (VDict pl)
    ∧ merged_descr (heap Sample.w0) "ttk.Button" (VDict pl) = Some pdescr
    ∧ dict_get ("01" +:+ "text") (_propbag SampleRuns.w_edit) = Some (label, editor)
    ∧ editors SampleRuns.w_edit !! editor = Some ed
    ∧ ("" ≠ "" → ed_value ed = VStr "")
    ∧ ("" = "" → ∀ t, dict_get "default" pdescr = Some (VStr t) →
         ed_value ed = VStr t)
    ∧ ("" = "" → dict_get "default" pdescr = None → ed_value ed = VStr "").
Proof.
  apply (edit_shows_value_or_default Sample.env Sample.tables [] Sample.w0
           SampleRuns.w_edit Sample.button SampleVariants.button_entry Sample.structural
           "01" (Some "OPTIONS_STANDARD") ["cursor"; "text"] 1 "text" "").
  - exact SampleFacts.w0_state.
  - vm_compute. reflexivity.
  - exact SampleFacts.tables_wf_button.
  - vm_compute. reflexivity.
  - exact SampleFacts2.standard_edit_group.
  - exact SampleFacts2.text_listed.
  - vm_compute. reflexivity.
  - vm_compute. reflexivity.
Defined.

Lemma edit_sets_plain_help_tooltips_witness :
  ∃ group pl pdescr label editor lb,
    heap Sample.w0 !! 1 = Some group ∧ dict_get "command" group = Some (VDict pl)
    ∧ merged_descr (heap Sample.w0) "ttk.Button" (VDict pl) = Some pdescr
    ∧ dict_get ("02" +:+ "command") (_propbag SampleRuns.w_edit) = Some (label, editor)
    ∧ labels SampleRuns.w_edit !! label = Some lb
    ∧ (∀ v, dict_get "help" pdescr = Some v → (∀ l, v ≠ VDict l) →
         lb_tooltip lb = Some v)
    ∧ (dict_get "help" pdescr = None → lb_tooltip lb = Some VNone).
Proof.
  apply (edit_sets_plain_help_tooltips Sample.env Sample.tables [] Sample.w0
           SampleRuns.w_edit Sample.button SampleVariants.button_entry Sample.structural
           "02" (Some "OPTIONS_SPECIFIC") ["command"; "state"] 1 "command").
  - exact SampleFacts.w0_state.
  - vm_compute. reflexivity.
  - exact SampleFacts.tables_wf_button.
  - vm_compute. reflexivity.
  - exact SampleFacts2.specific_edit_group.
  - exact SampleFacts2.command_listed.
  - vm_compute. reflexivity.
Defined.

Lemma editor_has_its_own_callback_only_witness :
  ∃ ed,
    editors Sample.w0 !! 3 = Some ed
    ∧ ed_bindings ed = [("<<PropertyChanged>>", on_change_cb (key_name "01text") 3)]
    ∧ ∀ sequence, sequence ≠ "<<PropertyChanged>>" →
        event_generate 3 sequence Sample.w0 = (Ok tt, Sample.w0).
Proof.
  apply (editor_has_its_own_callback_only Sample.env Sample.tables [] Sample.w0
           "01text" 5 3).
  - exact SampleFacts.w0_state.
  - exact SampleFacts2.text_pair.
Defined.

Lemma group_headers_stay_in_the_layout_witness :
  (∀ gcode gname plist gp, (gcode, gname, plist, gp) ∈ create_groups Sample.env →
     ∃ i lb, labels SampleVariants.w_hidden !! i = Some lb ∧ lb_text lb = gname
             ∧ lb_tooltip lb = None ∧ lb_gridded lb = true)
  ∧ ∀ i lb, labels SampleVariants.w_hidden !! i = Some lb → lb_tooltip lb = None →
      lb_gridded lb = true
      ∧ ∀ key label editor,
          (key, (label, editor)) ∈ _propbag SampleVariants.w_hidden → label ≠ i.
Proof.
  apply (group_headers_stay_in_the_layout Sample.env Sample.tables
           [Edit Sample.button; HideAll] SampleVariants.w_hidden).
  exact SampleFacts2.w_hidden_state.
Defined.

Lemma edit_writes_params_only_witness :
  (∀ s, Sample.structural s → heap SampleRuns.w_edit !! s = heap Sample.w0 !! s)
  ∧ (∀ l, is_Some (heap Sample.w0 !! l) → is_Some (heap SampleRuns.w_edit !! l))
  ∧ tables_wf Sample.env (heap SampleRuns.w_edit) Sample.structural "ttk.Button".
Proof.
  apply (edit_writes_params_only Sample.env Sample.tables [] Sample.w0
           SampleRuns.w_edit Sample.button SampleVariants.button_entry Sample.structural).
  - exact SampleFacts.w0_state.
  - vm_compute. reflexivity.
  - exact SampleFacts.tables_wf_button.
  - vm_compute. reflexivity.
Defined.

Lemma failed_edit_redirects_change_events_witness :
  ∃ w1 w2,
    edit Sample.env Sample.stranger Sample.w_button =
      (Raise (KeyError (classname Sample.stranger)), w1)
    ∧ labels w1 = labels Sample.w_button ∧ editors w1 = editors Sample.w_button
    ∧ user_input 3 (VStr "OK") w1 = (Ok tt, w2)
    ∧ setter_calls w2 =
        setter_calls Sample.w_button ++ [(Sample.stranger, key_name "01text", VStr "OK")].
Proof.
  apply (failed_edit_redirects_change_events Sample.env Sample.tables
           [Edit Sample.button] Sample.w_button Sample.stranger "01text" 5 3
           (VStr "OK")).
  - exact SampleFacts.w_button_state.
  - vm_compute. reflexivity.
  - apply dict_get_Some_elem. vm_compute. reflexivity.
Defined.

Lemma current_attribute_is_always_None_witness :
  current Sample.w_button = Some None.
Proof.
  apply (current_attribute_is_always_None Sample.env Sample.tables
           [Edit Sample.button] Sample.w_button).
  exact SampleFacts.w_button_state.
Defined.

Lemma update_editor_raises_before_it_changes_witness :
  (update_editor 8 5 Sample.button "state" (VDict 8) SampleVariants.w_bad_class).2
  = SampleVariants.w_bad_class.
Proof.
  apply (update_editor_raises_before_it_changes 8 5 Sample.button "state" (VDict 8)
           SampleVariants.w_bad_class
           (update_editor 8 5 Sample.button "state" (VDict 8)
              SampleVariants.w_bad_class).2
           {| lb_text := "state:"; lb_row := 8; lb_column := 0; lb_gridded := false;
              lb_tooltip := Some (VStr "?") |}
           {| ed_class := PropertyEditor (VStr "choice"); ed_row := 8; ed_column := 1;
              ed_gridded := false;
              ed_bindings := [("<<PropertyChanged>>", on_change_cb "state" 5)];
              ed_parameters := None; ed_value := VStr "" |}
           (TypeError "argument after ** must be a mapping")).
  - exact SampleFacts2.heap_closed_bad_class.
  - vm_compute. reflexivity.
  - by eexists.
  - vm_compute. reflexivity.
  - vm_compute. reflexivity.
Defined.

(** ** The sample designer, run *)

(** After [__init__] nothing is shown. *)
Example sample_new_panel :
  SampleRuns.layout Sample.w0 =
    [ ("00class", Some false, Some false); ("00id", Some false, Some false);
      ("01cursor", Some false, Some false); ("01text", Some false, Some false);
      ("02command", Some false, Some false); ("02state", Some false, Some false);
      ("03scrolltype", Some false, Some false) ].
Proof. vm_compute. reflexivity. Qed.

(** A button has no custom property. *)
Example sample_edit_button :
  SampleRuns.layout SampleRuns.w_edit =
    [ ("00class", Some true, Some true); ("00id", Some true, Some true);
      ("01cursor", Some true, Some true); ("01text", Some true, Some true);
      ("02command", Some true, Some true); ("02state", Some true, Some true);
      ("03scrolltype", Some false, Some false) ].
Proof. vm_compute. reflexivity. Qed.

(** Selecting a frame after the button hides what a frame does not have. *)
Example sample_edit_frame_after_button :
  SampleRuns.layout (run Sample.env [Edit Sample.frame] SampleRuns.w_edit) =
    [ ("00class", Some true, Some true); ("00id", Some true, Some true);
      ("01cursor", Some true, Some true); ("01text", Some false, Some false);
      ("02command", Some false, Some false); ("02state", Some false, Some false);
      ("03scrolltype", Some true, Some true) ].
Proof. vm_compute. reflexivity. Qed.

(** The button has no text: the editor shows the default; the tooltip is
    the help for ["ttk."], the first key that is a prefix of the class. *)
Example sample_text_editor :
  ed_value <$> editors SampleRuns.w_text !! 3 = Some (VStr "hello")
  ∧ lb_tooltip <$> labels SampleRuns.w_text !! 5 = Some (Some (VStr "Themed text")).
Proof. vm_compute. split; reflexivity. Qed.

(** The button has a command: the editor shows it. *)
Example sample_command_editor :
  ed_value <$> editors SampleRuns.w_edit !! 4 = Some (VStr "on_click").
Proof. vm_compute. reflexivity. Qed.

(** A current value that is falsy and is not a string is passed as it
    is when the descriptor has no default. *)
Example sample_value_None :
  ed_value <$>
    editors (update_editor 7 4 Sample.blank "command" (VDict 7) Sample.w0).2 !! 4
  = Some VNone.
Proof. vm_compute. reflexivity. Qed.

(** The entry of the tables for the button's ["state"] has gained the
    generic ["mode"]; the editor got it too. *)
Example sample_state_mode :
  Sample.tables !! 16 = Some [("values", VStr "disabled")]
  ∧ heap SampleRuns.w_state !! 16 =
      Some [("values", VStr "disabled"); ("mode", VStr "readonly")]
  ∧ (ed_parameters <$> editors SampleRuns.w_state !! 5) =
      Some (Some [("values", VStr "disabled"); ("mode", VStr "readonly")]).
Proof. vm_compute. split_and!; reflexivity. Qed.

(** The ["params"] of ["id"] in the tables keep the placeholder of the
    last widget edited. *)
Example sample_id_placeholder :
  Sample.tables !! 11 = Some []
  ∧ heap SampleRuns.w_id !! 11 = Some [("placeholder", VStr "button1")]
  ∧ heap (run Sample.env [Edit Sample.frame] SampleRuns.w_id) !! 11 =
      Some [("placeholder", VStr "frame1")]
  ∧ heap (run Sample.env [Edit Sample.frame; HideAll] SampleRuns.w_state) !! 16 =
      Some [("values", VStr "disabled"); ("mode", VStr "readonly")].
Proof. vm_compute. split_and!; reflexivity. Qed.

(** Before any [edit] there is no widget to tell: the callback raises. *)
Example sample_event_before_edit :
  event_generate 3 "<<PropertyChanged>>" Sample.w0 =
    (Raise (AttributeError "widget_property"), Sample.w0).
Proof. vm_compute. reflexivity. Qed.

(** The user types into the editor of ["text"] after the button was
    selected and the panel was hidden: the button is told. *)
Example sample_input_after_hide_all :
  map (fun c => (wd_id c.1.1, c.1.2, c.2))
    (setter_calls
       (run Sample.env [Edit Sample.button; HideAll; UserInput 3 (VStr "OK")]
          Sample.w0))
  = [(1, "text", VStr "OK")].
Proof. vm_compute. reflexivity. Qed.

(** A class that [CLASS_MAP] does not know, and a required property
    whose descriptor is gone from the tables: [edit] raises the
    [KeyError] of the lookup. *)
Example sample_lookup_failures :
  (edit Sample.env Sample.stranger Sample.w0).1 = Raise (KeyError "tk.Unknown")
  ∧ (edit Sample.env Sample.button
       (set_heap <[0 := [("id", VDict 4)]]> Sample.w0)).1 = Raise (KeyError "class").
Proof. vm_compute. split; reflexivity. Qed.

(** ** The variations, run *)

(** Without a descriptor for ["scrolltype"], construction raises the
    [KeyError] of the lookup. *)
Example sample_init_missing_descriptor :
  (__init__ Sample.env (new_world SampleVariants.tables_without_scrolltype)).1
  = Raise (KeyError "scrolltype").
Proof. vm_compute. reflexivity. Qed.

(** With ["cursor"] listed twice, the second pair takes the key of the
    first: the bag has seven pairs for eight editors, and the first
    editor of ["cursor"], which no key names, is still in the layout
    after the [hide_all] that ends construction. *)
Example sample_name_listed_twice :
  length (_propbag SampleVariants.w0_twice) = 7
  ∧ length (editors SampleVariants.w0_twice) = 8
  ∧ dict_get "01cursor" (_propbag SampleVariants.w0_twice) = Some (6, 4)
  ∧ ed_gridded <$> editors SampleVariants.w0_twice !! 2 = Some true
  ∧ ed_gridded <$> editors SampleVariants.w0_twice !! 4 = Some false.
Proof. vm_compute. split_and!; reflexivity. Qed.

(** After [edit(button)] and [hide_all], the four headers are the only
    labels in the layout. *)
Example sample_headers_after_hide_all :
  map (fun lb => (lb_text lb, lb_gridded lb)) (labels SampleVariants.w_hidden) =
    [ ("Required", true); ("class:", false); ("id:", false);
      ("Standard", true); ("cursor:", false); ("text:", false);
      ("Specific", true); ("command:", false); ("state:", false);
      ("Custom", true); ("scrolltype:", false) ].
Proof. vm_compute. reflexivity. Qed.

(** The required property ["class"] has no help: its tooltip text is
    [None] once the button is edited. *)
Example sample_tooltip_without_help :
  lb_tooltip <$> labels SampleRuns.w_edit !! 1 = Some (Some VNone).
Proof. vm_compute. reflexivity. Qed.

(** A string where the entry for the class should be a dict:
    [update_editor] raises [TypeError]. *)
Example sample_class_entry_not_a_dict :
  (update_editor 8 5 Sample.button "state" (VDict 8) SampleVariants.w_bad_class).1
  = Raise (TypeError "argument after ** must be a mapping").
Proof. vm_compute. reflexivity. Qed.

(** The entry of ["state"] for the class is a string: [edit] raises the
    [TypeError] at the sixth property, with the five before it shown,
    ["state"] and ["scrolltype"] as they were, and the frame not
    repositioned. *)
Example sample_edit_class_entry_not_a_dict :
  (edit Sample.env Sample.button SampleVariants.w_bad_class).1
    = Raise (TypeError "argument after ** must be a mapping")
  ∧ SampleRuns.layout (edit Sample.env Sample.button SampleVariants.w_bad_class).2 =
      [ ("00class", Some true, Some true); ("00id", Some true, Some true);
        ("01cursor", Some true, Some true); ("01text", Some true, Some true);
        ("02command", Some true, Some true); ("02state", Some false, Some false);
        ("03scrolltype", Some false, Some false) ]
  ∧ repositions (edit Sample.env Sample.button SampleVariants.w_bad_class).2 = 0.
Proof. vm_compute. split_and!; reflexivity. Qed.
